(** * Store inventory management app: a shallow embedding of [app.py] and
      [models.py], and the properties of its validators, its CSV import and
      export, its product CRUD and its price statistics.

    Conventions of the embedding.
    - Python [int] is [Z]; Python [float] is IEEE 754 binary64, computed with
      the executable specification [SpecFloat] of the standard library
      (precision 53, exponent bound 1024, round to nearest even).
    - [fractions.Fraction] is [Q], kept in lowest terms with [Qred].
    - An operation that can raise returns [res]; [None] is Python's [None].
    - The SQLAlchemy session is a record of the committed tables and of the
      tables as the open transaction sees them; a table is the list of its
      rows in rowid order.
    - The functions of the [statistics] module follow CPython 3.11/3.12.
    - The operator's keyboard is the list of the lines still to be read;
      [input()] takes the first one and raises [EOFError] when none is left.
    - Text printed on the console is not modelled, except the values that
      the analysis report interpolates; [time.sleep] is not modelled.
    - The CSV files are the lists of their records: the lexical layer of the
      [csv] module (quoting, line ends) is not modelled.
    - Strings are sequences of 8-bit characters, and the functions on
      strings follow CPython on ASCII text: [str.strip] removes the
      characters 9 to 13 and 28 to 32, [int] and [float] skip the characters
      9 to 13 and 32 only. The white space and the digits that Unicode adds
      above 127 are not modelled; the theorems on a text that is refused
      take it in ASCII ([PyStr.is_ascii]).
    - The tables hold any integer. An INTEGER column of SQLite holds 64
      bits, and flushing another integer raises [OverflowError]; the
      theorems on what is stored take the integers in that range
      ([sqlite_int], [pending_fits]).
    - A query that groups and orders by the count returns the groups of
      equal count as SQLite's sorter does: in the order of the scan when
      ascending, in the reverse order when descending.
    - The limit of 4300 digits that CPython 3.11 sets on [int()] and
      [str()] is not modelled. *)

From Stdlib Require Import ZArith QArith Qreduction List String Ascii Bool Lia.
From Stdlib Require Import Permutation Sorted SpecFloat DecimalString.
From Stdlib Require Decimal DecimalPos DecimalZ.
Import ListNotations.

Local Open Scope Z_scope.

(* ===================================================================== *)
(** * Python runtime: exceptions and results *)
(* ===================================================================== *)

Module Py.

(** The exceptions the modelled code can raise. *)
Inductive exn : Type :=
| ValueError
| TypeError
| OverflowError
| ZeroDivisionError
| IndexError
| AttributeError
| StatisticsError (msg : string)
| EOFError
| NoResultFound
| MultipleResultsFound.

(** The outcome of a call: a value, or a raised exception. *)
Inductive res (A : Type) : Type :=
| Ok (a : A)
| Raise (e : exn).

Arguments Ok {A} a.
Arguments Raise {A} e.

Definition bind {A B : Type} (m : res A) (k : A -> res B) : res B :=
  match m with
  | Ok a => k a
  | Raise e => Raise e
  end.

Definition is_ok {A : Type} (m : res A) : bool :=
  match m with Ok _ => true | Raise _ => false end.

End Py.

Import Py.

Declare Scope py_scope.
Delimit Scope py_scope with py.
Notation "x <- m ;; k" := (Py.bind m (fun x => k))
  (at level 61, m at next level, right associativity) : py_scope.
Notation "' pat <- m ;; k" := (Py.bind m (fun x => match x with pat => k end))
  (at level 61, pat pattern, m at next level, right associativity) : py_scope.
Local Open Scope py_scope.

(* ===================================================================== *)
(** * Python [float]: IEEE 754 binary64 *)
(* ===================================================================== *)

Module Float64.

Definition prec : Z := 53.
Definition emax : Z := 1024.

Definition float : Type := spec_float.

Definition is_finite (x : float) : bool :=
  match x with
  | S754_zero _ | S754_finite _ _ _ => true
  | _ => false
  end.

(** The quotient [n / d] of two integers, [0 < d], rounded once to the
    nearest binary64 (ties to even): Python's [int / int], and the value
    of a decimal literal. *)
Definition of_ratio (n d : Z) : float :=
  match n with
  | Z0 => S754_zero false
  | Zpos p =>
      let '(mz, ez, lz) := SFdiv_core_binary prec emax (Zpos p) 0 d 0 in
      binary_round_aux prec emax false mz ez lz
  | Zneg p =>
      let '(mz, ez, lz) := SFdiv_core_binary prec emax (Zpos p) 0 d 0 in
      binary_round_aux prec emax true mz ez lz
  end.

(** [float(n)] for an integer [n], before the overflow check. *)
Definition of_Z (n : Z) : float := binary_normalize prec emax n 0 false.

Definition mul (x y : float) : float := SFmul prec emax x y.
Definition div (x y : float) : float := SFdiv prec emax x y.
Definition sub (x y : float) : float := SFsub prec emax x y.
Definition sqrt (x : float) : float := SFsqrt prec emax x.
Definition eqb (x y : float) : bool := SFeqb x y.

(** The exact value of a finite float, as a rational. *)
Definition to_Q (x : float) : Q :=
  match x with
  | S754_finite s m e =>
      let v := if 0 <=? e then inject_Z (Zpos m * 2 ^ e)
               else Qmake (Zpos m) (Z.to_pos (2 ^ (- e))) in
      if s then Qopp v else v
  | _ => 0%Q
  end.

(** [int(x)]: truncation towards zero. *)
Definition trunc (x : float) : res Z :=
  match x with
  | S754_zero _ => Ok 0
  | S754_finite s m e =>
      let a := if 0 <=? e then Zpos m * 2 ^ e else Zpos m / 2 ^ (- e) in
      Ok (if s then - a else a)
  | S754_infinity _ => Raise OverflowError
  | S754_nan => Raise ValueError
  end.

(** Nearest integer to the rational [n / d], [0 < d], ties to even. *)
Definition round_half_even (n d : Z) : Z :=
  let q := n / d in
  let r := n mod d in
  match 2 * r ?= d with
  | Lt => q
  | Gt => q + 1
  | Eq => if Z.even q then q else q + 1
  end.

(** [round(x)] with no digits argument: nearest integer, ties to even. *)
Definition round (x : float) : res Z :=
  match x with
  | S754_zero _ => Ok 0
  | S754_finite s m e =>
      let a := if 0 <=? e then Zpos m * 2 ^ e
               else round_half_even (Zpos m) (2 ^ (- e)) in
      Ok (if s then - a else a)
  | S754_infinity _ => Raise OverflowError
  | S754_nan => Raise ValueError
  end.

(** The hundredths nearest to a finite float, ties to even: the digits
    that the format specification [.2f] prints. *)
Definition hundredths (x : float) : Z :=
  match x with
  | S754_finite _ m e =>
      if 0 <=? e then 100 * Zpos m * 2 ^ e
      else round_half_even (100 * Zpos m) (2 ^ (- e))
  | _ => 0
  end.

Definition sign (x : float) : bool :=
  match x with
  | S754_zero s | S754_infinity s | S754_finite s _ _ => s
  | S754_nan => false
  end.

End Float64.

(* ===================================================================== *)
(** * Python [str]: the methods and conversions the app uses *)
(* ===================================================================== *)

(** The methods follow CPython on ASCII text. A character above 127 is
    taken as neither a digit nor white space, which is not what CPython does
    with the digits and the white space of Unicode: [is_ascii] tells the
    texts on which the model and the interpreter agree. The interpreter's
    limit on the number of digits of an [int] literal is not modelled. *)

Module PyStr.

Definition code (c : ascii) : Z := Z.of_N (N_of_ascii c).

(** White space as [str.strip] sees it in ASCII text: the characters for
    which [str.isspace] holds. *)
Definition is_space (c : ascii) : bool :=
  let n := code c in
  ((9 <=? n) && (n <=? 13)) || ((28 <=? n) && (n <=? 32)).

(** White space as [int] and [float] see it in ASCII text: the characters
    of C's [isspace]; the separators 28 to 31 are not among them. *)
Definition is_c_space (c : ascii) : bool :=
  let n := code c in
  ((9 <=? n) && (n <=? 13)) || (n =? 32).

(** A text of ASCII characters. The functions of this module follow
    CPython on such texts; on others, [str.strip], [int] and [float] also
    know the white space and the digits of Unicode. *)
Fixpoint is_ascii (s : string) : bool :=
  match s with
  | EmptyString => true
  | String c r => (code c <? 128) && is_ascii r
  end.

Definition is_digit (c : ascii) : bool :=
  let n := code c in (48 <=? n) && (n <=? 57).

Definition digit_value (c : ascii) : Z := code c - 48.

Definition to_lower (c : ascii) : ascii :=
  let n := code c in
  if (65 <=? n) && (n <=? 90) then ascii_of_N (Z.to_N (n + 32)) else c.

Fixpoint lower (s : string) : string :=
  match s with
  | EmptyString => EmptyString
  | String c r => String (to_lower c) (lower r)
  end.

Fixpoint rev_append (s acc : string) : string :=
  match s with
  | EmptyString => acc
  | String c r => rev_append r (String c acc)
  end.

Definition rev (s : string) : string := rev_append s EmptyString.

Fixpoint lstrip_by (p : ascii -> bool) (s : string) : string :=
  match s with
  | EmptyString => EmptyString
  | String c r => if p c then lstrip_by p r else s
  end.

Definition rstrip_by (p : ascii -> bool) (s : string) : string :=
  rev (lstrip_by p (rev s)).

(** [s.strip()] *)
Definition strip (s : string) : string :=
  rstrip_by is_space (lstrip_by is_space s).

(** The text that [int] and [float] parse: without the white space of C
    around it. *)
Definition c_strip (s : string) : string :=
  rstrip_by is_c_space (lstrip_by is_c_space s).

Fixpoint mem_char (c : ascii) (chars : string) : bool :=
  match chars with
  | EmptyString => false
  | String d r => Ascii.eqb c d || mem_char c r
  end.

(** [s.lstrip(chars)]: drops every leading character that is in [chars]. *)
Definition lstrip (chars : string) (s : string) : string :=
  lstrip_by (fun c => mem_char c chars) s.

(** [s.split(sep)] for a separator of one character. *)
Fixpoint split_aux (sep : ascii) (cur : string) (s : string) : list string :=
  match s with
  | EmptyString => [rev cur]
  | String c r =>
      if Ascii.eqb c sep then rev cur :: split_aux sep EmptyString r
      else split_aux sep (String c cur) r
  end.

Definition split (sep : ascii) (s : string) : list string :=
  split_aux sep EmptyString s.

(** Underscores of a numeric literal: each one stands between two digits.
    [drop_underscores prev s] removes them, or fails; [prev] tells whether
    the character before [s] is a digit. *)
Fixpoint drop_underscores (prev : bool) (s : string) : option string :=
  match s with
  | EmptyString => Some EmptyString
  | String c r =>
      if Ascii.eqb c "_" then
        match r with
        | String d _ =>
            if prev && is_digit d then drop_underscores false r else None
        | EmptyString => None
        end
      else option_map (String c) (drop_underscores (is_digit c) r)
  end.

(** The leading digits of [s], as a value and a count, and the rest. *)
Fixpoint take_digits (acc : Z) (cnt : Z) (s : string) : Z * Z * string :=
  match s with
  | String c r =>
      if is_digit c then take_digits (10 * acc + digit_value c) (cnt + 1) r
      else (acc, cnt, s)
  | EmptyString => (acc, cnt, s)
  end.

(** An optional sign: [true] for [-]. *)
Definition take_sign (s : string) : bool * string :=
  match s with
  | String "-" r => (true, r)
  | String "+" r => (false, r)
  | _ => (false, s)
  end.

(** [int(s)], base ten. *)
Definition int_of_str (s : string) : res Z :=
  let '(neg, body) := take_sign (c_strip s) in
  match drop_underscores false body with
  | None => Raise ValueError
  | Some ds =>
      match take_digits 0 0 ds with
      | (v, cnt, EmptyString) =>
          if 0 <? cnt then Ok (if neg then - v else v) else Raise ValueError
      | _ => Raise ValueError
      end
  end.

(** The exponent part of a float literal: empty, or [e], a sign, digits. *)
Definition take_exponent (s : string) : option Z :=
  match s with
  | EmptyString => Some 0
  | String c r =>
      if Ascii.eqb (to_lower c) "e" then
        let '(neg, r') := take_sign r in
        match take_digits 0 0 r' with
        | (v, cnt, EmptyString) =>
            if 0 <? cnt then Some (if neg then - v else v) else None
        | _ => None
        end
      else None
  end.

(** A float literal without sign, as a pair [(m, e)] standing for
    [m * 10 ^ e]: digits, an optional point and digits, an exponent. *)
Definition take_decimal (s : string) : option (Z * Z) :=
  let '(ip, icnt, r1) := take_digits 0 0 s in
  let '(m, fcnt, r2) :=
    match r1 with
    | String "." r => take_digits ip 0 r
    | _ => (ip, 0, r1)
    end in
  if 0 <? icnt + fcnt then
    option_map (fun e => (m, e - fcnt)) (take_exponent r2)
  else None.

(** [float(s)] *)
Definition float_of_str (s : string) : res Float64.float :=
  match drop_underscores false (c_strip s) with
  | None => Raise ValueError
  | Some t =>
      let '(neg, body) := take_sign t in
      let name := lower body in
      if String.eqb name "inf" || String.eqb name "infinity" then
        Ok (S754_infinity neg)
      else if String.eqb name "nan" then Ok S754_nan
      else
        match take_decimal body with
        | None => Raise ValueError
        | Some (m, e) =>
            let x := if 0 <=? e then Float64.of_ratio (m * 10 ^ e) 1
                     else Float64.of_ratio m (10 ^ (- e)) in
            Ok (if neg then SFopp x else x)
        end
  end.

(** [str(n)] for an integer. *)
Definition str_of_int (n : Z) : string :=
  NilZero.string_of_int (Z.to_int n).

(** The decimal digits of [n], padded with zeros on the left to [width]
    characters at least; [0 <= n]. *)
Fixpoint zeros (k : nat) : string :=
  match k with O => EmptyString | S k' => String "0" (zeros k') end.

Definition pad_int (width : nat) (n : Z) : string :=
  let d := str_of_int n in
  zeros (width - String.length d) ++ d.

End PyStr.

(* ===================================================================== *)
(** * Python numbers and sequences *)
(* ===================================================================== *)

Module PyNum.

(** A number as the statistics functions return it: [int] or [float]. *)
Inductive num : Type :=
| Int (z : Z)
| Float (x : Float64.float).

(** [a / b] on two integers: the correctly rounded quotient. *)
Definition truediv (a b : Z) : res Float64.float :=
  match b with
  | Z0 => Raise ZeroDivisionError
  | Zpos _ =>
      let x := Float64.of_ratio a b in
      if Float64.is_finite x then Ok x else Raise OverflowError
  | Zneg _ =>
      let x := Float64.of_ratio (- a) (- b) in
      if Float64.is_finite x then Ok x else Raise OverflowError
  end.

(** [x / 100] for a number [x]. *)
Definition div100 (x : num) : res Float64.float :=
  match x with
  | Int z => truediv z 100
  | Float f => Ok (Float64.div f (Float64.of_Z 100))
  end.

(** [round(x)] for a float. *)
Definition round (x : Float64.float) : res Z := Float64.round x.

(** [n.bit_length()] *)
Definition bit_length (n : Z) : Z :=
  if n =? 0 then 0 else Z.log2 (Z.abs n) + 1.

(** [format(x, '.2f')] *)
Definition format_2f (x : Float64.float) : string :=
  match x with
  | S754_nan => "nan"
  | S754_infinity s => if s then "-inf" else "inf"
  | _ =>
      let h := Float64.hundredths x in
      ((if Float64.sign x then "-" else "")
         ++ PyStr.str_of_int (h / 100) ++ "." ++ PyStr.pad_int 2 (h mod 100))%string
  end.

(** [xs[i]], with Python's negative indices. *)
Definition getitem {A : Type} (xs : list A) (i : Z) : res A :=
  let n := Z.of_nat (List.length xs) in
  let k := if i <? 0 then i + n else i in
  if (0 <=? k) && (k <? n) then
    match nth_error xs (Z.to_nat k) with
    | Some x => Ok x
    | None => Raise IndexError
    end
  else Raise IndexError.

(** A stable sort: [sorted(xs, key=...)] and SQL's ORDER BY. [leb x y]
    tells that [x] may stand before [y]. *)
Section Sort.
Context {A : Type} (leb : A -> A -> bool).

Fixpoint insert (x : A) (l : list A) : list A :=
  match l with
  | [] => [x]
  | y :: r => if leb x y then x :: l else y :: insert x r
  end.

Fixpoint sort (l : list A) : list A :=
  match l with
  | [] => []
  | x :: r => insert x (sort r)
  end.

(** The order that [leb] decides. *)
Definition le_of : A -> A -> Prop := fun a b => leb a b = true.
End Sort.

(** [sorted(data)] on integers. *)
Definition sorted (data : list Z) : list Z := sort Z.leb data.

Definition sum (data : list Z) : Z := fold_left Z.add data 0.

Definition len {A : Type} (xs : list A) : Z := Z.of_nat (List.length xs).

End PyNum.

Import PyNum.

(* ===================================================================== *)
(** * The [statistics] module, on lists of integers *)
(* ===================================================================== *)

Module Statistics.

(** [_sum(data)]: the exact total and the count. *)
Definition _sum (data : list Z) : Q * Z :=
  (inject_Z (sum data), len data).

(** [_convert(value, int)]: an integer when the fraction is one, else the
    nearest float. *)
Definition _convert (value : Q) : res num :=
  let v := Qred value in
  if (Zpos (Qden v) =? 1) then Ok (Int (Qnum v))
  else x <- truediv (Qnum v) (Zpos (Qden v)) ;; Ok (Float x).

(** [mean(data)] *)
Definition mean (data : list Z) : res num :=
  let '(total, n) := _sum data in
  if n <? 1 then
    Raise (StatisticsError "mean requires at least one data point")
  else _convert (total / inject_Z n)%Q.

(** [median(data)] *)
Definition median (data : list Z) : res num :=
  let data := sorted data in
  let n := len data in
  if n =? 0 then Raise (StatisticsError "no median for empty data")
  else if n mod 2 =? 1 then
    x <- getitem data (n / 2) ;; Ok (Int x)
  else
    let i := n / 2 in
    a <- getitem data (i - 1) ;;
    b <- getitem data i ;;
    x <- truediv (a + b) 2 ;;
    Ok (Float x).

(** [collections.Counter]: the counts, keyed in order of first
    occurrence. *)
Fixpoint counter_add (x : Z) (c : list (Z * Z)) : list (Z * Z) :=
  match c with
  | [] => [(x, 1)]
  | (k, n) :: r =>
      if k =? x then (k, n + 1) :: r else (k, n) :: counter_add x r
  end.

Definition Counter (data : list Z) : list (Z * Z) :=
  fold_left (fun c x => counter_add x c) data [].

(** [max(items, key=itemgetter(1))]: the first item of greatest count. *)
Fixpoint max_by_count (best : Z * Z) (items : list (Z * Z)) : Z * Z :=
  match items with
  | [] => best
  | it :: r => max_by_count (if snd best <? snd it then it else best) r
  end.

(** [Counter.most_common(1)] *)
Definition most_common_1 (c : list (Z * Z)) : list (Z * Z) :=
  match c with
  | [] => []
  | it :: r => [max_by_count it r]
  end.

(** [mode(data)] *)
Definition mode (data : list Z) : res Z :=
  match most_common_1 (Counter data) with
  | p :: _ => Ok (fst p)
  | [] => Raise (StatisticsError "no mode for empty data")
  end.

(** [_ss(data)]: the count, the exact sum of the squared deviations from
    the mean, and the mean. *)
Definition _ss (data : list Z) : Q * Q * Z :=
  let count := len data in
  let sx := inject_Z (sum data) in
  let sxx := inject_Z (sum (map (fun n => n * n) data)) in
  if count =? 0 then (0%Q, 0%Q, count)
  else
    (Qred ((inject_Z count * sxx - sx * sx) / inject_Z count)%Q,
     Qred (sx / inject_Z count)%Q,
     count).

(** [pvariance(data)] *)
Definition pvariance (data : list Z) : res num :=
  let '(ss, c, n) := _ss data in
  if n <? 1 then
    Raise (StatisticsError "pvariance requires at least one data point")
  else _convert (ss / inject_Z n)%Q.

(** [_integer_sqrt_of_frac_rto(n, m)]: the square root of [n / m] as an
    integer, rounded to odd. *)
Definition _integer_sqrt_of_frac_rto (n m : Z) : Z :=
  let a := Z.sqrt (n / m) in
  Z.lor a (if a * a * m =? n then 0 else 1).

Definition _sqrt_bit_width : Z := 2 * 53 + 3.

(** [_float_sqrt_of_frac(n, m)] *)
Definition _float_sqrt_of_frac (n m : Z) : res Float64.float :=
  let q := (bit_length n - bit_length m - _sqrt_bit_width) / 2 in
  if 0 <=? q then
    truediv (Z.shiftl (_integer_sqrt_of_frac_rto n (Z.shiftl m (2 * q))) q) 1
  else
    truediv (_integer_sqrt_of_frac_rto (Z.shiftl n (- 2 * q)) m)
            (Z.shiftl 1 (- q)).

(** [pstdev(data)] *)
Definition pstdev (data : list Z) : res Float64.float :=
  let '(ss, c, n) := _ss data in
  if n <? 1 then
    Raise (StatisticsError "pstdev requires at least one data point")
  else
    let mss := Qred (ss / inject_Z n)%Q in
    _float_sqrt_of_frac (Qnum mss) (Zpos (Qden mss)).

(** One cut point of [quantiles(data, n=4, method='exclusive')], on the
    sorted data of length [ld]. *)
Definition cut_point (data : list Z) (ld : Z) (i : Z) : res Float64.float :=
  let n := 4 in
  let m := ld + 1 in
  let j := i * m / n in
  let j := if j <? 1 then 1 else if ld - 1 <? j then ld - 1 else j in
  let delta := i * m - j * n in
  a <- getitem data (j - 1) ;;
  b <- getitem data j ;;
  truediv (a * (n - delta) + b * delta) n.

(** [quantiles(data)]: the three quartiles. *)
Definition quantiles (data : list Z) : res (list Float64.float) :=
  let data := sorted data in
  let ld := len data in
  if ld <? 2 then
    Raise (StatisticsError "must have at least two data points")
  else
    q1 <- cut_point data ld 1 ;;
    q2 <- cut_point data ld 2 ;;
    q3 <- cut_point data ld 3 ;;
    Ok [q1; q2; q3].

End Statistics.

(* ===================================================================== *)
(** * [datetime.datetime] *)
(* ===================================================================== *)

Module Datetime.

Record datetime : Type := {
  year : Z; month : Z; day : Z;
  hour : Z; minute : Z; second : Z; microsecond : Z
}.

Definition is_leap (y : Z) : bool :=
  (y mod 4 =? 0) && (negb (y mod 100 =? 0) || (y mod 400 =? 0)).

Definition days_in_month (y m : Z) : Z :=
  if m =? 2 then (if is_leap y then 29 else 28)
  else if (m =? 4) || (m =? 6) || (m =? 9) || (m =? 11) then 30
  else 31.

(** The range of a C [int], in which the constructor takes its
    arguments. *)
Definition fits_int (n : Z) : bool :=
  (- 2 ^ 31 <=? n) && (n <? 2 ^ 31).

(** [datetime(y, m, d)]: midnight of a date of the calendar. *)
Definition make (y m d : Z) : res datetime :=
  if negb (fits_int y && fits_int m && fits_int d) then Raise OverflowError
  else if (1 <=? y) && (y <=? 9999) && (1 <=? m) && (m <=? 12)
     && (1 <=? d) && (d <=? days_in_month y m)
  then Ok {| year := y; month := m; day := d;
             hour := 0; minute := 0; second := 0; microsecond := 0 |}
  else Raise ValueError.

(** The fields of a datetime, most significant first. *)
Definition fields (t : datetime) : list Z :=
  [year t; month t; day t; hour t; minute t; second t; microsecond t].

Fixpoint lex_leb (a b : list Z) : bool :=
  match a, b with
  | x :: a', y :: b' => (x <? y) || ((x =? y) && lex_leb a' b')
  | _, _ => true
  end.

(** [s <= t] *)
Definition leb (s t : datetime) : bool := lex_leb (fields s) (fields t).

(** [str(t)]: the ISO format with a space between date and time. *)
Definition str (t : datetime) : string :=
  (PyStr.pad_int 4 (year t) ++ "-" ++ PyStr.pad_int 2 (month t) ++ "-"
     ++ PyStr.pad_int 2 (day t) ++ " " ++ PyStr.pad_int 2 (hour t) ++ ":"
     ++ PyStr.pad_int 2 (minute t) ++ ":" ++ PyStr.pad_int 2 (second t)
     ++ (if (microsecond t =? 0)%Z then ""
         else "." ++ PyStr.pad_int 6 (microsecond t)))%string.

Definition month_name (m : Z) : string :=
  nth (Z.to_nat (m - 1))
      ["January"; "February"; "March"; "April"; "May"; "June"; "July";
       "August"; "September"; "October"; "November"; "December"]%string
      ""%string.

(** [t.strftime('%B %d, %Y')], in the C locale. *)
Definition strftime_B_d_Y (t : datetime) : string :=
  (month_name (month t) ++ " " ++ PyStr.pad_int 2 (day t) ++ ", "
     ++ PyStr.str_of_int (year t))%string.

End Datetime.

Import Datetime.

(* ===================================================================== *)
(** * [models.py]: the two tables and the session *)
(* ===================================================================== *)

Module Brand.
Record t : Type := { brand_id : Z; brand_name : string }.
End Brand.

Module Product.
(** [product_price] and [brand_id] can hold [None]: the CSV import stores
    a price that failed to parse as [None], and the operator can leave the
    brand out. *)
Record t : Type := {
  product_id : Z;
  product_name : string;
  product_quantity : Z;
  product_price : option Z;
  date_updated : datetime;
  brand_id : option Z
}.
End Product.

Module Models.

(** The rows of each table, in rowid order; the integer primary key is
    the rowid. *)
Record Tables : Type := {
  brands : list Brand.t;
  products : list Product.t
}.

(** The session: what is committed to [inventory.db], and what the open
    transaction sees (the committed rows with the pending changes). *)
Record Session : Type := {
  committed : Tables;
  working : Tables
}.

(** The next rowid of a table: one more than the greatest in use. *)
Definition next_id (ids : list Z) : Z :=
  match ids with
  | [] => 1
  | x :: r => fold_left Z.max r x + 1
  end.

Definition set_working (s : Session) (t : Tables) : Session :=
  {| committed := committed s; working := t |}.

(** [session.add(Brand(brand_name=...))] *)
Definition add_brand (name : string) (s : Session) : Session :=
  let t := working s in
  let b := {| Brand.brand_id := next_id (map Brand.brand_id (brands t));
              Brand.brand_name := name |} in
  set_working s {| brands := brands t ++ [b]; products := products t |}.

(** [session.add(Product(...))]. The row is stored whatever its integers
    are; see [sqlite_int] for the ones that SQLite accepts. *)
Definition add_product_row (name : string) (quantity : Z)
           (price : option Z) (brand : option Z) (date : datetime)
           (s : Session) : Session :=
  let t := working s in
  let p := {| Product.product_id :=
                next_id (map Product.product_id (products t));
              Product.product_name := name;
              Product.product_quantity := quantity;
              Product.product_price := price;
              Product.date_updated := date;
              Product.brand_id := brand |} in
  set_working s {| brands := brands t; products := products t ++ [p] |}.

(** Assigning the attributes of the mapped product of id [pid]. The
    values are stored whatever they are; see [sqlite_int] for the ones that
    SQLite accepts. *)
Definition set_product (pid : Z) (quantity : Z) (price : option Z)
           (brand : option Z) (date : datetime) (s : Session) : Session :=
  let t := working s in
  let upd (p : Product.t) :=
    if Product.product_id p =? pid then
      {| Product.product_id := Product.product_id p;
         Product.product_name := Product.product_name p;
         Product.product_quantity := quantity;
         Product.product_price := price;
         Product.date_updated := date;
         Product.brand_id := brand |}
    else p in
  set_working s {| brands := brands t; products := map upd (products t) |}.

(** [session.delete(product)] *)
Definition delete_product (pid : Z) (s : Session) : Session :=
  let t := working s in
  set_working s
    {| brands := brands t;
       products :=
         filter (fun p => negb (Product.product_id p =? pid)) (products t) |}.

(** [session.commit()] *)
Definition commit (s : Session) : Session :=
  {| committed := working s; working := working s |}.

(** [query.first()] *)
Definition first {A : Type} (rows : list A) : option A :=
  match rows with
  | [] => None
  | r :: _ => Some r
  end.

(** [query.one_or_none()] *)
Definition one_or_none {A : Type} (rows : list A) : res (option A) :=
  match rows with
  | [] => Ok None
  | [r] => Ok (Some r)
  | _ => Raise MultipleResultsFound
  end.

(** [query.one()] *)
Definition one {A : Type} (rows : list A) : res A :=
  match rows with
  | [] => Raise NoResultFound
  | [r] => Ok r
  | _ => Raise MultipleResultsFound
  end.

(** [query.count()] *)
Definition count {A : Type} (rows : list A) : Z := len rows.

(** The order of SQL on a nullable integer column: NULL comes first. *)
Definition option_leb (a b : option Z) : bool :=
  match a, b with
  | None, _ => true
  | Some _, None => false
  | Some x, Some y => x <=? y
  end.

(** [query.order_by(key.asc())] and [query.order_by(key.desc())]: rows of
    equal key keep the order of the scan. *)
Definition order_by_asc {A K : Type} (leb : K -> K -> bool)
           (key : A -> K) (rows : list A) : list A :=
  sort (fun a b => leb (key a) (key b)) rows.

Definition order_by_desc {A K : Type} (leb : K -> K -> bool)
           (key : A -> K) (rows : list A) : list A :=
  sort (fun a b => leb (key b) (key a)) rows.

(** [SELECT brand_id, count(product_id) ... WHERE brand_id != 0
    GROUP BY brand_id]: the groups in increasing order of [brand_id].
    A NULL [brand_id] does not pass the filter. *)
Fixpoint group_runs (ids : list Z) : list (Z * Z) :=
  match ids with
  | [] => []
  | x :: r =>
      match group_runs r with
      | (k, n) :: g => if k =? x then (k, n + 1) :: g
                       else (x, 1) :: (k, n) :: g
      | [] => [(x, 1)]
      end
  end.

Fixpoint non_null (ids : list (option Z)) : list Z :=
  match ids with
  | [] => []
  | Some x :: r => x :: non_null r
  | None :: r => non_null r
  end.

Definition products_grouped_by_brand (ps : list Product.t) : list (Z * Z) :=
  group_runs
    (sorted (filter (fun b => negb (b =? 0))
                    (non_null (map Product.brand_id ps)))).

(** The integers that an INTEGER column of SQLite holds: 64 bits, signed.
    Flushing a row with another integer raises [OverflowError] in the code;
    the tables of this model hold any integer, and the theorems on what is
    stored take the integers in this range. *)
Definition sqlite_int (z : Z) : bool :=
  (- 2 ^ 63 <=? z) && (z <? 2 ^ 63).

Definition sqlite_int_opt (v : option Z) : bool :=
  match v with
  | Some z => sqlite_int z
  | None => true
  end.

(** A product whose integers the table can hold. *)
Definition row_fits (p : Product.t) : bool :=
  sqlite_int (Product.product_id p)
  && sqlite_int (Product.product_quantity p)
  && sqlite_int_opt (Product.product_price p)
  && sqlite_int_opt (Product.brand_id p).

(** The pending rows of the session can all be flushed. *)
Definition pending_fits (s : Session) : bool :=
  forallb row_fits (products (working s))
  && forallb (fun b => sqlite_int (Brand.brand_id b)) (brands (working s)).

End Models.

Import Models.

(* ===================================================================== *)
(** * The world the app runs in *)
(* ===================================================================== *)

Module Run.

(** The session, the lines the operator will type, the clock (the value
    of the [n]-th call of [datetime.now()]), and the rows of
    [inventory-backup.csv] once written. *)
Record World : Type := {
  session : Session;
  stdin : list string;
  clock : nat -> datetime;
  ticks : nat;
  backup_file : option (list (list string))
}.

(** A computation: a result, or a raised exception, and the world left. *)
Definition M (A : Type) : Type := World -> res A * World.

Definition ret {A : Type} (a : A) : M A := fun w => (Ok a, w).

Definition raise {A : Type} (e : exn) : M A := fun w => (Raise e, w).

Definition bind {A B : Type} (m : M A) (k : A -> M B) : M B :=
  fun w =>
    match m w with
    | (Ok a, w') => k a w'
    | (Raise e, w') => (Raise e, w')
    end.

(** A pure computation that can raise. *)
Definition lift {A : Type} (r : res A) : M A := fun w => (r, w).

Definition get_session : M Session := fun w => (Ok (session w), w).

Definition modify_session (f : Session -> Session) : M unit :=
  fun w =>
    (Ok tt, {| session := f (session w); stdin := stdin w; clock := clock w;
               ticks := ticks w; backup_file := backup_file w |}).

(** [input(prompt)] *)
Definition input : M string :=
  fun w =>
    match stdin w with
    | [] => (Raise EOFError, w)
    | line :: rest =>
        (Ok line, {| session := session w; stdin := rest; clock := clock w;
                     ticks := ticks w; backup_file := backup_file w |})
    end.

(** [datetime.now()] *)
Definition now : M datetime :=
  fun w =>
    (Ok (clock w (ticks w)),
     {| session := session w; stdin := stdin w; clock := clock w;
        ticks := S (ticks w); backup_file := backup_file w |}).

(** Writing [inventory-backup.csv]. *)
Definition write_backup (rows : list (list string)) : M unit :=
  fun w =>
    (Ok tt, {| session := session w; stdin := stdin w; clock := clock w;
               ticks := ticks w; backup_file := Some rows |}).

(** [for x in xs: body] *)
Fixpoint for_each {A : Type} (xs : list A) (body : A -> M unit) : M unit :=
  match xs with
  | [] => ret tt
  | x :: xs' => bind (body x) (fun _ => for_each xs' body)
  end.

(** [while True: ...] around a body that reads the keyboard: [body]
    returns [Some a] to leave the loop with [a], [None] to go round again.
    Every round reads a line at least, so that [fuel] rounds, one more
    than the lines left, are never exhausted before [EOFError]. *)
Fixpoint loop {A : Type} (fuel : nat) (body : M (option A)) : M A :=
  match fuel with
  | O => raise EOFError
  | S fuel' =>
      bind body (fun r =>
        match r with
        | Some a => ret a
        | None => loop fuel' body
        end)
  end.

Definition while_true {A : Type} (body : M (option A)) : M A :=
  fun w => loop (S (List.length (stdin w))) body w.

(** A computation that leaves the session and the backup file as they
    were, whether it returns or raises. *)
Definition read_only {A : Type} (m : M A) : Prop :=
  forall w, session (snd (m w)) = session w
            /\ backup_file (snd (m w)) = backup_file w.

(** A computation that commits nothing. *)
Definition keeps_committed {A : Type} (m : M A) : Prop :=
  forall w, committed (session (snd (m w))) = committed (session w).

End Run.

Import Run.

Declare Scope io_scope.
Delimit Scope io_scope with io.
Bind Scope io_scope with M.
Notation "x <- m ;; k" := (Run.bind m (fun x => k))
  (at level 61, m at next level, right associativity) : io_scope.
Notation "m ;;; k" := (Run.bind m (fun _ => k))
  (at level 61, right associativity) : io_scope.

(* ===================================================================== *)
(** * [app.py] *)
(* ===================================================================== *)

Module App.

Local Open Scope string_scope.
Local Open Scope Z_scope.

Definition mem_str (x : string) (xs : list string) : bool :=
  existsb (String.eqb x) xs.

(** [main_menu()] *)
Definition main_menu : M string :=
  while_true
    (line <- input ;;
     let choice := PyStr.lower (PyStr.strip line) in
     if mem_str choice ["n"; "v"; "a"; "b"; "l"; "r"; "q"]
     then ret (Some choice)
     else (input ;;; ret None))%io.

(** [product_menu()] *)
Definition product_menu : M string :=
  while_true
    (line <- input ;;
     let choice := PyStr.lower (PyStr.strip line) in
     if mem_str choice ["e"; "d"; "q"]
     then ret (Some choice)
     else (input ;;; ret None))%io.

(** [clean_date(date_str)] *)
Definition clean_date (date_str : string) : res datetime :=
  let split_date := PyStr.split "/" date_str in
  y <- (s <- getitem split_date 2 ;; PyStr.int_of_str s) ;;
  m <- (s <- getitem split_date 0 ;; PyStr.int_of_str s) ;;
  d <- (s <- getitem split_date 1 ;; PyStr.int_of_str s) ;;
  Datetime.make y m d.

(** [humanize_date(date)] *)
Definition humanize_date (date : datetime) : string :=
  Datetime.strftime_B_d_Y date.

(** [clean_price(price_str)]: the price in cents, or [None] after the
    error message has been acknowledged. *)
Definition clean_price (price_str : string) : M (option Z) :=
  match PyStr.float_of_str (PyStr.lstrip "$" price_str) with
  | Raise ValueError => (input ;;; ret None)%io
  | Raise e => raise e
  | Ok price_float =>
      (cents <- lift (Float64.trunc
                        (Float64.mul price_float (Float64.of_Z 100))) ;;
       ret (Some cents))%io
  end.

(** [humanize_price(price)] *)
Definition humanize_price (price : num) : res string :=
  x <- div100 price ;; Ok ("$" ++ format_2f x).

(** [humanize_price] of a column that can hold [None]. *)
Definition humanize_price_opt (price : option Z) : res string :=
  match price with
  | Some z => humanize_price (Int z)
  | None => Raise TypeError
  end.

(** [check_id(id_str, id_options)] *)
Definition check_id (id_str : string) (id_options : list Z)
  : M (option Z) :=
  match PyStr.int_of_str id_str with
  | Raise ValueError => (input ;;; ret None)%io
  | Raise e => raise e
  | Ok item_id =>
      if existsb (Z.eqb item_id) id_options then ret (Some item_id)
      else (input ;;; ret None)%io
  end.

(** [check_quantity(qty)] *)
Definition check_quantity (qty : string) : M (option Z) :=
  match PyStr.int_of_str qty with
  | Raise ValueError => (input ;;; ret None)%io
  | Raise e => raise e
  | Ok qty_int => ret (Some qty_int)
  end.

(** [session.query(Brand).filter_by(brand_id=...)] *)
Definition brands_by_id (s : Session) (bid : option Z) : list Brand.t :=
  match bid with
  | Some b => filter (fun x => Brand.brand_id x =? b) (brands (working s))
  | None => []
  end.

Definition brands_by_name (s : Session) (name : string) : list Brand.t :=
  filter (fun x => String.eqb (Brand.brand_name x) name)
         (brands (working s)).

Definition products_by_id (s : Session) (pid : option Z)
  : list Product.t :=
  match pid with
  | Some i =>
      filter (fun x => Product.product_id x =? i) (products (working s))
  | None => []
  end.

Definition products_by_name (s : Session) (name : string)
  : list Product.t :=
  filter (fun x => String.eqb (Product.product_name x) name)
         (products (working s)).

(** [session.query(Product).order_by(Product.product_id)] *)
Definition products_by_product_id (s : Session) : list Product.t :=
  order_by_asc Z.leb Product.product_id (products (working s)).

(** [session.query(Brand).order_by(Brand.brand_id)] *)
Definition brands_by_brand_id (s : Session) : list Brand.t :=
  order_by_asc Z.leb Brand.brand_id (brands (working s)).

(** [get_brand_name(brand_id)] *)
Definition get_brand_name (brand_id : option Z) : M string :=
  (s <- get_session ;;
   match first (brands_by_id s brand_id) with
   | Some brand => ret (Brand.brand_name brand)
   | None => ret "None"
   end)%io.

(** The truth value of a number that can be [None]. *)
Definition truthy (v : option Z) : bool :=
  match v with
  | Some z => negb (z =? 0)
  | None => false
  end.

(** [get_quantity_input(current_value)] *)
Definition get_quantity_input (current_value : option Z) : M Z :=
  while_true
    (line <- input ;;
     check_quantity (PyStr.strip line))%io.

(** [get_price_input(current_value)] *)
Definition get_price_input (current_value : option Z) : M Z :=
  while_true
    ((if truthy current_value
      then lift (humanize_price_opt current_value) else ret "") ;;;
     line <- input ;;
     clean_price (PyStr.strip line))%io.

(** [get_brand_input(current_value)] *)
Definition get_brand_input (current_value : option Z) : M (option Z) :=
  (s <- get_session ;;
   let id_options := map Brand.brand_id (brands_by_brand_id s) in
   (if truthy current_value
    then get_brand_name current_value else ret "") ;;;
   lift (getitem id_options 0) ;;;
   lift (getitem id_options (-1)) ;;;
   line <- input ;;
   let id_str := PyStr.strip line in
   if String.eqb (PyStr.lower id_str) "x" then ret None
   else check_id id_str id_options)%io.

(** [confirm_product_info(...)], with its arguments evaluated first. *)
Definition confirm_product_info (price_input : Z) (brand_input : option Z)
  : M string :=
  (lift (humanize_price (Int price_input)) ;;;
   get_brand_name brand_input ;;;
   line <- input ;;
   ret (PyStr.lower (PyStr.strip line)))%io.

(** [add_product()], once the four values have been read: the check for
    duplicate names, the confirmation, the update or the insertion. *)
Definition add_product_save (name : string) (quantity_input : Z)
           (price_input : Z) (brand_input : option Z) : M unit :=
  (s <- get_session ;;
   let duplicate_product_names_in_db :=
     order_by_desc Datetime.leb Product.date_updated
                   (products_by_name s name) in
   if 0 <? count duplicate_product_names_in_db then
     product <- lift (getitem duplicate_product_names_in_db 0) ;;
     date <- now ;;
     modify_session
       (set_product (Product.product_id product) quantity_input
                    (Some price_input) brand_input date) ;;;
     confirm <- confirm_product_info price_input brand_input ;;
     if String.eqb confirm "y" then modify_session commit else ret tt
   else
     confirm <- confirm_product_info price_input brand_input ;;
     if String.eqb confirm "y" then
       date <- now ;;
       modify_session
         (add_product_row name quantity_input (Some price_input)
                          brand_input date) ;;;
       modify_session commit
     else ret tt)%io.

(** [add_product()] *)
Definition add_product : M unit :=
  (line <- input ;;
   let name := PyStr.strip line in
   quantity_input <- get_quantity_input None ;;
   price_input <- get_price_input None ;;
   brand_input <- get_brand_input None ;;
   add_product_save name quantity_input price_input brand_input)%io.

(** [edit_product(product_id)] *)
Definition edit_product (product_id : Z) : M unit :=
  (s <- get_session ;;
   product <- lift (one (products_by_id s (Some product_id))) ;;
   quantity_input <-
     get_quantity_input (Some (Product.product_quantity product)) ;;
   price_input <- get_price_input (Product.product_price product) ;;
   brand_input <- get_brand_input (Product.brand_id product) ;;
   confirm <- confirm_product_info price_input brand_input ;;
   if String.eqb confirm "y" then
     date <- now ;;
     modify_session
       (set_product (Product.product_id product) quantity_input
                    (Some price_input) brand_input date) ;;;
     modify_session commit
   else ret tt)%io.

(** Reading an attribute of a query result that can be [None]. *)
Definition attr {A : Type} (o : option A) : res A :=
  match o with
  | Some a => Ok a
  | None => Raise AttributeError
  end.

(** [view_product()] *)
Definition view_product : M unit :=
  (s <- get_session ;;
   let id_options := map Product.product_id (products_by_product_id s) in
   lift (getitem id_options 0) ;;;
   lift (getitem id_options (-1)) ;;;
   line <- input ;;
   id_cleaned <- check_id (PyStr.strip line) id_options ;;
   s <- get_session ;;
   found <- lift (one_or_none (products_by_id s id_cleaned)) ;;
   the_product <- lift (attr found) ;;
   lift (humanize_price_opt (Product.product_price the_product)) ;;;
   get_brand_name (Product.brand_id the_product) ;;;
   product_choice <- product_menu ;;
   if String.eqb product_choice "e" then
     edit_product (Product.product_id the_product)
   else if String.eqb product_choice "d" then
     line <- input ;;
     let confirm := PyStr.lower (PyStr.strip line) in
     if String.eqb confirm "y" then
       modify_session (delete_product (Product.product_id the_product)) ;;;
       modify_session commit
     else ret tt
   else ret tt)%io.

(** A cell of [csv.writer]: [None] is written as the empty string. *)
Definition cell_of_int (v : option Z) : string :=
  match v with
  | Some z => PyStr.str_of_int z
  | None => ""
  end.

Definition backup_header : list string :=
  ["product_id"; "product_name"; "product_quantity"; "product_price";
   "brand_id"; "date_updated"].

Definition backup_row (product : Product.t) : list string :=
  [PyStr.str_of_int (Product.product_id product);
   Product.product_name product;
   PyStr.str_of_int (Product.product_quantity product);
   cell_of_int (Product.product_price product);
   cell_of_int (Product.brand_id product);
   Datetime.str (Product.date_updated product)].

(** [backup_db()] *)
Definition backup_db : M unit :=
  (s <- get_session ;;
   write_backup (backup_header :: map backup_row (products_by_product_id s)))%io.

(** [list_products()] *)
Definition list_products : M unit :=
  (s <- get_session ;;
   for_each (products_by_product_id s)
     (fun product =>
        lift (humanize_price_opt (Product.product_price product)) ;;;
        get_brand_name (Product.brand_id product) ;;;
        ret tt) ;;;
   input ;;; ret tt)%io.

(** [list_brands()] *)
Definition list_brands : M unit :=
  (input ;;; ret tt)%io.

(** The local variables of [analyze_products()] that the report prints. *)
Record Analysis : Type := {
  total_products : Z;
  most_expensive : option Product.t;
  least_expensive : option Product.t;
  oldest_product : option Product.t;
  newest_product : option Product.t;
  mean_price : num;
  mode_price : Z;
  median_price : num;
  large_qty : option Product.t;
  low_qty : option Product.t;
  most_common_brand : Z * Z;
  least_common_brand : Z * Z;
  most_common_brand_in_db : option Brand.t;
  least_common_brand_in_db : option Brand.t;
  pv : Z;
  psd : Float64.float;
  q1 : Float64.float;
  q2 : Float64.float;
  q3 : Float64.float;
  iqr : Float64.float
}.

(** The values of [product_prices], which the statistics functions take
    as numbers: [None] among them is a [TypeError]. *)
Fixpoint numbers (values : list (option Z)) : res (list Z) :=
  match values with
  | [] => Ok []
  | Some z :: r => zs <- numbers r ;; Ok (z :: zs)
  | None :: _ => Raise TypeError
  end.

(** [round(pvariance(product_prices) / 100)] *)
Definition price_variance (product_prices : list Z) : res Z :=
  v <- Statistics.pvariance product_prices ;;
  x <- div100 v ;;
  round x.

(** [row[0]] of the first row of a grouped query, which can be [None]. *)
Definition subscript {A : Type} (o : option A) : res A :=
  match o with
  | Some a => Ok a
  | None => Raise TypeError
  end.

(** The text that the report interpolates, line by line. *)
Definition report_text (a : Analysis) : res (list string) :=
  p <- attr (most_expensive a) ;;
  most <- humanize_price_opt (Product.product_price p) ;;
  let l1 := most ++ ": " ++ Product.product_name p in
  p <- attr (least_expensive a) ;;
  least <- humanize_price_opt (Product.product_price p) ;;
  let l2 := least ++ ": " ++ Product.product_name p in
  b <- attr (most_common_brand_in_db a) ;;
  let l3 := Brand.brand_name b ++ ", Product count: "
            ++ PyStr.str_of_int (snd (most_common_brand a)) in
  b <- attr (least_common_brand_in_db a) ;;
  let l4 := Brand.brand_name b ++ ", Product count: "
            ++ PyStr.str_of_int (snd (least_common_brand a)) in
  p <- attr (oldest_product a) ;;
  let l5 := humanize_date (Product.date_updated p) ++ ": "
            ++ Product.product_name p in
  p <- attr (newest_product a) ;;
  let l6 := humanize_date (Product.date_updated p) ++ ": "
            ++ Product.product_name p in
  p <- attr (large_qty a) ;;
  let l7 := PyStr.str_of_int (Product.product_quantity p) ++ " "
            ++ Product.product_name p in
  p <- attr (low_qty a) ;;
  let l8 := PyStr.str_of_int (Product.product_quantity p) ++ " "
            ++ Product.product_name p in
  l9 <- humanize_price (mean_price a) ;;
  l10 <- humanize_price (Int (mode_price a)) ;;
  l11 <- humanize_price (median_price a) ;;
  l12 <- humanize_price (Int (pv a)) ;;
  l13 <- humanize_price (Float (psd a)) ;;
  l14 <- humanize_price (Float (q1 a)) ;;
  l15 <- humanize_price (Float (q2 a)) ;;
  l16 <- humanize_price (Float (q3 a)) ;;
  l17 <- humanize_price (Float (iqr a)) ;;
  Ok [PyStr.str_of_int (total_products a); l1; l2; l3; l4; l5; l6; l7; l8;
      l9; l10; l11; l12; l13; l14; l15; l16; l17].

(** [analyze_products()]: the values computed and the text printed.
    The rows of a table of equal key come in the order of the scan, for
    [asc()] as for [desc()]. The groups of the grouped query come in
    increasing [brand_id] when the count is ordered ascending and in
    decreasing [brand_id] when it is ordered descending: among the brands of
    the greatest count SQLite gives the greatest id first. *)
Definition analyze_products : M (Analysis * list string) :=
  (s <- get_session ;;
   let product_query := products (working s) in
   let total_products := count product_query in
   let most_expensive :=
     first (order_by_desc option_leb Product.product_price product_query) in
   let least_expensive :=
     first (order_by_asc option_leb Product.product_price product_query) in
   let oldest_product :=
     first (order_by_asc Datetime.leb Product.date_updated product_query) in
   let newest_product :=
     first (order_by_desc Datetime.leb Product.date_updated product_query) in
   product_prices <- lift (numbers (map Product.product_price product_query)) ;;
   mean_price <- lift (Statistics.mean product_prices) ;;
   mode_price <- lift (Statistics.mode product_prices) ;;
   median_price <- lift (Statistics.median product_prices) ;;
   let large_qty :=
     first (order_by_desc Z.leb Product.product_quantity product_query) in
   let low_qty :=
     first (order_by_asc Z.leb Product.product_quantity product_query) in
   let products_grouped_by_brand :=
     products_grouped_by_brand product_query in
   let brands_ordered_by_product_count_desc :=
     order_by_desc Z.leb snd (rev products_grouped_by_brand) in
   let brands_ordered_by_product_count_asc :=
     order_by_asc Z.leb snd products_grouped_by_brand in
   let most_common_brand := first brands_ordered_by_product_count_desc in
   let least_common_brand := first brands_ordered_by_product_count_asc in
   most_common <- lift (subscript most_common_brand) ;;
   most_common_brand_in_db <-
     lift (one_or_none (brands_by_id s (Some (fst most_common)))) ;;
   least_common <- lift (subscript least_common_brand) ;;
   least_common_brand_in_db <-
     lift (one_or_none (brands_by_id s (Some (fst least_common)))) ;;
   pv <- lift (price_variance product_prices) ;;
   psd <- lift (Statistics.pstdev product_prices) ;;
   qs1 <- lift (Statistics.quantiles product_prices) ;;
   q1 <- lift (getitem qs1 0) ;;
   qs2 <- lift (Statistics.quantiles product_prices) ;;
   q2 <- lift (getitem qs2 1) ;;
   qs3 <- lift (Statistics.quantiles product_prices) ;;
   q3 <- lift (getitem qs3 2) ;;
   let iqr := Float64.sub q3 q1 in
   let a :=
     {| total_products := total_products;
        most_expensive := most_expensive;
        least_expensive := least_expensive;
        oldest_product := oldest_product;
        newest_product := newest_product;
        mean_price := mean_price;
        mode_price := mode_price;
        median_price := median_price;
        large_qty := large_qty;
        low_qty := low_qty;
        most_common_brand := most_common;
        least_common_brand := least_common;
        most_common_brand_in_db := most_common_brand_in_db;
        least_common_brand_in_db := least_common_brand_in_db;
        pv := pv; psd := psd; q1 := q1; q2 := q2; q3 := q3; iqr := iqr |} in
   text <- lift (report_text a) ;;
   input ;;;
   ret (a, text))%io.

(** [add_brands_csv()], on the records of [brands.csv]. *)
Definition add_brands_csv (rows : list string) : M unit :=
  (for_each rows
     (fun brand_name =>
        s <- get_session ;;
        brand_in_db <- lift (one_or_none (brands_by_name s brand_name)) ;;
        match brand_in_db with
        | None => modify_session (add_brand brand_name)
        | Some _ => ret tt
        end) ;;;
   modify_session commit)%io.

(** A record of [inventory.csv]. *)
Record InventoryRow : Type := {
  row_product_name : string;
  row_product_price : string;
  row_product_quantity : string;
  row_date_updated : string;
  row_brand_name : string
}.

(** The cells of a record that are parsed are ASCII texts. *)
Definition row_is_ascii (row : InventoryRow) : bool :=
  PyStr.is_ascii (row_product_quantity row)
  && PyStr.is_ascii (row_product_price row)
  && PyStr.is_ascii (row_date_updated row).

(** The body of the loop of [add_products_csv()]: one record. *)
Definition add_products_csv_row (row : InventoryRow) : M unit :=
  (s <- get_session ;;
   let duplicate_products_in_db :=
     products_by_name s (row_product_name row) in
   if count duplicate_products_in_db =? 0 then
     quantity <- lift (PyStr.int_of_str (row_product_quantity row)) ;;
     price <- clean_price (row_product_price row) ;;
     date <- lift (clean_date (row_date_updated row)) ;;
     s <- get_session ;;
     brand <- lift (one (brands_by_name s (row_brand_name row))) ;;
     modify_session
       (add_product_row (row_product_name row) quantity price
                        (Some (Brand.brand_id brand)) date)
   else ret tt)%io.

(** [add_products_csv()], on the records of [inventory.csv]. *)
Definition add_products_csv (rows : list InventoryRow) : M unit :=
  (for_each rows add_products_csv_row ;;;
   modify_session commit)%io.

(** One turn of the loop of [app()]: [Some tt] when the operator quits. *)
Definition app_turn : M (option unit) :=
  (choice <- main_menu ;;
   if String.eqb choice "v" then view_product ;;; ret None
   else if String.eqb choice "n" then add_product ;;; ret None
   else if String.eqb choice "a" then analyze_products ;;; ret None
   else if String.eqb choice "b" then backup_db ;;; ret None
   else if String.eqb choice "l" then list_products ;;; ret None
   else if String.eqb choice "r" then list_brands ;;; ret None
   else ret (Some tt))%io.

(** [app()] *)
Definition app : M unit := while_true app_turn.

(** The program: the two imports, then the menu. *)
Definition main (brands_csv : list string) (inventory_csv : list InventoryRow)
  : M unit :=
  (add_brands_csv brands_csv ;;;
   add_products_csv inventory_csv ;;;
   app)%io.

End App.

(* ===================================================================== *)
(** * Notions of the specification *)
(* ===================================================================== *)

Module Spec.

(** The number of occurrences of [x] in [P]. *)
Definition occurrences (P : list Z) (x : Z) : Z :=
  Z.of_nat (count_occ Z.eq_dec P x).

(** The distinct values of [P] with their numbers of occurrences, in the
    order in which the values first occur in [P]. *)
Fixpoint counts (P : list Z) : list (Z * Z) :=
  match P with
  | [] => []
  | x :: r =>
      (x, 1 + occurrences r x)
        :: filter (fun p => negb (fst p =? x)) (counts r)
  end.

(** The sum of a list of rationals. *)
Definition Qsum (l : list Q) : Q := fold_right Qplus 0%Q l.

(** The arithmetic mean of [P], as a rational. *)
Definition mean_Q (P : list Z) : Q :=
  (Qsum (map inject_Z P) / inject_Z (len P))%Q.

(** The population variance of [P]: the sum of the squared deviations from
    the mean, divided by the number of values. *)
Definition population_variance (P : list Z) : Q :=
  (Qsum (map (fun x => (inject_Z x - mean_Q P) * (inject_Z x - mean_Q P)) P)
   / inject_Z (len P))%Q.

(** The sample variance of [P], which divides by one less. *)
Definition sample_variance (P : list Z) : Q :=
  (Qsum (map (fun x => (inject_Z x - mean_Q P) * (inject_Z x - mean_Q P)) P)
   / inject_Z (len P - 1))%Q.

(** Every character of [s] satisfies [p]. *)
Fixpoint all_chars (p : ascii -> bool) (s : string) : bool :=
  match s with
  | EmptyString => true
  | String c r => p c && all_chars p r
  end.

(** The number of occurrences of the character [c] in [s]. *)
Fixpoint count_char (c : ascii) (s : string) : nat :=
  match s with
  | EmptyString => O
  | String d r => (if Ascii.eqb d c then 1 else 0) + count_char c r
  end.

End Spec.

(* ===================================================================== *)
(** * Sample data *)
(* ===================================================================== *)

Module Sample.

Definition noon : datetime :=
  {| year := 2022; month := 6; day := 1;
     hour := 12; minute := 0; second := 0; microsecond := 0 |}.

Definition product (pid : Z) (name : string) (quantity price brand : Z)
  : Product.t :=
  {| Product.product_id := pid; Product.product_name := name;
     Product.product_quantity := quantity;
     Product.product_price := Some price;
     Product.date_updated := noon; Product.brand_id := Some brand |}.

Definition tables_of (bs : list Brand.t) (ps : list Product.t) : Tables :=
  {| brands := bs; products := ps |}.

(** A world whose committed and pending tables agree. *)
Definition world_of (bs : list Brand.t) (ps : list Product.t)
           (keyboard : list string) : World :=
  {| session := {| committed := tables_of bs ps;
                   working := tables_of bs ps |};
     stdin := keyboard; clock := fun _ => noon; ticks := 0;
     backup_file := None |}.

Definition kraft : Brand.t :=
  {| Brand.brand_id := 1; Brand.brand_name := "Kraft" |}.

(** The price list of the example of the specification. *)
Definition prices : list Z := [999; 1299; 1299; 500].

(** A store of two products, priced 0 and 10 cents. *)
Definition two_products : list Product.t :=
  [product 1 "Water" 5 0 1; product 2 "Candy" 7 10 1].

(** That store, with the brand of the products, and the operator
    acknowledging the report. *)
Definition two_products_world : World :=
  world_of [kraft] two_products [""%string].

Definition evening : datetime :=
  {| year := 2022; month := 6; day := 1;
     hour := 18; minute := 0; second := 0; microsecond := 0 |}.

(** A store that holds the name "Candy" three times; the row of id 3 is
    the one updated last. *)
Definition candy_thrice : list Product.t :=
  [product 1 "Water" 5 0 1;
   product 2 "Candy" 7 10 1;
   {| Product.product_id := 3; Product.product_name := "Candy";
      Product.product_quantity := 8; Product.product_price := Some 20;
      Product.date_updated := evening; Product.brand_id := Some 1 |};
   product 4 "Candy" 9 30 1].

(** A store of four products with the prices of the example. *)
Definition four_products : list Product.t :=
  [product 1 "Soup" 1 999 1; product 2 "Rice" 1 1299 1;
   product 3 "Beans" 1 1299 1; product 4 "Salt" 1 500 1].

Definition four_products_world : World :=
  world_of [kraft] four_products [""%string].

(** A store of two products whose prices, [2 ^ 53] and [2 ^ 53 + 1] cents,
    have a sum that binary64 does not hold. *)
Definition large_prices_world : World :=
  world_of [kraft]
           [product 1 "Gold" 1 9007199254740992 1;
            product 2 "Platinum" 1 9007199254740993 1]
           [""%string].

(** A store with no brand and no product. *)
Definition fresh_world (keyboard : list string) : World :=
  world_of [] [] keyboard.

(** An empty store, and the operator asking for the analysis. *)
Definition empty_store_analysis : World := world_of [] [] ["a"]%string.

Definition soup : App.InventoryRow :=
  {| App.row_product_name := "Soup"; App.row_product_price := "$2.99";
     App.row_product_quantity := "10"; App.row_date_updated := "4/3/2018";
     App.row_brand_name := "Kraft" |}.

Definition beans : App.InventoryRow :=
  {| App.row_product_name := "Beans"; App.row_product_price := "$1.50";
     App.row_product_quantity := "7"; App.row_date_updated := "11/30/2018";
     App.row_brand_name := "Heinz" |}.

Definition rice : App.InventoryRow :=
  {| App.row_product_name := "Rice"; App.row_product_price := "$5";
     App.row_product_quantity := "3"; App.row_date_updated := "1/1/2019";
     App.row_brand_name := "Kraft" |}.

(** An inventory file of three records; the brand of the second one,
    "Heinz", is not in a store that knows "Kraft" alone. *)
Definition inventory : list App.InventoryRow := [soup; beans; rice].

End Sample.

(* ===================================================================== *)
(** * Specifications of computations, and the invariant of the store *)
(* ===================================================================== *)

Module Hoare.

(** From a world where [P] holds, [m] returns a value [a] and leaves a world
    where [Q a] holds, or raises [e] and leaves a world where [R e] holds. *)
Definition triple {A : Type} (P : World -> Prop) (m : M A)
           (Q : A -> World -> Prop) (R : exn -> World -> Prop) : Prop :=
  forall w, P w ->
            match m w with
            | (Ok a, w') => Q a w'
            | (Raise e, w') => R e w'
            end.

(** [m] keeps [I], whether it returns or raises. *)
Definition keeps {A : Type} (I : World -> Prop) (m : M A) : Prop :=
  triple I m (fun _ => I) (fun _ => I).

(** The world [w] with [lines] left on the keyboard. *)
Definition with_stdin (w : World) (lines : list string) : World :=
  {| session := session w; stdin := lines; clock := clock w;
     ticks := ticks w; backup_file := backup_file w |}.

(** A computation that changes nothing of the world but the lines left on
    the keyboard, whether it returns or raises. *)
Definition only_reads {A : Type} (m : M A) : Prop :=
  forall w, snd (m w) = with_stdin w (stdin (snd (m w))).

(** A computation that takes the lines it reads from the front of the
    keyboard, in order, and leaves the others. *)
Definition consumes {A : Type} (m : M A) : Prop :=
  forall w, exists read, stdin w = read ++ stdin (snd (m w)).

(** The lines typed in a series of failed attempts: each attempt is a
    refused line and the line that acknowledges the error message. *)
Definition attempts (tries : list (string * string)) : list string :=
  flat_map (fun t => [fst t; snd t]) tries.

End Hoare.

Import Hoare.

Module Invariant.

(** The tables are consistent: the ids and the names of the brands, and
    the ids and the names of the products, are pairwise distinct, and the
    brand of a product, when it has one, is a brand of the store. *)
Definition tables_ok (t : Tables) : Prop :=
  NoDup (map Brand.brand_id (brands t))
  /\ NoDup (map Brand.brand_name (brands t))
  /\ NoDup (map Product.product_id (products t))
  /\ NoDup (map Product.product_name (products t))
  /\ forall p b,
       In p (products t) -> Product.brand_id p = Some b ->
       In b (map Brand.brand_id (brands t)).

(** Both views of the session are consistent. *)
Definition session_ok (s : Session) : Prop :=
  tables_ok (working s) /\ tables_ok (committed s).

Definition world_ok (w : World) : Prop := session_ok (session w).

(** A brand that a product may take in the tables [t]. *)
Definition brand_ok (t : Tables) (b : option Z) : Prop :=
  match b with
  | Some i => In i (map Brand.brand_id (brands t))
  | None => True
  end.

End Invariant.

Import Invariant.

(* ===================================================================== *)
(** * Properties *)
(* ===================================================================== *)

(** ** The stable sort *)

Section SortFacts.

Context {A : Type} (leb : A -> A -> bool).

Hypothesis leb_total : forall a b, leb a b = true \/ leb b a = true.
Hypothesis leb_trans :
  forall a b c, leb a b = true -> leb b c = true -> leb a c = true.

Lemma insert_perm (x : A) (l : list A) :
  Permutation (insert leb x l) (x :: l).
Proof.
  induction l as [| y r IH]; simpl.
  - apply Permutation_refl.
  - destruct (leb x y).
    + apply Permutation_refl.
    + eapply perm_trans; [apply perm_skip, IH | apply perm_swap].
Qed.

Lemma sort_perm (l : list A) : Permutation (sort leb l) l.
Proof.
  induction l as [| x r IH]; simpl.
  - constructor.
  - eapply perm_trans; [apply insert_perm | apply perm_skip, IH].
Qed.

Lemma insert_sorted (x : A) (l : list A) :
  StronglySorted (le_of leb) l -> StronglySorted (le_of leb) (insert leb x l).
Proof using leb_total leb_trans.
  induction 1 as [| y r Hs IH Hall]; simpl.
  - repeat constructor.
  - destruct (leb x y) eqn:E.
    + constructor; [constructor; assumption |].
      constructor; [exact E |].
      eapply Forall_impl; [| exact Hall].
      intros z Hz. eapply leb_trans; eassumption.
    + constructor; [exact IH |].
      assert (Hyx : leb y x = true)
        by (destruct (leb_total x y); congruence).
      eapply Permutation_Forall;
        [apply Permutation_sym, insert_perm |].
      constructor; assumption.
Qed.

Lemma sort_sorted (l : list A) : StronglySorted (le_of leb) (sort leb l).
Proof using leb_total leb_trans.
  induction l as [| x r IH]; simpl.
  - constructor.
  - apply insert_sorted, IH.
Qed.

(** The first row of a sorted query stands before every row. *)
Lemma first_sort_least (l : list A) (x : A) :
  first (sort leb l) = Some x ->
  In x l /\ forall y, In y l -> y = x \/ leb x y = true.
Proof using leb_total leb_trans.
  intros H.
  pose proof (sort_sorted l) as Hs.
  pose proof (sort_perm l) as Hp.
  destruct (sort leb l) as [| z r] eqn:E; simpl in H; [discriminate |].
  inversion H; subst z; clear H.
  split.
  - eapply Permutation_in; [exact Hp | left; reflexivity].
  - intros y Hy.
    apply (Permutation_in _ (Permutation_sym Hp)) in Hy.
    destruct Hy as [-> | Hy]; [left; reflexivity | right].
    inversion Hs as [| ? ? _ Hall]; subst.
    rewrite Forall_forall in Hall. apply Hall, Hy.
Qed.

End SortFacts.

(** Two sorted lists of integers with the same elements are equal. *)
Lemma sorted_perm_unique (l1 l2 : list Z) :
  StronglySorted Z.le l1 -> StronglySorted Z.le l2 ->
  Permutation l1 l2 -> l1 = l2.
Proof.
  revert l2.
  induction l1 as [| x r IH]; intros l2 H1 H2 Hp.
  - apply Permutation_nil in Hp. congruence.
  - destruct l2 as [| y s].
    + apply Permutation_sym, Permutation_nil in Hp. discriminate.
    + inversion H1 as [| ? ? Hr Hx]; subst.
      inversion H2 as [| ? ? Hs Hy]; subst.
      rewrite Forall_forall in Hx, Hy.
      assert (x = y).
      { assert (In x (y :: s))
          by (eapply Permutation_in; [exact Hp | left; reflexivity]).
        assert (In y (x :: r))
          by (eapply Permutation_in;
              [apply Permutation_sym; exact Hp | left; reflexivity]).
        simpl in *.
        destruct H as [-> | Hin]; [reflexivity |].
        destruct H0 as [-> | Hin']; [reflexivity |].
        specialize (Hx _ Hin'). specialize (Hy _ Hin). lia. }
      subst y. f_equal.
      apply IH; [assumption | assumption |].
      eapply Permutation_cons_inv; exact Hp.
Qed.

Lemma sorted_spec (data : list Z) :
  StronglySorted Z.le (sorted data) /\ Permutation (sorted data) data.
Proof.
  split.
  - unfold sorted.
    eapply StronglySorted_ind with
      (P := fun l => StronglySorted Z.le l)
      (l := sort Z.leb data).
    + constructor.
    + intros a l _ IH Ha. constructor; [exact IH |].
      eapply Forall_impl; [| exact Ha].
      intros b Hb. apply Z.leb_le. exact Hb.
    + apply sort_sorted.
      * intros a b. rewrite !Z.leb_le. lia.
      * intros a b c. rewrite !Z.leb_le. lia.
  - apply sort_perm.
Qed.

Lemma getitem_nth {A : Type} (xs : list A) (i : Z) (d : A) :
  0 <= i < len xs -> getitem xs i = Ok (nth (Z.to_nat i) xs d).
Proof.
  intros Hi. unfold getitem, len in *.
  replace (i <? 0) with false by (symmetry; apply Z.ltb_ge; lia).
  replace (0 <=? i) with true by (symmetry; apply Z.leb_le; lia).
  replace (i <? Z.of_nat (List.length xs)) with true
    by (symmetry; apply Z.ltb_lt; lia).
  simpl.
  destruct (nth_error xs (Z.to_nat i)) eqn:E.
  - erewrite nth_error_nth; [reflexivity | exact E].
  - apply nth_error_None in E. lia.
Qed.

(** ** Lengths *)

Lemma len_cons {A : Type} (x : A) (r : list A) : len (x :: r) = 1 + len r.
Proof. unfold len. simpl List.length. lia. Qed.

Lemma len_nonneg {A : Type} (l : list A) : 0 <= len l.
Proof. unfold len. lia. Qed.

Lemma len_pos {A : Type} (l : list A) : l <> [] -> 0 < len l.
Proof. destruct l; [congruence | rewrite len_cons; pose proof (len_nonneg l); lia]. Qed.

(** ** Exact halves in binary64 *)

Lemma digits2_pos_size (p : positive) : digits2_pos p = Pos.size p.
Proof. induction p; simpl; congruence. Qed.

Lemma Zdigits2_bound (p : positive) (k : Z) :
  0 <= k -> Zpos p < 2 ^ k -> Zdigits2 (Zpos p) <= k.
Proof.
  intros Hk Hp. cbn [Zdigits2]. rewrite digits2_pos_size.
  pose proof (Pos.size_le p) as H.
  apply Pos2Z.pos_le_pos in H. rewrite Pos2Z.inj_pow in H.
  change (Z.pos p~0) with (2 * Z.pos p) in H.
  destruct (Z.le_gt_cases (Z.pos (Pos.size p)) k) as [Hle | Hgt]; [exact Hle |].
  exfalso.
  assert (2 ^ (k + 1) <= 2 ^ Z.pos (Pos.size p))
    by (apply Z.pow_le_mono_r; lia).
  rewrite Z.pow_add_r in H0 by lia. lia.
Qed.

Lemma Zdigits2_mul_pow2 (y : positive) (k : Z) :
  0 <= k -> Zdigits2 (Zpos y * 2 ^ k) = Zdigits2 (Zpos y) + k.
Proof.
  intros Hk. revert k Hk.
  apply natlike_ind.
  - rewrite Z.mul_1_r. lia.
  - intros k Hk IH. rewrite Z.pow_succ_r by exact Hk.
    replace (Zpos y * (2 * 2 ^ k)) with (2 * (Zpos y * 2 ^ k)) by lia.
    assert (Hpos : 0 < Zpos y * 2 ^ k)
      by (apply Z.mul_pos_pos; [lia | apply Z.pow_pos_nonneg; lia]).
    destruct (Zpos y * 2 ^ k) as [| q | q]; try lia.
    cbn [Z.mul Pos.mul Zdigits2 digits2_pos] in *. lia.
Qed.

(** Half of an integer below [2 ^ 53] is a float: the division by 2 is
    exact. *)
Lemma of_ratio_half_exact (p : positive) (sx : bool) :
  Zpos p < 2 ^ 53 ->
  let '(mz, ez, lz) :=
    SFdiv_core_binary Float64.prec Float64.emax (Zpos p) 0 2 0 in
  exists m e,
    binary_round_aux Float64.prec Float64.emax sx mz ez lz
    = S754_finite sx m e
    /\ e < 0
    /\ 2 * Zpos m = Zpos p * 2 ^ (- e).
Proof.
  intros Hp.
  pose proof (Zdigits2_bound p 53 ltac:(lia) Hp) as Hd.
  assert (Hd1 : 1 <= Zdigits2 (Zpos p)) by (cbn; lia).
  set (d := Zdigits2 (Zpos p)) in *.
  unfold SFdiv_core_binary. fold d.
  change (Zdigits2 2) with 2.
  unfold Float64.prec, Float64.emax, fexp, emin.
  replace (Z.min (Z.max (d + 0 - (2 + 0) - 53) (3 - 1024 - 53)) (0 - 0))
    with (d - 55) by lia.
  replace (0 - 0 - (d - 55)) with (55 - d) by lia.
  destruct (55 - d) as [| s | s] eqn:Es; try lia.
  rewrite <- Es. rewrite Z.shiftl_mul_pow2 by lia.
  assert (Hdiv : Z.div_eucl (Zpos p * 2 ^ (55 - d)) 2
                 = (Zpos p * 2 ^ (54 - d), 0)).
  { assert (E : Zpos p * 2 ^ (55 - d) = Zpos p * 2 ^ (54 - d) * 2).
    { replace (55 - d) with (Z.succ (54 - d)) by lia.
      rewrite Z.pow_succ_r by lia. lia. }
    pose proof (Z.div_mul (Zpos p * 2 ^ (54 - d)) 2 ltac:(lia)) as Hq.
    pose proof (Z.mod_mul (Zpos p * 2 ^ (54 - d)) 2 ltac:(lia)) as Hr.
    rewrite <- E in Hq, Hr. unfold Z.div, Z.modulo in Hq, Hr.
    destruct (Z.div_eucl (Zpos p * 2 ^ (55 - d)) 2) as [q r].
    cbn [fst snd] in *. congruence. }
  rewrite Hdiv.
  change (new_location 2 0) with loc_Exact.
  unfold binary_round_aux, shr_fexp, fexp, emin.
  rewrite Zdigits2_mul_pow2 by lia. fold d.
  replace (Z.max (d + (54 - d) + (d - 55) - 53) (3 - 1024 - 53) - (d - 55))
    with 1 by lia.
  cbn [shr_record_of_loc shr iter_pos].
  assert (E2 : Zpos p * 2 ^ (54 - d) = 2 * (Zpos p * 2 ^ (53 - d))).
  { replace (54 - d) with (Z.succ (53 - d)) by lia.
    rewrite Z.pow_succ_r by lia. lia. }
  assert (Hpos : 0 < Zpos p * 2 ^ (53 - d))
    by (apply Z.mul_pos_pos; [lia | apply Z.pow_pos_nonneg; lia]).
  assert (Hdig : Zdigits2 (Zpos p * 2 ^ (53 - d)) = 53)
    by (rewrite Zdigits2_mul_pow2 by lia; fold d; lia).
  rewrite E2.
  destruct (Zpos p * 2 ^ (53 - d)) as [| m | m] eqn:Em; try lia.
  change (2 * Z.pos m) with (Z.pos m~0).
  cbn [shr_1 shr_m shr_r shr_s loc_of_shr_record round_nearest_even orb].
  cbn [Zdigits2] in Hdig. cbn [Zdigits2]. rewrite Hdig.
  replace (IntDef.Z.max (53 + (d - 55 + 1) - 53) (3 - 1024 - 53)
           - (d - 55 + 1))
    with 0 by (change IntDef.Z.max with Z.max; lia).
  cbn [shr shr_m].
  replace (d - 55 + 1 <=? 1024 - 53) with true
    by (symmetry; apply Z.leb_le; lia).
  exists m, (d - 55 + 1).
  split; [reflexivity |]. split; [lia |].
  replace (- (d - 55 + 1)) with (54 - d) by lia.
  rewrite E2. reflexivity.
Qed.

(** The average of two integers whose sum is below [2 ^ 53] in absolute
    value is computed exactly. *)
Lemma truediv_half_exact (z : Z) :
  Z.abs z < 2 ^ 53 ->
  exists x, truediv z 2 = Ok x /\ (Float64.to_Q x == z # 2)%Q.
Proof.
  intros Hz. unfold truediv, Float64.of_ratio.
  destruct z as [| p | p].
  - exists (S754_zero false). split; reflexivity.
  - pose proof (of_ratio_half_exact p false Hz) as H.
    destruct (SFdiv_core_binary Float64.prec Float64.emax (Z.pos p) 0 2 0)
      as [[mz ez] lz].
    destruct H as [m [e [-> [He Hm]]]].
    exists (S754_finite false m e). split; [reflexivity |].
    unfold Float64.to_Q.
    replace (0 <=? e) with false by (symmetry; apply Z.leb_gt; exact He).
    unfold Qeq. cbn [Qnum Qden].
    rewrite Z2Pos.id by (apply Z.pow_pos_nonneg; lia). lia.
  - pose proof (of_ratio_half_exact p true Hz) as H.
    destruct (SFdiv_core_binary Float64.prec Float64.emax (Z.pos p) 0 2 0)
      as [[mz ez] lz].
    destruct H as [m [e [-> [He Hm]]]].
    exists (S754_finite true m e). split; [reflexivity |].
    unfold Float64.to_Q.
    replace (0 <=? e) with false by (symmetry; apply Z.leb_gt; exact He).
    unfold Qeq, Qopp. cbn [Qnum Qden].
    rewrite Z2Pos.id by (apply Z.pow_pos_nonneg; lia). lia.
Qed.

(** ** The median *)

Lemma len_sorted (data : list Z) : len (sorted data) = len data.
Proof.
  unfold len. f_equal.
  apply Permutation_length, sorted_spec.
Qed.

(** [statistics.median] on a non-empty list [P], with [S] the list [P]
    sorted (any ascending list with the elements of [P]): when the length is
    odd the median is the middle element of [S]; when it is even the median
    is the quotient [(a + b) / 2] of the two central elements [a] and [b] of
    [S], as Python's division of integers computes it, and that float is
    the average exactly when [a + b] is below [2 ^ 53] in absolute value. *)
Lemma median_of_sorted (P S : list Z) :
  P <> [] ->
  Permutation S P ->
  StronglySorted Z.le S ->
  let n := len P in
  let a := nth (Z.to_nat (n / 2 - 1)) S 0 in
  let b := nth (Z.to_nat (n / 2)) S 0 in
  (n mod 2 = 1 -> Statistics.median P = Ok (Int b))
  /\
  (n mod 2 = 0 ->
   Statistics.median P = (x <- truediv (a + b) 2 ;; Ok (Float x))
   /\ (Z.abs (a + b) < 2 ^ 53 ->
       exists x, Statistics.median P = Ok (Float x)
                 /\ (Float64.to_Q x == (a + b) # 2)%Q)).
Proof.
  intros Hne Hperm Hsorted n a b.
  assert (HS : sorted P = S).
  { destruct (sorted_spec P) as [Hs Hp].
    apply sorted_perm_unique; [exact Hs | exact Hsorted |].
    eapply perm_trans; [exact Hp | apply Permutation_sym, Hperm]. }
  assert (Hn : 0 < n) by (apply len_pos, Hne).
  assert (HlS : len S = n) by (rewrite <- HS; apply len_sorted).
  unfold Statistics.median. rewrite HS, HlS.
  replace (n =? 0) with false by (symmetry; apply Z.eqb_neq; lia).
  split; intros Hpar.
  - rewrite Hpar. simpl.
    rewrite (getitem_nth S (n / 2) 0);
      [reflexivity | rewrite HlS; split;
                     [apply Z.div_pos; lia | apply Z.div_lt; lia]].
  - rewrite Hpar. cbn [Z.eqb Pos.eqb].
    assert (1 <= n / 2).
    { assert (n = 2 * (n / 2)) by (rewrite (Z.div_mod n 2) at 1; lia). lia. }
    assert (n / 2 < n) by (apply Z.div_lt; lia).
    rewrite (getitem_nth S (n / 2 - 1) 0) by (rewrite HlS; lia).
    rewrite (getitem_nth S (n / 2) 0) by (rewrite HlS; lia).
    cbn [Py.bind]. fold a b.
    split; [reflexivity |].
    intros Hsmall.
    destruct (truediv_half_exact (a + b) Hsmall) as [x [Hx Hq]].
    exists x. rewrite Hx. split; [reflexivity | exact Hq].
Qed.

(** ** The backup *)

Lemma products_by_product_id_spec (s : Session) :
  StronglySorted
    (fun a b => Product.product_id a <= Product.product_id b)
    (App.products_by_product_id s)
  /\ Permutation (App.products_by_product_id s) (products (working s)).
Proof.
  unfold App.products_by_product_id, order_by_asc. split.
  - set (leb := fun a b : Product.t =>
                  Product.product_id a <=? Product.product_id b).
    assert (H : StronglySorted (le_of leb) (sort leb (products (working s)))).
    { apply sort_sorted; unfold leb; intros.
      - rewrite !Z.leb_le. lia.
      - rewrite Z.leb_le in *. lia. }
    induction H as [| a l _ IH Ha]; constructor; [exact IH |].
    eapply Forall_impl; [| exact Ha].
    intros b Hb. apply Z.leb_le. exact Hb.
  - apply sort_perm.
Qed.

(** C8. The backup holds the header [product_id, product_name,
    product_quantity, product_price, brand_id, date_updated] and then one
    row per product, in ascending order of [product_id]. The six cells of
    the row of a product are its id, its name, its quantity, its price, the
    id of its brand and its date: the integers in decimal, a value that is
    [None] as the empty text, the date as [str] prints it. The price is the
    integer of minor units that is stored, not divided by 100. The session
    is left as it was. *)
Theorem backup_db_rows (w : World) :
  exists ps : list Product.t,
    fst (App.backup_db w) = Ok tt
    /\ backup_file (snd (App.backup_db w))
       = Some (["product_id"; "product_name"; "product_quantity";
                "product_price"; "brand_id"; "date_updated"]%string
                 :: map (fun p =>
                           [PyStr.str_of_int (Product.product_id p);
                            Product.product_name p;
                            PyStr.str_of_int (Product.product_quantity p);
                            match Product.product_price p with
                            | Some cents => PyStr.str_of_int cents
                            | None => ""%string
                            end;
                            match Product.brand_id p with
                            | Some b => PyStr.str_of_int b
                            | None => ""%string
                            end;
                            Datetime.str (Product.date_updated p)])
                        ps)
    /\ Permutation ps (products (working (session w)))
    /\ StronglySorted
         (fun a b => Product.product_id a <= Product.product_id b) ps
    /\ session (snd (App.backup_db w)) = session w.
Proof.
  exists (App.products_by_product_id (session w)).
  destruct (products_by_product_id_spec (session w)) as [Hs Hp].
  split; [reflexivity |]. split.
  - unfold App.backup_db, Run.bind, get_session, write_backup.
    cbn [snd backup_file].
    unfold App.backup_header, App.backup_row, App.cell_of_int.
    reflexivity.
  - repeat split; assumption.
Qed.

(** ** The analysis reads, and does not write *)

Lemma read_only_ret {A : Type} (a : A) : read_only (ret a).
Proof. intros w. split; reflexivity. Qed.

Lemma read_only_raise {A : Type} (e : exn) : read_only (@raise A e).
Proof. intros w. split; reflexivity. Qed.

Lemma read_only_lift {A : Type} (r : res A) : read_only (lift r).
Proof. intros w. split; reflexivity. Qed.

Lemma read_only_get_session : read_only get_session.
Proof. intros w. split; reflexivity. Qed.

Lemma read_only_input : read_only input.
Proof. intros w. unfold input. destruct (stdin w); split; reflexivity. Qed.

Lemma read_only_bind {A B : Type} (m : M A) (k : A -> M B) :
  read_only m -> (forall a, read_only (k a)) -> read_only (Run.bind m k).
Proof.
  intros Hm Hk w. unfold Run.bind.
  destruct (Hm w) as [Hs Hb].
  destruct (m w) as [[a | e] w1]; simpl in *.
  - destruct (Hk a w1) as [Hs' Hb']. split; congruence.
  - split; assumption.
Qed.

Create HintDb read_only.

#[local] Hint Resolve read_only_ret read_only_raise read_only_lift
  read_only_get_session read_only_input : read_only.

Ltac read_only_step :=
  match goal with
  | |- read_only (Run.bind _ _) => apply read_only_bind; [| intros ?]
  | |- read_only (let _ := _ in _) => cbv zeta
  | |- read_only (if ?b then _ else _) => destruct b
  | |- read_only (match ?x with _ => _ end) => destruct x
  | |- read_only _ => solve [auto with read_only]
  end.

Lemma read_only_analyze_products : read_only App.analyze_products.
Proof.
  unfold App.analyze_products.
  repeat read_only_step.
Qed.

(** C9. The product analysis performs no writes: whatever the store and
    whether the analysis returns or raises, the brand table and the product
    table, committed and pending, are afterwards what they were, row by row
    and field by field. *)
Theorem analyze_products_no_writes (w : World) :
  session (snd (App.analyze_products w)) = session w.
Proof.
  apply read_only_analyze_products.
Qed.

(** ** The price validator *)

(** The validator takes nothing from the keyboard and changes nothing when
    the text is a number, and its result is the product of the float by 100
    cut towards zero. *)
Lemma clean_price_of_number (price_str : string) (x : Float64.float)
      (w : World) :
  PyStr.float_of_str (PyStr.lstrip "$" price_str) = Ok x ->
  App.clean_price price_str w
  = (z <- Float64.trunc (Float64.mul x (Float64.of_Z 100)) ;; Ok (Some z), w).
Proof.
  intros H. unfold App.clean_price. rewrite H.
  unfold Run.bind, lift, ret.
  destruct (Float64.trunc _); reflexivity.
Qed.

(** C1. On the text "19.99" the validator returns 1998 cents, although
    19.99 times 100, rounded to the nearest integer, is 1999: the
    conversion [int(price_float * 100)] cuts the float product
    1998.9999999999998 towards zero instead of rounding it, and the price
    typed as 19.99 is shown back as "$19.98". The two examples of the claim,
    "12.99" and "$5", come out as 1299 and 500. *)
Theorem clean_price_truncates (w : World) :
  App.clean_price "19.99" w = (Ok (Some 1998), w)
  /\ (x <- PyStr.float_of_str "19.99" ;;
      Float64.round (Float64.mul x (Float64.of_Z 100))) = Ok 1999
  /\ Float64.round_half_even (1999 * 100) 100 = 1999
  /\ App.humanize_price (Int 1998) = Ok "$19.98"%string
  /\ App.clean_price "12.99" w = (Ok (Some 1299), w)
  /\ App.clean_price "$5" w = (Ok (Some 500), w).
Proof.
  repeat split; vm_compute; reflexivity.
Qed.

(** ** The mode *)

Section CounterFacts.

Import Spec.

Let keys (c : list (Z * Z)) : list Z := map fst c.

Let bump (r : list Z) (p : Z * Z) : Z * Z :=
  (fst p, snd p + occurrences r (fst p)).

Lemma occurrences_cons (x y : Z) (r : list Z) :
  occurrences (x :: r) y = (if x =? y then 1 else 0) + occurrences r y.
Proof.
  unfold occurrences. simpl.
  destruct (Z.eq_dec x y) as [E | E].
  - subst. rewrite Z.eqb_refl. lia.
  - apply Z.eqb_neq in E. rewrite E. lia.
Qed.

Lemma occurrences_pos (P : list Z) (x : Z) :
  In x P <-> 0 < occurrences P x.
Proof.
  unfold occurrences.
  rewrite (count_occ_In Z.eq_dec). lia.
Qed.

Lemma counter_add_in (x : Z) (c : list (Z * Z)) :
  In x (keys c) -> NoDup (keys c) ->
  keys (Statistics.counter_add x c) = keys c
  /\ forall r, map (bump r) (Statistics.counter_add x c)
               = map (bump (x :: r)) c.
Proof.
  induction c as [| [k n] c IH]; simpl; intros Hin Hnd; [contradiction |].
  inversion Hnd as [| ? ? Hk Hc]; subst.
  destruct (k =? x) eqn:E.
  - apply Z.eqb_eq in E. subst k. split; [reflexivity |].
    intros r. simpl. f_equal.
    + unfold bump. simpl. rewrite occurrences_cons, Z.eqb_refl.
      f_equal. lia.
    + apply map_ext_in. intros [k' n'] Hin'.
      unfold bump. simpl. rewrite occurrences_cons.
      destruct (x =? k') eqn:E'; [| reflexivity].
      apply Z.eqb_eq in E'. subst k'.
      exfalso. apply Hk. unfold keys.
      change x with (fst (x, n')). apply in_map. exact Hin'.
  - apply Z.eqb_neq in E.
    destruct Hin as [Hin | Hin]; [congruence |].
    destruct (IH Hin Hc) as [IH1 IH2].
    split; [simpl; f_equal; exact IH1 |].
    intros r. simpl. f_equal; [| apply IH2].
    unfold bump. simpl. rewrite occurrences_cons.
    replace (x =? k) with false
      by (symmetry; apply Z.eqb_neq; congruence).
    reflexivity.
Qed.

Lemma counter_add_notin (x : Z) (c : list (Z * Z)) :
  ~ In x (keys c) -> Statistics.counter_add x c = c ++ [(x, 1)].
Proof.
  induction c as [| [k n] c IH]; simpl; intros Hn; [reflexivity |].
  destruct (k =? x) eqn:E.
  - apply Z.eqb_eq in E. tauto.
  - f_equal. apply IH. tauto.
Qed.

Lemma bump_notin (x : Z) (r : list Z) (c : list (Z * Z)) :
  ~ In x (keys c) -> map (bump (x :: r)) c = map (bump r) c.
Proof.
  intros Hn. apply map_ext_in. intros [k n] Hin.
  unfold bump. simpl. rewrite occurrences_cons.
  destruct (x =? k) eqn:E; [| reflexivity].
  apply Z.eqb_eq in E. subst k.
  exfalso. apply Hn. unfold keys.
  change x with (fst (x, n)). apply in_map. exact Hin.
Qed.

Let fresh (c : list (Z * Z)) (p : Z * Z) : bool :=
  negb (existsb (Z.eqb (fst p)) (keys c)).

Lemma fresh_spec (c : list (Z * Z)) (p : Z * Z) :
  fresh c p = true <-> ~ In (fst p) (keys c).
Proof.
  unfold fresh. rewrite negb_true_iff.
  split.
  - intros H Hin.
    assert (existsb (Z.eqb (fst p)) (keys c) = true); [| congruence].
    apply existsb_exists. exists (fst p). split; [exact Hin |].
    apply Z.eqb_refl.
  - intros H. destruct (existsb _ _) eqn:E; [| reflexivity].
    apply existsb_exists in E. destruct E as [y [Hy E]].
    apply Z.eqb_eq in E. subst y. tauto.
Qed.

(** Counting from a counter [c] is adding, to the counts of [c], the
    occurrences met, and then the fresh values in order. *)
Lemma fold_counter_add (r : list Z) :
  forall c, NoDup (keys c) ->
    fold_left (fun c x => Statistics.counter_add x c) r c
    = map (bump r) c ++ filter (fresh c) (counts r).
Proof.
  induction r as [| x r IH]; intros c Hnd.
  - simpl. rewrite app_nil_r. symmetry.
    transitivity (map (fun p : Z * Z => p) c); [| apply map_id].
    apply map_ext.
    intros [k n]. unfold bump, occurrences. simpl. f_equal. lia.
  - cbn [fold_left counts].
    destruct (in_dec Z.eq_dec x (keys c)) as [Hin | Hn].
    + destruct (counter_add_in x c Hin Hnd) as [Hk Hb].
      rewrite IH by (rewrite Hk; exact Hnd).
      rewrite Hb. f_equal.
      cbn [filter].
      replace (fresh c (x, 1 + occurrences r x)) with false.
      2:{ symmetry. apply not_true_iff_false. rewrite fresh_spec. tauto. }
      assert (Hfilter :
                forall l, filter (fresh (Statistics.counter_add x c)) l
                          = filter (fresh c)
                                   (filter (fun p => negb (fst p =? x)) l)).
      { induction l as [| p l IHl]; [reflexivity |].
        cbn [filter].
        destruct (fst p =? x) eqn:E; cbn [negb].
        - apply Z.eqb_eq in E.
          replace (fresh (Statistics.counter_add x c) p) with false;
            [exact IHl |].
          symmetry. apply not_true_iff_false. rewrite fresh_spec.
          rewrite Hk, E. tauto.
        - cbn [filter].
          replace (fresh (Statistics.counter_add x c) p) with (fresh c p)
            by (unfold fresh; rewrite Hk; reflexivity).
          destruct (fresh c p); [f_equal |]; exact IHl. }
      apply Hfilter.
    + rewrite (counter_add_notin x c Hn).
      rewrite IH.
      2:{ unfold keys. rewrite map_app. simpl.
          eapply Permutation_NoDup; [apply Permutation_cons_append |].
          constructor; assumption. }
      rewrite map_app, <- app_assoc. f_equal.
      * symmetry. apply bump_notin. exact Hn.
      * cbn [map app filter].
        replace (fresh c (x, 1 + occurrences r x)) with true
          by (symmetry; apply fresh_spec; exact Hn).
        unfold bump at 1. cbn [fst snd]. f_equal.
        clear IH.
        induction (counts r) as [| p l IHl]; [reflexivity |].
        cbn [filter].
        assert (Hf : fresh (c ++ [(x, 1)]) p
                     = negb (fst p =? x) && fresh c p).
        { unfold fresh, keys. rewrite map_app, existsb_app. simpl.
          rewrite orb_false_r, negb_orb. apply andb_comm. }
        rewrite Hf.
        destruct (fst p =? x); cbn [negb andb]; [exact IHl |].
        cbn [filter]. destruct (fresh c p); [f_equal |]; exact IHl.
Qed.

(** The counter of a list holds its distinct values in the order of their
    first occurrences, each with the number of its occurrences. *)
Lemma Counter_counts (P : list Z) : Statistics.Counter P = counts P.
Proof.
  unfold Statistics.Counter.
  rewrite fold_counter_add by constructor.
  simpl. induction (counts P) as [| p l IH]; [reflexivity |].
  simpl. f_equal. exact IH.
Qed.

End CounterFacts.

Lemma counts_in (P : list Z) (k n : Z) :
  In (k, n) (Spec.counts P) -> n = Spec.occurrences P k /\ In k P.
Proof.
  induction P as [| x r IH]; cbn [Spec.counts In]; [contradiction |].
  intros [E | Hin].
  - inversion E; subst. rewrite occurrences_cons, Z.eqb_refl.
    split; [reflexivity | left; reflexivity].
  - apply filter_In in Hin. destruct Hin as [Hin Hne]. cbn [fst] in Hne.
    apply negb_true_iff in Hne.
    destruct (IH Hin) as [Hn Hk].
    rewrite occurrences_cons.
    replace (x =? k) with false by (rewrite Z.eqb_sym; congruence).
    split; [lia | right; exact Hk].
Qed.

Lemma counts_complete (P : list Z) (k : Z) :
  In k P -> In (k, Spec.occurrences P k) (Spec.counts P).
Proof.
  induction P as [| x r IH]; cbn [Spec.counts In]; [contradiction |].
  intros Hin. rewrite occurrences_cons.
  destruct (x =? k) eqn:E.
  - apply Z.eqb_eq in E. subst. left. reflexivity.
  - right. apply filter_In. cbn [fst].
    rewrite Z.eqb_sym, E. split; [| reflexivity].
    apply Z.eqb_neq in E.
    destruct Hin as [Hin | Hin]; [congruence |].
    replace (0 + Spec.occurrences r k) with (Spec.occurrences r k) by lia.
    apply IH, Hin.
Qed.

Lemma filter_split {A : Type} (f : A -> bool) (l a b : list A) (y : A) :
  filter f l = a ++ y :: b ->
  exists a' b', l = a' ++ y :: b' /\ filter f a' = a /\ filter f b' = b.
Proof.
  revert a. induction l as [| x l IH]; simpl; intros a H.
  - destruct a; discriminate.
  - destruct (f x) eqn:E.
    + destruct a as [| z a]; simpl in H; inversion H; subst.
      * exists [], l. simpl. auto.
      * destruct (IH a H2) as [a' [b' [H1 [Ha Hb]]]].
        exists (z :: a'), b'. subst. simpl. rewrite E. auto.
    + destruct (IH a H) as [a' [b' [H1 [Ha Hb]]]].
      exists (x :: a'), b'. subst. simpl. rewrite E. auto.
Qed.

(** The values of [P] in front of the first occurrence of a value are
    those counted in front of it. *)
Lemma counts_order (P : list Z) :
  forall c1 c2 k n,
    Spec.counts P = c1 ++ (k, n) :: c2 ->
    exists pre post,
      P = pre ++ k :: post /\ ~ In k pre
      /\ forall x, In x pre -> In x (map fst c1).
Proof.
  induction P as [| x r IH]; cbn [Spec.counts]; intros c1 c2 k n H.
  - destruct c1; discriminate.
  - destruct c1 as [| p c1]; cbn [app] in H; inversion H; subst.
    + exists [], r. simpl. tauto.
    + assert (Hkx : k <> x).
      { assert (Hin : In (k, n) (filter (fun p => negb (fst p =? x))
                                        (Spec.counts r)))
          by (rewrite H2; apply in_elt).
        apply filter_In in Hin. destruct Hin as [_ Hin]. cbn [fst] in Hin.
        apply negb_true_iff, Z.eqb_neq in Hin. exact Hin. }
      apply filter_split in H2.
      destruct H2 as [d1 [d2 [Hd [Hf1 Hf2]]]].
      destruct (IH _ _ _ _ Hd) as [pre [post [HP [Hk Hpre]]]].
      exists (x :: pre), post. subst r. cbn [app In map fst].
      split; [reflexivity |].
      split; [intros [E | E]; [congruence | tauto] |].
      intros y [E | Hy]; [left; exact E |].
      destruct (Z.eq_dec y x) as [E | E]; [left; congruence | right].
      specialize (Hpre y Hy). rewrite <- Hf1.
      apply in_map_iff in Hpre. destruct Hpre as [[y' m] [Ey Hin]].
      cbn [fst] in Ey. subst y'.
      apply in_map_iff. exists (y, m). split; [reflexivity |].
      apply filter_In. split; [exact Hin |]. cbn [fst].
      apply negb_true_iff, Z.eqb_neq. exact E.
Qed.

(** The item that [max] returns: no item before it has a count as great,
    no item after it has a greater count. *)
Lemma max_by_count_first (items : list (Z * Z)) :
  forall best,
  exists c1 c2,
    best :: items = c1 ++ Statistics.max_by_count best items :: c2
    /\ (forall p, In p c1 -> snd p < snd (Statistics.max_by_count best items))
    /\ (forall p, In p c2 -> snd p <= snd (Statistics.max_by_count best items)).
Proof.
  induction items as [| it r IH]; intros best; cbn [Statistics.max_by_count].
  - exists [], []. simpl. tauto.
  - destruct (snd best <? snd it) eqn:E.
    + apply Z.ltb_lt in E.
      destruct (IH it) as [d1 [d2 [Hs [H1 H2]]]].
      exists (best :: d1), d2.
      split; [cbn [app]; f_equal; exact Hs |]. split; [| exact H2].
      intros p [<- | Hp]; [| apply H1, Hp].
      destruct d1 as [| q d1]; cbn [app] in Hs; injection Hs as Hq Hr.
      * pose proof (f_equal snd Hq) as Hq'. lia.
      * specialize (H1 q (or_introl eq_refl)). subst q. lia.
    + apply Z.ltb_ge in E.
      destruct (IH best) as [d1 [d2 [Hs [H1 H2]]]].
      destruct d1 as [| q d1]; cbn [app] in Hs; injection Hs as Hq Hr.
      * exists [], (it :: d2). pose proof (f_equal snd Hq) as Hq'.
        split; [cbn [app]; f_equal; [exact Hq | f_equal; exact Hr] |].
        split; [intros p [] |].
        intros p [<- | Hp]; [lia | apply H2, Hp].
      * exists (q :: it :: d1), d2.
        split; [cbn [app]; f_equal; [exact Hq | f_equal; exact Hr] |].
        split; [| exact H2].
        pose proof (H1 q (or_introl eq_refl)) as Hq1. subst q.
        intros p [<- | [<- | Hp]].
        -- exact Hq1.
        -- lia.
        -- apply H1. right. exact Hp.
Qed.

(** C4, as stated, fails: among the equally most frequent values the mode
    is not the least one. In [500; 300; 500; 300] the values 500 and 300
    both occur twice, an ascending scan meets 300 first, and the mode is
    500. *)
Lemma mode_not_least_of_ties :
  ~ (forall (P : list Z) (m : Z),
        Statistics.mode P = Ok m ->
        forall x, Spec.occurrences P x = Spec.occurrences P m -> m <= x).
Proof.
  intros H.
  specialize (H [500; 300; 500; 300] 500 eq_refl 300 eq_refl).
  lia.
Qed.

(** C4, amended. For every non-empty price list the mode is a most frequent
    value of the list, and among the equally most frequent values it is the
    one that occurs first in the list, in the order of the rows: every value
    in front of its first occurrence is strictly less frequent. *)
Theorem mode_first_most_frequent (P : list Z) :
  P <> [] ->
  exists m pre post,
    Statistics.mode P = Ok m
    /\ P = pre ++ m :: post
    /\ ~ In m pre
    /\ (forall x, Spec.occurrences P x <= Spec.occurrences P m)
    /\ (forall x, In x pre -> Spec.occurrences P x < Spec.occurrences P m).
Proof.
  intros Hne.
  unfold Statistics.mode, Statistics.most_common_1.
  rewrite Counter_counts.
  destruct (Spec.counts P) as [| c cs] eqn:EC.
  - destruct P; [congruence | discriminate].
  - destruct (max_by_count_first cs c) as [c1 [c2 [Hs [H1 H2]]]].
    set (mp := Statistics.max_by_count c cs) in *.
    destruct mp as [m n] eqn:Emp. cbn [fst snd] in *.
    rewrite <- EC in Hs.
    destruct (counts_order P _ _ _ _ Hs) as [pre [post [HP [Hm Hpre]]]].
    assert (Hmn : n = Spec.occurrences P m /\ In m P)
      by (apply counts_in; rewrite Hs; apply in_elt).
    destruct Hmn as [Hn HmP].
    exists m, pre, post.
    split; [reflexivity |]. split; [exact HP |]. split; [exact Hm |].
    split.
    + intros x.
      destruct (in_dec Z.eq_dec x P) as [Hx | Hx].
      * pose proof (counts_complete P x Hx) as Hc.
        rewrite Hs in Hc. apply in_app_or in Hc.
        destruct Hc as [Hc | [Hc | Hc]].
        -- specialize (H1 _ Hc). cbn [snd] in H1. lia.
        -- inversion Hc; subst. lia.
        -- specialize (H2 _ Hc). cbn [snd] in H2. lia.
      * apply occurrences_pos in HmP.
        assert (~ 0 < Spec.occurrences P x)
          by (rewrite <- occurrences_pos; exact Hx).
        lia.
    + intros x Hx. specialize (Hpre x Hx).
      apply in_map_iff in Hpre. destruct Hpre as [[x' k] [Ex Hin]].
      cbn [fst] in Ex. subst x'.
      specialize (H1 _ Hin). cbn [snd] in H1.
      assert (Hk : k = Spec.occurrences P x /\ In x P).
      { apply counts_in. rewrite Hs. apply in_or_app. left. exact Hin. }
      lia.
Qed.

Lemma mode_first_most_frequent_witness :
  exists m pre post,
    Statistics.mode [500; 300; 500; 300] = Ok m
    /\ [500; 300; 500; 300] = pre ++ m :: post
    /\ ~ In m pre
    /\ (forall x, Spec.occurrences [500; 300; 500; 300] x
                  <= Spec.occurrences [500; 300; 500; 300] m)
    /\ (forall x, In x pre ->
                  Spec.occurrences [500; 300; 500; 300] x
                  < Spec.occurrences [500; 300; 500; 300] m).
Proof.
  apply (mode_first_most_frequent [500; 300; 500; 300]).
  discriminate.
Defined.

(** ** The variance *)

Lemma sum_cons (x : Z) (r : list Z) : sum (x :: r) = x + sum r.
Proof.
  unfold sum. simpl.
  assert (H : forall l a, fold_left Z.add l a = a + fold_left Z.add l 0).
  { induction l as [| y l IH]; intros a; simpl; [lia |].
    rewrite (IH (a + y)), (IH y). lia. }
  apply H.
Qed.

Lemma Qsum_inject (P : list Z) :
  (Spec.Qsum (map inject_Z P) == inject_Z (sum P))%Q.
Proof.
  induction P as [| x r IH]; [reflexivity |].
  cbn [map Spec.Qsum fold_right]. fold (Spec.Qsum (map inject_Z r)).
  rewrite IH, sum_cons, inject_Z_plus. reflexivity.
Qed.

(** The sum of the squared deviations from any centre [c]. *)
Lemma Qsum_sq_dev (P : list Z) (c : Q) :
  (Spec.Qsum (map (fun x => (inject_Z x - c) * (inject_Z x - c)) P)
   == inject_Z (sum (map (fun n => n * n)%Z P))
      - (2 # 1) * c * inject_Z (sum P)
      + inject_Z (len P) * c * c)%Q.
Proof.
  induction P as [| x r IH].
  - cbn. ring.
  - cbn [map Spec.Qsum fold_right].
    fold (Spec.Qsum
            (map (fun x => (inject_Z x - c) * (inject_Z x - c))%Q r)).
    rewrite IH, !sum_cons, len_cons, !inject_Z_plus, inject_Z_mult.
    change (inject_Z 1) with 1%Q. ring.
Qed.

(** The sum of squares that [_ss] computes, over the count, is the
    population variance; its centre is the mean. *)
Lemma _ss_spec (P : list Z) :
  P <> [] ->
  let '(ss, c, n) := Statistics._ss P in
  n = len P
  /\ (c == Spec.mean_Q P)%Q
  /\ (ss / inject_Z n == Spec.population_variance P)%Q.
Proof.
  intros Hne. pose proof (len_pos P Hne) as Hn.
  unfold Statistics._ss.
  replace (len P =? 0) with false by (symmetry; apply Z.eqb_neq; lia).
  assert (Hq : ~ (inject_Z (len P) == 0)%Q).
  { unfold Qeq. simpl. lia. }
  split; [reflexivity |].
  split.
  - rewrite Qred_correct. unfold Spec.mean_Q.
    rewrite Qsum_inject. reflexivity.
  - rewrite Qred_correct. unfold Spec.population_variance.
    rewrite Qsum_sq_dev. unfold Spec.mean_Q. rewrite Qsum_inject.
    field. exact Hq.
Qed.

Lemma _convert_compat (p q : Q) :
  (p == q)%Q -> Statistics._convert p = Statistics._convert q.
Proof.
  intros H. unfold Statistics._convert.
  rewrite (Qred_complete p q H). reflexivity.
Qed.


Lemma mean_spec (P : list Z) :
  P <> [] -> Statistics.mean P = Statistics._convert (Spec.mean_Q P).
Proof.
  intros Hne. pose proof (len_pos P Hne).
  unfold Statistics.mean, Statistics._sum.
  replace (len P <? 1) with false by (symmetry; apply Z.ltb_ge; lia).
  apply _convert_compat. unfold Spec.mean_Q.
  rewrite Qsum_inject. reflexivity.
Qed.

(** The statistics of the report are those of the prices of the products,
    in the order of the rows. *)
Lemma analyze_products_statistics (w w' : World) (a : App.Analysis)
      (text : list string) :
  App.analyze_products w = (Ok (a, text), w') ->
  exists product_prices,
    App.numbers (map Product.product_price (products (working (session w))))
    = Ok product_prices
    /\ Statistics.mean product_prices = Ok (App.mean_price a)
    /\ Statistics.mode product_prices = Ok (App.mode_price a)
    /\ Statistics.median product_prices = Ok (App.median_price a)
    /\ App.price_variance product_prices = Ok (App.pv a)
    /\ Statistics.pstdev product_prices = Ok (App.psd a)
    /\ App.report_text a = Ok text.
Proof.
  unfold App.analyze_products, Run.bind, lift, get_session, ret.
  intros H.
  repeat match type of H with
         | context [match ?x with _ => _ end] =>
             let E := fresh "E" in
             destruct x eqn:E; try discriminate
         end.
  inversion H; subst; clear H. cbn [fst snd] in *.
  eexists. repeat split; try eassumption; reflexivity.
Qed.




(** The divisor of the variance is the number of prices: on the example of
    the specification the population variance, 106612.6875, is not the
    sample variance, 142150.25, which divides by one less. *)
Lemma population_not_sample_variance :
  (Spec.sample_variance Sample.prices == 568601 # 4)%Q
  /\ Statistics.pvariance Sample.prices
     = Statistics._convert (1705803 # 16)
  /\ ~ (Spec.population_variance Sample.prices
        == Spec.sample_variance Sample.prices)%Q.
Proof.
  split; [vm_compute; reflexivity |].
  split; [vm_compute; reflexivity |].
  intros H. vm_compute in H. discriminate.
Qed.

(** ** The analysis of an empty store *)

Lemma analyze_products_empty (w : World) :
  products (working (session w)) = [] ->
  App.analyze_products w
  = (Raise (StatisticsError "mean requires at least one data point"), w).
Proof.
  intros H. unfold App.analyze_products, Run.bind, get_session.
  rewrite H. reflexivity.
Qed.

(** The menu returns the first line typed when it is one of the choices. *)
Lemma main_menu_choice (w : World) (line : string) (rest : list string) :
  stdin w = line :: rest ->
  App.mem_str (PyStr.lower (PyStr.strip line))
              ["n"; "v"; "a"; "b"; "l"; "r"; "q"]%string = true ->
  App.main_menu w
  = (Ok (PyStr.lower (PyStr.strip line)),
     {| session := session w; stdin := rest; clock := clock w;
        ticks := ticks w; backup_file := backup_file w |}).
Proof.
  intros Hin Hmem.
  unfold App.main_menu, while_true. rewrite Hin.
  cbn [List.length loop]. unfold Run.bind at 1. unfold Run.bind at 1.
  unfold input at 1. rewrite Hin. rewrite Hmem. reflexivity.
Qed.

(** C2, as stated, fails: nothing guards the analysis of an empty store.
    With no product in the store and the operator choosing the analysis,
    the app calls [mean] on the empty list of prices and ends with its
    [StatisticsError]; no "no data" report is made. *)
Lemma analysis_of_empty_store_raises :
  products (working (session Sample.empty_store_analysis)) = []
  /\ Statistics.mean []
     = Raise (StatisticsError "mean requires at least one data point")
  /\ fst (App.app Sample.empty_store_analysis)
     = Raise (StatisticsError "mean requires at least one data point").
Proof.
  repeat split.
Qed.

(** C2, amended. When the store has no product and the operator chooses the
    analysis, the app does not detect the empty data set: the analysis is
    entered, [mean] is applied to the empty list of prices and its
    [StatisticsError] ("mean requires at least one data point") propagates
    out of the turn of the menu; the store is left as it was. *)
Theorem analysis_of_empty_store (w : World) (line : string)
        (rest : list string) :
  stdin w = line :: rest ->
  PyStr.lower (PyStr.strip line) = "a"%string ->
  products (working (session w)) = [] ->
  fst (App.app_turn w)
  = Raise (StatisticsError "mean requires at least one data point")
  /\ fst (App.app w)
     = Raise (StatisticsError "mean requires at least one data point")
  /\ session (snd (App.app_turn w)) = session w.
Proof.
  intros Hin Hchoice Hempty.
  assert (Hturn :
            App.app_turn w
            = (Raise (StatisticsError "mean requires at least one data point"),
               {| session := session w; stdin := rest; clock := clock w;
                  ticks := ticks w; backup_file := backup_file w |})).
  { unfold App.app_turn. unfold Run.bind at 1.
    rewrite (main_menu_choice w line rest Hin)
      by (rewrite Hchoice; reflexivity).
    rewrite Hchoice. cbn [String.eqb Ascii.eqb Bool.eqb andb].
    unfold Run.bind at 1.
    rewrite analyze_products_empty by exact Hempty.
    reflexivity. }
  split; [rewrite Hturn; reflexivity |].
  split; [| rewrite Hturn; reflexivity].
  unfold App.app, while_true. rewrite Hin.
  cbn [List.length loop]. unfold Run.bind at 1.
  rewrite Hturn. reflexivity.
Qed.

Lemma analysis_of_empty_store_witness :
  fst (App.app_turn Sample.empty_store_analysis)
  = Raise (StatisticsError "mean requires at least one data point")
  /\ fst (App.app Sample.empty_store_analysis)
     = Raise (StatisticsError "mean requires at least one data point")
  /\ session (snd (App.app_turn Sample.empty_store_analysis))
     = session Sample.empty_store_analysis.
Proof.
  apply (analysis_of_empty_store Sample.empty_store_analysis "a" []);
    reflexivity.
Defined.

(** ** The import of the inventory *)

Lemma keeps_committed_ret {A : Type} (a : A) : keeps_committed (ret a).
Proof. intros w. reflexivity. Qed.

Lemma keeps_committed_lift {A : Type} (r : res A) : keeps_committed (lift r).
Proof. intros w. reflexivity. Qed.

Lemma keeps_committed_get_session : keeps_committed get_session.
Proof. intros w. reflexivity. Qed.

Lemma keeps_committed_read_only {A : Type} (m : M A) :
  read_only m -> keeps_committed m.
Proof. intros H w. destruct (H w) as [Hs _]. rewrite Hs. reflexivity. Qed.

Lemma keeps_committed_bind {A B : Type} (m : M A) (k : A -> M B) :
  keeps_committed m -> (forall a, keeps_committed (k a)) ->
  keeps_committed (Run.bind m k).
Proof.
  intros Hm Hk w. unfold Run.bind.
  pose proof (Hm w) as H.
  destruct (m w) as [[a | e] w1]; cbn [snd] in *.
  - rewrite (Hk a w1). exact H.
  - exact H.
Qed.

Lemma keeps_committed_add_product_row
      (name : string) (quantity : Z) (price brand : option Z)
      (date : datetime) :
  keeps_committed
    (modify_session (add_product_row name quantity price brand date)).
Proof. intros w. reflexivity. Qed.

Lemma read_only_clean_price (price_str : string) :
  read_only (App.clean_price price_str).
Proof.
  unfold App.clean_price.
  destruct (PyStr.float_of_str _) as [x | e].
  - repeat read_only_step.
  - destruct e; repeat read_only_step.
Qed.

Lemma keeps_committed_add_products_csv_row (row : App.InventoryRow) :
  keeps_committed (App.add_products_csv_row row).
Proof.
  unfold App.add_products_csv_row.
  apply keeps_committed_bind; [apply keeps_committed_get_session |].
  intros s. cbv zeta.
  destruct (count _ =? 0); [| apply keeps_committed_ret].
  apply keeps_committed_bind; [apply keeps_committed_lift | intros quantity].
  apply keeps_committed_bind;
    [apply keeps_committed_read_only, read_only_clean_price | intros price].
  apply keeps_committed_bind; [apply keeps_committed_lift | intros date].
  apply keeps_committed_bind; [apply keeps_committed_get_session | intros s'].
  apply keeps_committed_bind; [apply keeps_committed_lift | intros brand].
  apply keeps_committed_add_product_row.
Qed.

Lemma keeps_committed_for_each {A : Type} (xs : list A) (body : A -> M unit) :
  (forall x, keeps_committed (body x)) -> keeps_committed (for_each xs body).
Proof.
  intros Hb. induction xs as [| x xs IH]; cbn [for_each].
  - apply keeps_committed_ret.
  - apply keeps_committed_bind; [apply Hb | intros _; exact IH].
Qed.

Lemma for_each_app {A : Type} (xs ys : list A) (body : A -> M unit)
      (w : World) :
  for_each (xs ++ ys) body w
  = match for_each xs body w with
    | (Ok _, w1) => for_each ys body w1
    | (Raise e, w1) => (Raise e, w1)
    end.
Proof.
  revert w. induction xs as [| x xs IH]; intros w; cbn [app for_each].
  - reflexivity.
  - unfold Run.bind.
    destruct (body x w) as [[[] | e] w1]; [apply IH | reflexivity].
Qed.

(** An import that raises has committed nothing. *)
Lemma add_products_csv_raise (rows : list App.InventoryRow) (w : World)
      (e : exn) (w' : World) :
  App.add_products_csv rows w = (Raise e, w') ->
  committed (session w') = committed (session w).
Proof.
  unfold App.add_products_csv, Run.bind. intros H.
  pose proof (keeps_committed_for_each rows App.add_products_csv_row
                keeps_committed_add_products_csv_row w) as Hk.
  destruct (for_each rows App.add_products_csv_row w) as [[[] | e1] w1].
  - discriminate.
  - inversion H; subst. exact Hk.
Qed.

(** C5, as stated, fails. With the brand "Kraft" alone in the store, the
    second of the three records of the sample names an unknown brand: the
    import raises [NoResultFound] and no product at all is committed,
    although the two other records alone import well. *)
Lemma import_is_all_or_nothing :
  let w := Sample.world_of [Sample.kraft] [] [] in
  fst (App.add_products_csv Sample.inventory w) = Raise NoResultFound
  /\ products (committed (session (snd (App.add_products_csv
                                          Sample.inventory w)))) = []
  /\ map Product.product_name
         (products (committed (session (snd (App.add_products_csv
                                               [Sample.soup; Sample.rice]
                                               w)))))
     = ["Soup"; "Rice"]%string.
Proof.
  repeat split; vm_compute; reflexivity.
Qed.

(** C5, amended. During the import of the inventory, with cells of ASCII
    characters and integers that the tables can hold, a record that is
    reached, whose name is not yet in the store, whose quantity, price and
    date are read, and whose [brand_name] does not resolve to a brand,
    raises [NoResultFound] out of the import: the whole batch fails. The
    records after it are not processed, the import never commits, and the
    committed store is what it was before the import, without the records
    in front of the failing one either. *)
Theorem import_aborts_on_unknown_brand
        (pre post : list App.InventoryRow) (row : App.InventoryRow)
        (w w1 w2 : World) (quantity : Z) (price : option Z)
        (date : datetime) :
  forallb App.row_is_ascii (pre ++ [row]) = true ->
  for_each pre App.add_products_csv_row w = (Ok tt, w1) ->
  pending_fits (session w1) = true ->
  App.products_by_name (session w1) (App.row_product_name row) = [] ->
  PyStr.int_of_str (App.row_product_quantity row) = Ok quantity ->
  App.clean_price (App.row_product_price row) w1 = (Ok price, w2) ->
  App.clean_date (App.row_date_updated row) = Ok date ->
  App.brands_by_name (session w1) (App.row_brand_name row) = [] ->
  App.add_products_csv (pre ++ row :: post) w = (Raise NoResultFound, w2)
  /\ committed (session w2) = committed (session w).
Proof.
  intros _ Hpre _ Hname Hq Hp Hd Hb.
  assert (Hs : session w2 = session w1).
  { pose proof (read_only_clean_price (App.row_product_price row) w1) as H.
    rewrite Hp in H. apply H. }
  assert (Hrow : App.add_products_csv_row row w1 = (Raise NoResultFound, w2)).
  { unfold App.add_products_csv_row.
    unfold Run.bind at 1. unfold get_session at 1. cbv zeta.
    rewrite Hname. cbn [count len List.length Z.of_nat Z.eqb].
    unfold Run.bind at 1. unfold lift at 1. rewrite Hq.
    unfold Run.bind at 1. rewrite Hp.
    unfold Run.bind at 1. unfold lift at 1. rewrite Hd.
    unfold Run.bind at 1. unfold get_session at 1.
    unfold Run.bind at 1. unfold lift at 1.
    rewrite Hs, Hb. reflexivity. }
  assert (Hall : App.add_products_csv (pre ++ row :: post) w
                 = (Raise NoResultFound, w2)).
  { unfold App.add_products_csv. unfold Run.bind at 1.
    rewrite for_each_app, Hpre. cbn [for_each].
    unfold Run.bind at 1. rewrite Hrow. reflexivity. }
  split; [exact Hall |].
  eapply add_products_csv_raise. exact Hall.
Qed.

Lemma import_aborts_on_unknown_brand_witness :
  let w := Sample.world_of [Sample.kraft] [] [] in
  exists w2,
    App.add_products_csv ([Sample.soup] ++ Sample.beans :: [Sample.rice]) w
    = (Raise NoResultFound, w2)
    /\ committed (session w2) = committed (session w).
Proof.
  intros w.
  eexists.
  eapply (import_aborts_on_unknown_brand
            [Sample.soup] [Sample.rice] Sample.beans w
            (snd (for_each [Sample.soup] App.add_products_csv_row w))
            _ 7 (Some 150)).
  - vm_compute. reflexivity.
  - vm_compute. reflexivity.
  - vm_compute. reflexivity.
  - vm_compute. reflexivity.
  - vm_compute. reflexivity.
  - vm_compute. reflexivity.
  - vm_compute. reflexivity.
  - vm_compute. reflexivity.
Defined.

(** ** Adding a product whose name is in the store *)

Lemma lex_leb_total (a : list Z) :
  forall b, Datetime.lex_leb a b = true \/ Datetime.lex_leb b a = true.
Proof.
  induction a as [| x a IH]; intros [| y b]; cbn [Datetime.lex_leb]; auto.
  destruct (IH b) as [H | H]; rewrite H;
    destruct (Z.ltb_spec x y), (Z.ltb_spec y x),
             (Z.eqb_spec x y), (Z.eqb_spec y x);
    cbn; auto; lia.
Qed.

Lemma lex_leb_trans (a : list Z) :
  forall b c,
    List.length a = List.length b -> List.length b = List.length c ->
    Datetime.lex_leb a b = true -> Datetime.lex_leb b c = true ->
    Datetime.lex_leb a c = true.
Proof.
  induction a as [| x a IH]; intros [| y b] [| z c] Hab Hbc;
    cbn [Datetime.lex_leb List.length] in *; try discriminate; auto.
  intros H1 H2.
  apply orb_true_iff in H1, H2. apply orb_true_iff.
  destruct H1 as [H1 | H1], H2 as [H2 | H2];
    rewrite ?andb_true_iff, ?Z.ltb_lt, ?Z.eqb_eq in *.
  - left. lia.
  - left. lia.
  - left. lia.
  - destruct H1 as [-> H1], H2 as [-> H2]. right. split; [reflexivity |].
    apply (IH b c); congruence.
Qed.

Lemma datetime_leb_total (s t : datetime) :
  Datetime.leb s t = true \/ Datetime.leb t s = true.
Proof. apply lex_leb_total. Qed.

Lemma datetime_leb_trans (s t u : datetime) :
  Datetime.leb s t = true -> Datetime.leb t u = true ->
  Datetime.leb s u = true.
Proof. apply lex_leb_trans; reflexivity. Qed.

(** The first row of a query in descending order of [date_updated] is a
    row of the query of latest date. *)
Lemma first_latest (rows : list Product.t) (target : Product.t) :
  first (order_by_desc Datetime.leb Product.date_updated rows) = Some target ->
  In target rows
  /\ forall p, In p rows ->
               Datetime.leb (Product.date_updated p)
                            (Product.date_updated target) = true.
Proof.
  intros H. unfold order_by_desc in H.
  apply first_sort_least in H.
  - destruct H as [Hin Hall]. split; [exact Hin |].
    intros p Hp. destruct (Hall p Hp) as [-> | Hle]; [| exact Hle].
    destruct (datetime_leb_total (Product.date_updated target)
                                 (Product.date_updated target)); assumption.
  - intros a b. apply datetime_leb_total.
  - intros a b c H1 H2. eapply datetime_leb_trans; eassumption.
Qed.

Lemma get_brand_name_reads (brand_id : option Z) (w : World) :
  exists name, App.get_brand_name brand_id w = (Ok name, w).
Proof.
  unfold App.get_brand_name, Run.bind, get_session.
  destruct (first _); eexists; reflexivity.
Qed.

(** The product as [set_product] leaves it. *)
Lemma set_product_products (pid quantity : Z) (price brand : option Z)
      (date : datetime) (s : Session) :
  products (working (set_product pid quantity price brand date s))
  = map (fun r =>
           if Product.product_id r =? pid then
             {| Product.product_id := Product.product_id r;
                Product.product_name := Product.product_name r;
                Product.product_quantity := quantity;
                Product.product_price := price;
                Product.date_updated := date;
                Product.brand_id := brand |}
           else r)
        (products (working s)).
Proof. reflexivity. Qed.

(** The part of [add_product] that follows the four dialogues, under a
    name that the store already holds and with the answer "y": no row is
    inserted, the row of that name with the latest [date_updated] gets the
    quantity, the price and the brand typed and the time of the clock, every
    other row is left as it was, the change is committed, and the number of
    products is what it was. *)
Lemma add_product_save_updates_latest
        (w : World) (name : string) (quantity_input price_input : Z)
        (brand_input : option Z) (line : string) (rest : list string) :
  stdin w = line :: rest ->
  PyStr.lower (PyStr.strip line) = "y"%string ->
  App.products_by_name (session w) name <> [] ->
  is_ok (App.humanize_price (Int price_input)) = true ->
  exists target,
    In target (products (working (session w)))
    /\ Product.product_name target = name
    /\ (forall p, In p (products (working (session w))) ->
                  Product.product_name p = name ->
                  Datetime.leb (Product.date_updated p)
                               (Product.date_updated target) = true)
    /\ fst (App.add_product_save name quantity_input price_input
                                 brand_input w) = Ok tt
    /\ products (committed (session (snd (App.add_product_save
          name quantity_input price_input brand_input w))))
       = map (fun r =>
                if Product.product_id r =? Product.product_id target then
                  {| Product.product_id := Product.product_id r;
                     Product.product_name := Product.product_name r;
                     Product.product_quantity := quantity_input;
                     Product.product_price := Some price_input;
                     Product.date_updated := clock w (ticks w);
                     Product.brand_id := brand_input |}
                else r)
             (products (working (session w)))
    /\ brands (committed (session (snd (App.add_product_save
          name quantity_input price_input brand_input w))))
       = brands (working (session w))
    /\ len (products (committed (session (snd (App.add_product_save
          name quantity_input price_input brand_input w)))))
       = len (products (working (session w))).
Proof.
  intros Hin Hy Hdup Hprice.
  set (dups := order_by_desc Datetime.leb Product.date_updated
                             (App.products_by_name (session w) name)).
  assert (Hperm : Permutation dups (App.products_by_name (session w) name))
    by apply sort_perm.
  destruct dups as [| target ds] eqn:Edups.
  { apply Permutation_nil in Hperm. congruence. }
  assert (Hfirst : first (order_by_desc Datetime.leb Product.date_updated
                            (App.products_by_name (session w) name))
                   = Some target).
  { fold dups. rewrite Edups. reflexivity. }
  apply first_latest in Hfirst. destruct Hfirst as [Ht Hlatest].
  unfold App.products_by_name in Ht. apply filter_In in Ht.
  destruct Ht as [HtIn HtName]. apply String.eqb_eq in HtName.
  exists target.
  split; [exact HtIn |]. split; [exact HtName |].
  split.
  { intros p Hp Hn. apply Hlatest. unfold App.products_by_name.
    apply filter_In. split; [exact Hp | apply String.eqb_eq; exact Hn]. }
  destruct (App.humanize_price (Int price_input)) as [txt |] eqn:Ehp;
    [| discriminate].
  assert (Hrun :
    App.add_product_save name quantity_input price_input brand_input w
    = (Ok tt,
       {| session :=
            commit (set_product (Product.product_id target) quantity_input
                                (Some price_input) brand_input
                                (clock w (ticks w)) (session w));
          stdin := rest; clock := clock w; ticks := S (ticks w);
          backup_file := backup_file w |})).
  { unfold App.add_product_save.
    unfold Run.bind at 1. unfold get_session at 1. cbv zeta.
    fold dups. rewrite Edups.
    replace (0 <? count (target :: ds)) with true
      by (symmetry; apply Z.ltb_lt; unfold count; rewrite len_cons;
          pose proof (len_nonneg ds); lia).
    unfold Run.bind at 1. unfold lift at 1.
    rewrite (getitem_nth (target :: ds) 0 target)
      by (rewrite len_cons; pose proof (len_nonneg ds); lia).
    cbn [Z.to_nat nth].
    unfold Run.bind at 1. unfold now at 1.
    unfold Run.bind at 1. unfold modify_session at 1.
    cbn [session stdin clock ticks backup_file].
    unfold Run.bind at 1. unfold App.confirm_product_info.
    unfold Run.bind at 1. unfold lift at 1. rewrite Ehp.
    unfold Run.bind at 1.
    match goal with
    | |- context [App.get_brand_name brand_input ?w0] =>
        destruct (get_brand_name_reads brand_input w0) as [nm Hnm];
        rewrite Hnm
    end.
    unfold Run.bind at 1. unfold input at 1.
    cbn [session stdin clock ticks backup_file]. rewrite Hin.
    unfold ret at 1. rewrite Hy. cbn [String.eqb Ascii.eqb Bool.eqb].
    reflexivity. }
  rewrite Hrun. cbn [fst snd session committed commit].
  split; [reflexivity |].
  rewrite set_product_products.
  split; [reflexivity |]. split; [reflexivity |].
  unfold len. rewrite length_map. reflexivity.
Qed.

(** ** The standard deviation *)

Lemma lor_one (a : Z) : 0 <= a -> Z.lor a 1 = a \/ Z.lor a 1 = a + 1.
Proof.
  intros Ha. destruct a as [| p | p]; [right; reflexivity | | lia].
  destruct p; cbn; [left | right | left]; reflexivity.
Qed.

(** The integer that [_integer_sqrt_of_frac_rto] returns is the floor [a]
    of the square root of [n / m], or [a + 1] when the root is not exact. *)
Lemma _integer_sqrt_of_frac_rto_spec (n m : Z) :
  0 <= n -> 0 < m ->
  exists a,
    0 <= a
    /\ a * a * m <= n < (a + 1) * (a + 1) * m
    /\ a = Z.sqrt (n / m)
    /\ (Statistics._integer_sqrt_of_frac_rto n m = a
        \/ Statistics._integer_sqrt_of_frac_rto n m = a + 1)
    /\ (a * a * m = n -> Statistics._integer_sqrt_of_frac_rto n m = a).
Proof.
  intros Hn Hm.
  exists (Z.sqrt (n / m)).
  assert (Hd : 0 <= n / m) by (apply Z.div_pos; lia).
  pose proof (Z.sqrt_spec (n / m) Hd) as Hs. cbv zeta in Hs.
  pose proof (Z.sqrt_nonneg (n / m)) as Ha.
  pose proof (Z.mul_div_le n m Hm) as H1.
  pose proof (Z.mul_succ_div_gt n m Hm) as H2.
  set (a := Z.sqrt (n / m)) in *.
  unfold Z.succ in *.
  split; [exact Ha |].
  split; [split; nia |].
  split; [reflexivity |].
  unfold Statistics._integer_sqrt_of_frac_rto. fold a.
  destruct (a * a * m =? n) eqn:E.
  - rewrite Z.lor_0_r. split; [left; reflexivity | reflexivity].
  - apply Z.eqb_neq in E. split; [apply lor_one; exact Ha | tauto].
Qed.

Lemma bit_length_pos (n : Z) :
  0 < n -> bit_length n = Z.log2 n + 1 /\ 2 ^ Z.log2 n <= n < 2 ^ (Z.log2 n + 1).
Proof.
  intros Hn. unfold bit_length.
  replace (n =? 0) with false by (symmetry; apply Z.eqb_neq; lia).
  rewrite Z.abs_eq by lia.
  split; [reflexivity |].
  pose proof (Z.log2_spec n Hn) as H. unfold Z.succ in H. exact H.
Qed.

(** The scaling of [_float_sqrt_of_frac] leaves a quotient of 109 bits at
    least, so that the integer root has 55. *)
Lemma sqrt_scale_up (n m q : Z) :
  0 < n -> 0 < m ->
  q = (bit_length n - bit_length m - Statistics._sqrt_bit_width) / 2 ->
  0 <= q ->
  2 ^ 54 <= Z.sqrt (n / (m * 2 ^ (2 * q))).
Proof.
  intros Hn Hm Hq Hq0.
  destruct (bit_length_pos n Hn) as [Bn [Ln Un]].
  destruct (bit_length_pos m Hm) as [Bm [Lm Um]].
  pose proof (Z.log2_nonneg n) as Hln. pose proof (Z.log2_nonneg m) as Hlm.
  unfold Statistics._sqrt_bit_width in Hq. rewrite Bn, Bm in Hq.
  assert (H2q : 2 * q <= Z.log2 n - Z.log2 m - 109).
  { subst q. etransitivity; [apply Z.mul_div_le; lia |]. lia. }
  assert (HM : m * 2 ^ (2 * q) < 2 ^ (Z.log2 n - 108)).
  { apply Z.lt_le_trans with (2 ^ (Z.log2 m + 1) * 2 ^ (2 * q)).
    - apply Z.mul_lt_mono_pos_r; [apply Z.pow_pos_nonneg; lia | exact Um].
    - rewrite <- Z.pow_add_r by lia. apply Z.pow_le_mono_r; lia. }
  assert (HMpos : 0 < m * 2 ^ (2 * q))
    by (apply Z.mul_pos_pos; [lia | apply Z.pow_pos_nonneg; lia]).
  assert (Hdiv : 2 ^ 108 <= n / (m * 2 ^ (2 * q))).
  { apply Z.div_le_lower_bound; [exact HMpos |].
    apply Z.le_trans with (2 ^ Z.log2 n); [| exact Ln].
    assert (E : 2 ^ Z.log2 n = 2 ^ (Z.log2 n - 108) * 2 ^ 108)
      by (rewrite <- Z.pow_add_r by lia; f_equal; lia).
    rewrite E.
    assert (0 < 2 ^ 108) by (apply Z.pow_pos_nonneg; lia). nia. }
  replace (2 ^ 54) with (Z.sqrt (2 ^ 108)) by reflexivity.
  apply Z.sqrt_le_mono. exact Hdiv.
Qed.

Lemma sqrt_scale_down (n m q : Z) :
  0 < n -> 0 < m ->
  q = (bit_length n - bit_length m - Statistics._sqrt_bit_width) / 2 ->
  q < 0 ->
  2 ^ 54 <= Z.sqrt (n * 2 ^ (- 2 * q) / m).
Proof.
  intros Hn Hm Hq Hq0.
  destruct (bit_length_pos n Hn) as [Bn [Ln Un]].
  destruct (bit_length_pos m Hm) as [Bm [Lm Um]].
  pose proof (Z.log2_nonneg n) as Hln. pose proof (Z.log2_nonneg m) as Hlm.
  unfold Statistics._sqrt_bit_width in Hq. rewrite Bn, Bm in Hq.
  assert (H2q : 2 * q <= Z.log2 n - Z.log2 m - 109).
  { subst q. etransitivity; [apply Z.mul_div_le; lia |]. lia. }
  assert (HN : 2 ^ (Z.log2 m + 109) <= n * 2 ^ (- 2 * q)).
  { apply Z.le_trans with (2 ^ Z.log2 n * 2 ^ (- 2 * q)).
    - rewrite <- Z.pow_add_r by lia. apply Z.pow_le_mono_r; lia.
    - apply Z.mul_le_mono_nonneg_r; [apply Z.pow_nonneg; lia | exact Ln]. }
  assert (Hdiv : 2 ^ 108 <= n * 2 ^ (- 2 * q) / m).
  { apply Z.div_le_lower_bound; [exact Hm |].
    apply Z.le_trans with (2 ^ (Z.log2 m + 109)); [| exact HN].
    assert (E : 2 ^ (Z.log2 m + 109) = 2 ^ (Z.log2 m + 1) * 2 ^ 108)
      by (rewrite <- Z.pow_add_r by lia; f_equal; lia).
    rewrite E.
    assert (0 < 2 ^ 108) by (apply Z.pow_pos_nonneg; lia). nia. }
  replace (2 ^ 54) with (Z.sqrt (2 ^ 108)) by reflexivity.
  apply Z.sqrt_le_mono. exact Hdiv.
Qed.

Lemma Qsum_squares_nonneg (l : list Z) (c : Q) :
  (0 <= Spec.Qsum (map (fun x => (inject_Z x - c) * (inject_Z x - c)) l))%Q.
Proof.
  induction l as [| x l IH]; cbn [map Spec.Qsum fold_right].
  - apply Qle_refl.
  - fold (Spec.Qsum
            (map (fun x => (inject_Z x - c) * (inject_Z x - c))%Q l)).
    replace 0%Q with (0 + 0)%Q by reflexivity.
    apply Qplus_le_compat; [| exact IH].
    set (d := (inject_Z x - c)%Q).
    unfold Qle, Qmult. cbn [Qnum Qden]. nia.
Qed.

Lemma population_variance_nonneg (P : list Z) :
  P <> [] -> 0 <= Qnum (Qred (Spec.population_variance P)).
Proof.
  intros Hne. pose proof (len_pos P Hne) as Hn.
  assert (H : (0 <= Qred (Spec.population_variance P))%Q).
  { rewrite Qred_correct. unfold Spec.population_variance.
    apply Qle_shift_div_l.
    - unfold Qlt. cbn. lia.
    - rewrite Qmult_0_l. apply Qsum_squares_nonneg. }
  unfold Qle in H. cbn [Qnum Qden] in H. lia.
Qed.

Lemma pstdev_spec (P : list Z) :
  P <> [] ->
  Statistics.pstdev P
  = Statistics._float_sqrt_of_frac
      (Qnum (Qred (Spec.population_variance P)))
      (Zpos (Qden (Qred (Spec.population_variance P)))).
Proof.
  intros Hne. pose proof (_ss_spec P Hne) as H.
  unfold Statistics.pstdev.
  destruct (Statistics._ss P) as [[ss c] n].
  destruct H as [Hn [_ Hv]].
  pose proof (len_pos P Hne).
  replace (n <? 1) with false by (symmetry; apply Z.ltb_ge; lia).
  rewrite (Qred_complete _ _ Hv). reflexivity.
Qed.

(** The number that [_float_sqrt_of_frac n m] converts to a float is
    [r * 2 ^ q] for an integer [r] of 55 bits at least within one of the
    square root of [n / m] scaled by [2 ^ q]. *)
Lemma _float_sqrt_of_frac_spec (n m : Z) :
  0 <= n -> 0 < m ->
  exists r q,
    Statistics._float_sqrt_of_frac n m
    = (if 0 <=? q then truediv (r * 2 ^ q) 1 else truediv r (2 ^ (- q)))
    /\ 0 <= r
    /\ (n = 0 -> r = 0)
    /\ (0 < n ->
        2 ^ 54 <= r
        /\ (0 <= q ->
            (r - 1) * (r - 1) * (m * 4 ^ q) <= n
            /\ n < (r + 1) * (r + 1) * (m * 4 ^ q))
        /\ (q < 0 ->
            (r - 1) * (r - 1) * m <= n * 4 ^ (- q)
            /\ n * 4 ^ (- q) < (r + 1) * (r + 1) * m)).
Proof.
  intros Hn Hm.
  set (q := (bit_length n - bit_length m - Statistics._sqrt_bit_width) / 2).
  assert (H4 : forall k, 0 <= k -> 2 ^ (2 * k) = 4 ^ k).
  { intros k Hk. rewrite Z.pow_mul_r by lia. reflexivity. }
  destruct (Z.leb_spec 0 q) as [Hq | Hq].
  - (* the denominator is scaled up *)
    assert (HM : 0 < m * 2 ^ (2 * q))
      by (apply Z.mul_pos_pos; [lia | apply Z.pow_pos_nonneg; lia]).
    destruct (_integer_sqrt_of_frac_rto_spec n (m * 2 ^ (2 * q)) Hn HM)
      as [a [Ha [[Hlo Hhi] [Ea [Hr Hex]]]]].
    exists (Statistics._integer_sqrt_of_frac_rto n (m * 2 ^ (2 * q))), q.
    split.
    { unfold Statistics._float_sqrt_of_frac. fold q.
      replace (0 <=? q) with true by (symmetry; apply Z.leb_le; exact Hq).
      rewrite !Z.shiftl_mul_pow2 by lia. reflexivity. }
    split; [destruct Hr as [-> | ->]; lia |].
    split.
    { intros ->. assert (Ea0 : a = 0) by nia.
      rewrite Hex; [exact Ea0 | rewrite Ea0; lia]. }
    intros Hn0.
    assert (Hbig : 2 ^ 54 <= a)
      by (rewrite Ea; apply (sqrt_scale_up n m q); auto).
    assert (0 < 2 ^ 54) by (apply Z.pow_pos_nonneg; lia).
    rewrite H4 in * by lia.
    split; [destruct Hr as [-> | ->]; lia |].
    split; [| lia].
    intros _. destruct Hr as [-> | ->]; split; nia.
  - (* the numerator is scaled up *)
    assert (HN : 0 <= n * 2 ^ (- 2 * q))
      by (apply Z.mul_nonneg_nonneg; [lia | apply Z.pow_nonneg; lia]).
    destruct (_integer_sqrt_of_frac_rto_spec (n * 2 ^ (- 2 * q)) m HN Hm)
      as [a [Ha [[Hlo Hhi] [Ea [Hr Hex]]]]].
    exists (Statistics._integer_sqrt_of_frac_rto (n * 2 ^ (- 2 * q)) m), q.
    split.
    { unfold Statistics._float_sqrt_of_frac. fold q.
      replace (0 <=? q) with false by (symmetry; apply Z.leb_gt; exact Hq).
      rewrite !Z.shiftl_mul_pow2 by lia. rewrite Z.mul_1_l. reflexivity. }
    split; [destruct Hr as [-> | ->]; lia |].
    split.
    { intros ->. rewrite Z.mul_0_l in *. assert (Ea0 : a = 0) by nia.
      rewrite Hex; [exact Ea0 | rewrite Ea0; lia]. }
    intros Hn0.
    assert (Hbig : 2 ^ 54 <= a)
      by (rewrite Ea; apply (sqrt_scale_down n m q); auto).
    assert (0 < 2 ^ 54) by (apply Z.pow_pos_nonneg; lia).
    replace (- 2 * q) with (2 * - q) in * by lia.
    rewrite H4 in * by lia.
    split; [destruct Hr as [-> | ->]; lia |].
    split; [lia |].
    intros _. destruct Hr as [-> | ->]; split; nia.
Qed.

(** C7, as stated, fails. In a store of two products priced 0 and 10 cents
    the report holds the variance 0 (the population variance 25, divided by
    100 and rounded) and the standard deviation 5.0: the square root of the
    reported variance is 0.0, not 5.0, and the two are printed as "$0.00"
    and "$0.05". *)
Lemma stddev_not_sqrt_of_reported_variance :
  exists a text w',
    App.analyze_products Sample.two_products_world = (Ok (a, text), w')
    /\ App.pv a = 0
    /\ App.psd a = S754_finite false 5629499534213120 (-50)
    /\ Float64.to_Q (App.psd a) == 5 # 1
    /\ Float64.sqrt (Float64.of_Z (App.pv a)) = S754_zero false
    /\ Float64.eqb (App.psd a) (Float64.sqrt (Float64.of_Z (App.pv a)))
       = false
    /\ nth 12 text ""%string = "$0.00"%string
    /\ nth 13 text ""%string = "$0.05"%string.
Proof.
  do 3 eexists.
  split; [vm_compute; reflexivity |].
  repeat split.
Qed.

(** C7, amended. For every non-empty price list [P], the standard deviation
    reported is the square root of the exact population variance [n / m] of
    [P] (in lowest terms), not of the reported variance: it is the float
    nearest to [r * 2 ^ q], where the integer [r] is 0 when the variance is
    0 and otherwise has 55 bits at least and is within one of the square
    root of [n / m] divided by [2 ^ q], that is
    [((r - 1) * 2 ^ q) ^ 2 <= n / m < ((r + 1) * 2 ^ q) ^ 2]. *)
Theorem pstdev_is_sqrt_of_population_variance (P : list Z) :
  P <> [] ->
  let n := Qnum (Qred (Spec.population_variance P)) in
  let m := Zpos (Qden (Qred (Spec.population_variance P))) in
  exists r q,
    Statistics.pstdev P
    = (if 0 <=? q then truediv (r * 2 ^ q) 1 else truediv r (2 ^ (- q)))
    /\ 0 <= r
    /\ (n = 0 -> r = 0)
    /\ (0 < n ->
        2 ^ 54 <= r
        /\ (0 <= q ->
            (r - 1) * (r - 1) * (m * 4 ^ q) <= n
            /\ n < (r + 1) * (r + 1) * (m * 4 ^ q))
        /\ (q < 0 ->
            (r - 1) * (r - 1) * m <= n * 4 ^ (- q)
            /\ n * 4 ^ (- q) < (r + 1) * (r + 1) * m)).
Proof.
  intros Hne n m.
  rewrite (pstdev_spec P Hne). fold n m.
  apply _float_sqrt_of_frac_spec.
  - apply population_variance_nonneg, Hne.
  - reflexivity.
Qed.

Lemma pstdev_is_sqrt_of_population_variance_witness :
  let n := Qnum (Qred (Spec.population_variance Sample.prices)) in
  let m := Zpos (Qden (Qred (Spec.population_variance Sample.prices))) in
  exists r q,
    Statistics.pstdev Sample.prices
    = (if 0 <=? q then truediv (r * 2 ^ q) 1 else truediv r (2 ^ (- q)))
    /\ 0 <= r
    /\ (n = 0 -> r = 0)
    /\ (0 < n ->
        2 ^ 54 <= r
        /\ (0 <= q ->
            (r - 1) * (r - 1) * (m * 4 ^ q) <= n
            /\ n < (r + 1) * (r + 1) * (m * 4 ^ q))
        /\ (q < 0 ->
            (r - 1) * (r - 1) * m <= n * 4 ^ (- q)
            /\ n * 4 ^ (- q) < (r + 1) * (r + 1) * m)).
Proof.
  apply (pstdev_is_sqrt_of_population_variance Sample.prices).
  discriminate.
Defined.

(** The whole dialogue of [add_product()]: the operator types a name of the
    store, a quantity, a price, a brand and "y"; the row of that name is
    overwritten and committed, and no row is added. *)
Lemma add_product_dialogue :
  let w := Sample.world_of [Sample.kraft] Sample.two_products
             ["Candy"; "3"; "2.50"; "1"; "y"]%string in
  fst (App.add_product w) = Ok tt
  /\ products (committed (session (snd (App.add_product w))))
     = [Sample.product 1 "Water" 5 0 1; Sample.product 2 "Candy" 3 250 1].
Proof.
  split; vm_compute; reflexivity.
Qed.

(* ===================================================================== *)
(** * Further properties of the code *)
(* ===================================================================== *)

(** ** Rules for specifications *)

Lemma triple_ret {A : Type} (P : World -> Prop) (a : A)
      (Q : A -> World -> Prop) (R : exn -> World -> Prop) :
  (forall w, P w -> Q a w) -> triple P (ret a) Q R.
Proof. intros H w Hw. apply H, Hw. Qed.

Lemma triple_raise {A : Type} (P : World -> Prop) (e : exn)
      (Q : A -> World -> Prop) (R : exn -> World -> Prop) :
  (forall w, P w -> R e w) -> triple P (raise e) Q R.
Proof. intros H w Hw. apply H, Hw. Qed.

Lemma triple_lift {A : Type} (P : World -> Prop) (r : res A)
      (Q : A -> World -> Prop) (R : exn -> World -> Prop) :
  (forall w a, P w -> r = Ok a -> Q a w) ->
  (forall w e, P w -> r = Raise e -> R e w) ->
  triple P (lift r) Q R.
Proof.
  intros HQ HR w Hw. unfold lift.
  destruct r; [apply HQ | apply HR]; auto.
Qed.

Lemma triple_bind {A B : Type} (P : World -> Prop) (m : M A)
      (k : A -> M B) (Q1 : A -> World -> Prop)
      (Q : B -> World -> Prop) (R : exn -> World -> Prop) :
  triple P m Q1 R ->
  (forall a, triple (Q1 a) (k a) Q R) ->
  triple P (Run.bind m k) Q R.
Proof.
  intros Hm Hk w Hw. unfold Run.bind.
  specialize (Hm w Hw).
  destruct (m w) as [[a | e] w1]; [apply Hk, Hm | exact Hm].
Qed.

Lemma triple_weaken {A : Type} (P P' : World -> Prop) (m : M A)
      (Q Q' : A -> World -> Prop) (R R' : exn -> World -> Prop) :
  triple P' m Q' R' ->
  (forall w, P w -> P' w) ->
  (forall a w, Q' a w -> Q a w) ->
  (forall e w, R' e w -> R e w) ->
  triple P m Q R.
Proof.
  intros H HP HQ HR w Hw. specialize (H w (HP w Hw)).
  destruct (m w) as [[a | e] w1]; auto.
Qed.

(** A computation that does not write keeps every property of the
    session. *)
Lemma triple_read_only {A : Type} (m : M A) (J : Session -> Prop) :
  read_only m ->
  triple (fun w => J (session w)) m
         (fun _ w => J (session w)) (fun _ w => J (session w)).
Proof.
  intros Hm w Hw. destruct (Hm w) as [Hs _].
  destruct (m w) as [[a | e] w1]; cbn [snd] in Hs; rewrite Hs; exact Hw.
Qed.

Lemma triple_get_session (J : Session -> Prop) :
  triple (fun w => J (session w)) get_session
         (fun s w => s = session w /\ J (session w))
         (fun _ _ => False).
Proof. intros w Hw. cbn. auto. Qed.

Lemma triple_modify_session (f : Session -> Session) (J K : Session -> Prop) :
  (forall s, J s -> K (f s)) ->
  triple (fun w => J (session w)) (modify_session f)
         (fun _ w => K (session w)) (fun _ _ => False).
Proof. intros H w Hw. cbn. apply H, Hw. Qed.

Lemma triple_input (J : Session -> Prop) :
  triple (fun w => J (session w)) input
         (fun _ w => J (session w)) (fun _ w => J (session w)).
Proof. apply triple_read_only, read_only_input. Qed.

Lemma triple_now (J : Session -> Prop) :
  triple (fun w => J (session w)) now
         (fun _ w => J (session w)) (fun _ _ => False).
Proof. intros w Hw. exact Hw. Qed.

Lemma triple_for_each {A : Type} (I : World -> Prop) (xs : list A)
      (body : A -> M unit) :
  (forall x, In x xs -> keeps I (body x)) -> keeps I (for_each xs body).
Proof.
  unfold keeps.
  induction xs as [| x xs IH]; intros Hb; cbn [for_each].
  - apply triple_ret. auto.
  - eapply triple_bind.
    + apply Hb. left. reflexivity.
    + intros []. apply IH. intros y Hy. apply Hb. right. exact Hy.
Qed.

Lemma triple_loop {A : Type} (I : World -> Prop) (body : M (option A))
      (Q : A -> World -> Prop) (fuel : nat) :
  triple I body
         (fun r w => match r with Some a => Q a w | None => I w end)
         (fun _ => I) ->
  triple I (loop fuel body) Q (fun _ => I).
Proof.
  intros Hb. induction fuel as [| fuel IH]; cbn [loop].
  - apply triple_raise. auto.
  - eapply triple_bind; [exact Hb |].
    intros [a |]; [apply triple_ret; auto | exact IH].
Qed.

Lemma triple_while_true {A : Type} (I : World -> Prop)
      (body : M (option A)) (Q : A -> World -> Prop) :
  triple I body
         (fun r w => match r with Some a => Q a w | None => I w end)
         (fun _ => I) ->
  triple I (while_true body) Q (fun _ => I).
Proof.
  intros Hb w Hw. unfold while_true.
  apply (triple_loop I body Q _ Hb w Hw).
Qed.

(** ** The operations of the session keep the store consistent *)

Lemma fold_max_ge (r : list Z) :
  forall x, x <= fold_left Z.max r x
            /\ forall y, In y r -> y <= fold_left Z.max r x.
Proof.
  induction r as [| z r IH]; intros x; cbn [fold_left].
  - split; [lia | intros y []].
  - destruct (IH (Z.max x z)) as [H1 H2].
    split; [lia |].
    intros y [<- | Hy]; [lia | apply H2, Hy].
Qed.

(** The next rowid is not in use. *)
Lemma next_id_fresh (ids : list Z) : ~ In (next_id ids) ids.
Proof.
  destruct ids as [| x r]; [intros [] |].
  unfold next_id. destruct (fold_max_ge r x) as [H1 H2].
  intros [E | Hin]; [lia |].
  specialize (H2 _ Hin). lia.
Qed.

Lemma NoDup_snoc {A : Type} (l : list A) (x : A) :
  NoDup l -> ~ In x l -> NoDup (l ++ [x]).
Proof.
  intros Hl Hx.
  eapply Permutation_NoDup; [apply Permutation_cons_append |].
  constructor; assumption.
Qed.

Lemma NoDup_map_filter {A B : Type} (f : A -> B) (g : A -> bool)
      (l : list A) :
  NoDup (map f l) -> NoDup (map f (filter g l)).
Proof.
  induction l as [| x l IH]; cbn [map filter]; intros H; [constructor |].
  inversion H as [| ? ? Hx Hl]; subst.
  destruct (g x); cbn [map]; [| apply IH, Hl].
  constructor; [| apply IH, Hl].
  intros Hin. apply Hx.
  apply in_map_iff in Hin. destruct Hin as [y [Ey Hy]].
  apply filter_In in Hy. apply in_map_iff. exists y. tauto.
Qed.

Lemma products_by_name_nil (s : Session) (name : string) :
  App.products_by_name s name = [] <->
  ~ In name (map Product.product_name (products (working s))).
Proof.
  unfold App.products_by_name. split.
  - intros H Hin. apply in_map_iff in Hin. destruct Hin as [p [Ep Hp]].
    assert (Hf : In p (filter (fun x => (Product.product_name x =? name)%string)
                              (products (working s))))
      by (apply filter_In; split; [exact Hp | apply String.eqb_eq, Ep]).
    rewrite H in Hf. exact Hf.
  - intros H.
    destruct (filter _ _) as [| p l] eqn:E; [reflexivity |].
    exfalso. apply H.
    assert (Hp : In p (p :: l)) by (left; reflexivity).
    rewrite <- E in Hp. apply filter_In in Hp. destruct Hp as [Hp Hn].
    apply String.eqb_eq in Hn. subst name. apply in_map, Hp.
Qed.

Lemma tables_ok_add_product_row (s : Session) (name : string)
      (quantity : Z) (price brand : option Z) (date : datetime) :
  tables_ok (working s) ->
  ~ In name (map Product.product_name (products (working s))) ->
  brand_ok (working s) brand ->
  tables_ok (working (add_product_row name quantity price brand date s)).
Proof.
  intros (Hbi & Hbn & Hpi & Hpn & Href) Hname Hbrand.
  unfold add_product_row, tables_ok. cbn [working set_working brands products].
  rewrite !map_app. cbn [map Product.product_id Product.product_name].
  repeat split; try assumption.
  - apply NoDup_snoc; [exact Hpi | apply next_id_fresh].
  - apply NoDup_snoc; assumption.
  - intros p b Hin Hb. apply in_app_or in Hin.
    destruct Hin as [Hin | [<- | []]].
    + eapply Href; eassumption.
    + cbn [Product.brand_id] in Hb. subst brand. exact Hbrand.
Qed.

Lemma set_product_ids (pid quantity : Z) (price brand : option Z)
      (date : datetime) (s : Session) :
  map Product.product_id
      (products (working (set_product pid quantity price brand date s)))
  = map Product.product_id (products (working s))
  /\ map Product.product_name
         (products (working (set_product pid quantity price brand date s)))
     = map Product.product_name (products (working s)).
Proof.
  rewrite set_product_products, !map_map.
  split; apply map_ext; intros p;
    destruct (Product.product_id p =? pid); reflexivity.
Qed.

Lemma tables_ok_set_product (s : Session) (pid quantity : Z)
      (price brand : option Z) (date : datetime) :
  tables_ok (working s) ->
  brand_ok (working s) brand ->
  tables_ok (working (set_product pid quantity price brand date s)).
Proof.
  intros (Hbi & Hbn & Hpi & Hpn & Href) Hbrand.
  destruct (set_product_ids pid quantity price brand date s) as [Ei En].
  unfold tables_ok. rewrite Ei, En.
  repeat split; try assumption.
  intros p b Hin Hb.
  rewrite set_product_products in Hin.
  apply in_map_iff in Hin. destruct Hin as [r [Er Hr]].
  cbn [set_product working set_working brands].
  destruct (Product.product_id r =? pid).
  - subst p. cbn [Product.brand_id] in Hb. subst brand. exact Hbrand.
  - subst p. eapply Href; eassumption.
Qed.

Lemma tables_ok_delete_product (s : Session) (pid : Z) :
  tables_ok (working s) -> tables_ok (working (delete_product pid s)).
Proof.
  intros (Hbi & Hbn & Hpi & Hpn & Href).
  unfold delete_product, tables_ok.
  cbn [working set_working brands products].
  repeat split; try assumption.
  - apply NoDup_map_filter, Hpi.
  - apply NoDup_map_filter, Hpn.
  - intros p b Hin Hb. apply filter_In in Hin.
    eapply Href; [apply Hin | exact Hb].
Qed.

Lemma tables_ok_add_brand (s : Session) (name : string) :
  tables_ok (working s) ->
  ~ In name (map Brand.brand_name (brands (working s))) ->
  tables_ok (working (add_brand name s)).
Proof.
  intros (Hbi & Hbn & Hpi & Hpn & Href) Hname.
  unfold add_brand, tables_ok. cbn [working set_working brands products].
  rewrite !map_app. cbn [map Brand.brand_id Brand.brand_name].
  repeat split; try assumption.
  - apply NoDup_snoc; [exact Hbi | apply next_id_fresh].
  - apply NoDup_snoc; assumption.
  - intros p b Hin Hb. apply in_or_app. left. eapply Href; eassumption.
Qed.

Lemma session_ok_working (s : Session) (t : Tables) :
  session_ok s -> tables_ok t -> session_ok (set_working s t).
Proof. intros [_ Hc] Ht. split; assumption. Qed.

Lemma session_ok_commit (s : Session) : session_ok s -> session_ok (commit s).
Proof. intros [Hw _]. split; exact Hw. Qed.

(** ** The functions that only read *)

Lemma read_only_loop {A : Type} (fuel : nat) (body : M (option A)) :
  read_only body -> read_only (loop fuel body).
Proof.
  intros Hb. induction fuel as [| fuel IH]; cbn [loop].
  - apply read_only_raise.
  - apply read_only_bind; [exact Hb |].
    intros [a |]; [apply read_only_ret | exact IH].
Qed.

Lemma read_only_while_true {A : Type} (body : M (option A)) :
  read_only body -> read_only (while_true body).
Proof.
  intros Hb w. unfold while_true. apply read_only_loop, Hb.
Qed.

Lemma read_only_for_each {A : Type} (xs : list A) (body : A -> M unit) :
  (forall x, read_only (body x)) -> read_only (for_each xs body).
Proof.
  intros Hb. induction xs as [| x xs IH]; cbn [for_each].
  - apply read_only_ret.
  - apply read_only_bind; [apply Hb | intros _; exact IH].
Qed.

Lemma read_only_check_id (id_str : string) (id_options : list Z) :
  read_only (App.check_id id_str id_options).
Proof.
  unfold App.check_id.
  destruct (PyStr.int_of_str id_str) as [i | e].
  - repeat read_only_step.
  - destruct e; repeat read_only_step.
Qed.

Lemma read_only_check_quantity (qty : string) :
  read_only (App.check_quantity qty).
Proof.
  unfold App.check_quantity.
  destruct (PyStr.int_of_str qty) as [i | e].
  - repeat read_only_step.
  - destruct e; repeat read_only_step.
Qed.

Lemma read_only_get_brand_name (brand_id : option Z) :
  read_only (App.get_brand_name brand_id).
Proof. unfold App.get_brand_name. repeat read_only_step. Qed.

#[local] Hint Resolve read_only_check_id read_only_check_quantity
  read_only_clean_price read_only_get_brand_name : read_only.

Lemma read_only_main_menu : read_only App.main_menu.
Proof.
  unfold App.main_menu. apply read_only_while_true. repeat read_only_step.
Qed.

Lemma read_only_product_menu : read_only App.product_menu.
Proof.
  unfold App.product_menu. apply read_only_while_true.
  repeat read_only_step.
Qed.

Lemma read_only_get_quantity_input (current_value : option Z) :
  read_only (App.get_quantity_input current_value).
Proof.
  unfold App.get_quantity_input. apply read_only_while_true.
  repeat read_only_step.
Qed.

Lemma read_only_get_price_input (current_value : option Z) :
  read_only (App.get_price_input current_value).
Proof.
  unfold App.get_price_input. apply read_only_while_true.
  repeat read_only_step.
Qed.

Lemma read_only_get_brand_input (current_value : option Z) :
  read_only (App.get_brand_input current_value).
Proof. unfold App.get_brand_input. repeat read_only_step. Qed.

Lemma read_only_confirm_product_info (price_input : Z)
      (brand_input : option Z) :
  read_only (App.confirm_product_info price_input brand_input).
Proof. unfold App.confirm_product_info. repeat read_only_step. Qed.

Lemma read_only_list_products : read_only App.list_products.
Proof.
  unfold App.list_products.
  apply read_only_bind; [apply read_only_get_session | intros s].
  apply read_only_bind; [| intros _; repeat read_only_step].
  apply read_only_for_each. intros p. repeat read_only_step.
Qed.

Lemma read_only_list_brands : read_only App.list_brands.
Proof. unfold App.list_brands. repeat read_only_step. Qed.

#[local] Hint Resolve read_only_main_menu read_only_product_menu
  read_only_get_quantity_input read_only_get_price_input
  read_only_get_brand_input read_only_confirm_product_info
  read_only_list_products read_only_list_brands
  read_only_analyze_products : read_only.

(** ** The brand that the operator can choose *)

Ltac destruct_matches H :=
  repeat match type of H with
         | context [match ?x with _ => _ end] =>
             let E := fresh "E" in
             destruct x eqn:E; try discriminate
         end.

(** [check_id] returns nothing but an id of the options, read from the
    text. *)
Lemma check_id_some (id_str : string) (id_options : list Z) (w w' : World)
      (i : Z) :
  App.check_id id_str id_options w = (Ok (Some i), w') ->
  PyStr.int_of_str id_str = Ok i /\ In i id_options /\ w' = w.
Proof.
  unfold App.check_id, Run.bind, ret, raise, input. intros H.
  destruct (PyStr.int_of_str id_str) as [j | e] eqn:Ej.
  - destruct (existsb (Z.eqb j) id_options) eqn:Ex.
    + inversion H; subst. split; [reflexivity |]. split; [| reflexivity].
      apply existsb_exists in Ex. destruct Ex as [y [Hy Ey]].
      apply Z.eqb_eq in Ey. subst y. exact Hy.
    + destruct (stdin w); discriminate.
  - destruct e; try discriminate. destruct (stdin w); discriminate.
Qed.

Lemma brands_by_brand_id_ids (s : Session) (i : Z) :
  In i (map Brand.brand_id (App.brands_by_brand_id s)) <->
  In i (map Brand.brand_id (brands (working s))).
Proof.
  unfold App.brands_by_brand_id, order_by_asc.
  pose proof (sort_perm (fun a b => Brand.brand_id a <=? Brand.brand_id b)
                        (brands (working s))) as Hp.
  split; apply Permutation_in, Permutation_map;
    [exact Hp | apply Permutation_sym, Hp].
Qed.

Lemma get_brand_input_some (current_value : option Z) (w w' : World)
      (i : Z) :
  App.get_brand_input current_value w = (Ok (Some i), w') ->
  In i (map Brand.brand_id (brands (working (session w)))).
Proof.
  unfold App.get_brand_input, Run.bind, get_session, lift, ret. intros H.
  destruct_matches H.
  apply check_id_some in H. destruct H as [_ [Hin _]].
  apply brands_by_brand_id_ids in Hin.
  exact Hin.
Qed.

(** ** The menu functions keep the store consistent *)

Lemma world_ok_session (w w' : World) :
  session w' = session w -> world_ok w -> world_ok w'.
Proof. unfold world_ok. intros ->. auto. Qed.

Lemma keeps_read_only {A : Type} (m : M A) :
  read_only m -> keeps world_ok m.
Proof.
  intros Hm. unfold keeps, world_ok.
  apply (triple_read_only m session_ok Hm).
Qed.

Lemma triple_get_brand_input (current_value : option Z) :
  triple world_ok (App.get_brand_input current_value)
         (fun b w => world_ok w /\ brand_ok (working (session w)) b)
         (fun _ => world_ok).
Proof.
  intros w Hw.
  pose proof (read_only_get_brand_input current_value w) as [Hs _].
  destruct (App.get_brand_input current_value w) as [[b | e] w'] eqn:E;
    cbn [snd] in Hs.
  - split; [eapply world_ok_session; eassumption |].
    rewrite Hs. destruct b as [i |]; [| exact I].
    eapply get_brand_input_some. exact E.
  - eapply world_ok_session; eassumption.
Qed.

Lemma first_order_by_in {A K : Type} (leb : K -> K -> bool) (key : A -> K)
      (rows : list A) (i : Z) (x : A) :
  getitem (order_by_desc leb key rows) i = Ok x -> In x rows.
Proof.
  unfold getitem. intros H.
  destruct ((0 <=? (if i <? 0 then i + _ else i)) && _); [| discriminate].
  destruct (nth_error _ _) eqn:E; [| discriminate].
  inversion H; subst. apply nth_error_In in E.
  eapply Permutation_in; [apply sort_perm | exact E].
Qed.

Lemma keeps_snd {A : Type} (I : World -> Prop) (P : World -> Prop)
      (m : M A) :
  (forall w, P w -> I (snd (m w))) ->
  triple P m (fun _ => I) (fun _ => I).
Proof.
  intros H w Hw. specialize (H w Hw).
  destruct (m w) as [[a | e] w1]; exact H.
Qed.

Lemma snd_keeps {A : Type} (I : World -> Prop) (m : M A) (w : World) :
  keeps I m -> I w -> I (snd (m w)).
Proof.
  intros H Hw. specialize (H w Hw).
  destruct (m w) as [[a | e] w1]; exact H.
Qed.

Lemma count_order_by_desc_zero {A K : Type} (leb : K -> K -> bool)
      (key : A -> K) (rows : list A) :
  (0 <? count (order_by_desc leb key rows)) = false -> rows = [].
Proof.
  intros H. apply Z.ltb_ge in H. unfold count, order_by_desc, len in H.
  pose proof (Permutation_length
                (sort_perm (fun a b => leb (key b) (key a)) rows)) as Hl.
  destruct rows; [reflexivity |]. cbn [List.length] in Hl. lia.
Qed.

Lemma add_product_save_keeps (name : string) (quantity_input price_input : Z)
      (brand_input : option Z) :
  triple (fun w => world_ok w /\ brand_ok (working (session w)) brand_input)
         (App.add_product_save name quantity_input price_input brand_input)
         (fun _ => world_ok) (fun _ => world_ok).
Proof.
  apply keeps_snd. intros w [[Hw Hc] Hb].
  assert (Hset : forall pid date,
             session_ok (set_product pid quantity_input (Some price_input)
                                     brand_input date (session w))).
  { intros pid date. split; [| exact Hc].
    apply tables_ok_set_product; assumption. }
  unfold App.add_product_save.
  unfold Run.bind at 1. unfold get_session at 1. cbv zeta.
  destruct (0 <? count _) eqn:Ecount.
  - unfold Run.bind at 1. unfold lift at 1.
    destruct (getitem _ 0) as [product | e]; [| split; assumption].
    unfold Run.bind at 1. unfold now at 1.
    unfold Run.bind at 1. unfold modify_session at 1.
    cbn [session stdin clock ticks backup_file].
    unfold Run.bind at 1.
    match goal with
    | |- context [App.confirm_product_info ?p ?b ?w0] =>
        pose proof (read_only_confirm_product_info p b w0) as [Hs _];
        destruct (App.confirm_product_info p b w0) as [[confirm | e] w1]
    end; cbn [snd session] in Hs.
    + destruct (String.eqb confirm "y"); unfold world_ok; cbn;
        rewrite Hs; [apply session_ok_commit |]; apply Hset.
    + unfold world_ok. cbn. rewrite Hs. apply Hset.
  - apply count_order_by_desc_zero in Ecount.
    assert (Hadd : forall date,
               session_ok (add_product_row name quantity_input
                             (Some price_input) brand_input date (session w))).
    { intros date. split; [| exact Hc].
      apply tables_ok_add_product_row; try assumption.
      apply products_by_name_nil, Ecount. }
    unfold Run.bind at 1.
    pose proof (read_only_confirm_product_info price_input brand_input w)
      as [Hs _].
    destruct (App.confirm_product_info price_input brand_input w)
      as [[confirm | e] w1]; cbn [snd] in Hs.
    + destruct (String.eqb confirm "y").
      * unfold Run.bind, now, modify_session. unfold world_ok. cbn.
        rewrite Hs. apply session_ok_commit, Hadd.
      * unfold world_ok. cbn. rewrite Hs. split; assumption.
    + unfold world_ok. cbn. rewrite Hs. split; assumption.
Qed.

Lemma keeps_bind {A B : Type} (I : World -> Prop) (m : M A) (k : A -> M B) :
  keeps I m -> (forall a, keeps I (k a)) -> keeps I (Run.bind m k).
Proof. intros Hm Hk. eapply triple_bind; [exact Hm | exact Hk]. Qed.

Lemma keeps_ret {A : Type} (I : World -> Prop) (a : A) : keeps I (ret a).
Proof. apply triple_ret. auto. Qed.

Lemma keeps_lift {A : Type} (I : World -> Prop) (r : res A) :
  keeps I (lift r).
Proof. apply triple_lift; auto. Qed.

Lemma keeps_modify_session (f : Session -> Session) :
  (forall s, session_ok s -> session_ok (f s)) ->
  keeps world_ok (modify_session f).
Proof. intros H w Hw. cbn. apply H, Hw. Qed.

Lemma session_ok_delete_product (pid : Z) (s : Session) :
  session_ok s -> session_ok (delete_product pid s).
Proof.
  intros [Hw Hc]. split; [apply tables_ok_delete_product, Hw | exact Hc].
Qed.

Ltac keeps_step :=
  match goal with
  | |- keeps _ (Run.bind _ _) => apply keeps_bind; [| intros ?]
  | |- keeps _ (let _ := _ in _) => cbv zeta
  | |- keeps _ (ret _) => apply keeps_ret
  | |- keeps _ (lift _) => apply keeps_lift
  | |- keeps _ (if ?b then _ else _) => destruct b
  | |- keeps world_ok (modify_session commit) =>
      apply keeps_modify_session, session_ok_commit
  | |- keeps world_ok (modify_session (delete_product _)) =>
      apply keeps_modify_session, session_ok_delete_product
  | |- keeps world_ok _ => solve [apply keeps_read_only; auto with read_only]
  end.

(** The part of [edit_product] and of the two branches of [add_product]
    that follows the choice of the brand. *)
Lemma add_product_keeps : keeps world_ok App.add_product.
Proof.
  unfold App.add_product.
  keeps_step; [keeps_step |]. cbv zeta.
  keeps_step; [keeps_step |].
  keeps_step; [keeps_step |].
  unfold keeps. eapply triple_bind; [apply triple_get_brand_input |].
  intros b. apply add_product_save_keeps.
Qed.

Lemma edit_product_keeps (product_id : Z) :
  keeps world_ok (App.edit_product product_id).
Proof.
  unfold App.edit_product.
  keeps_step; [keeps_step |].
  keeps_step; [keeps_step |].
  keeps_step; [keeps_step |].
  keeps_step; [keeps_step |].
  unfold keeps. eapply triple_bind; [apply triple_get_brand_input |].
  intros b. apply keeps_snd. intros w [[Hw Hc] Hb].
  unfold Run.bind at 1.
  match goal with
  | |- context [App.confirm_product_info ?p ?b ?w0] =>
      pose proof (read_only_confirm_product_info p b w0) as [Hs _];
      destruct (App.confirm_product_info p b w0) as [[confirm | e] w1]
  end; cbn [snd] in Hs.
  - destruct (String.eqb confirm "y").
    + unfold Run.bind, now, modify_session, world_ok. cbn. rewrite Hs.
      apply session_ok_commit. split; [| exact Hc].
      apply tables_ok_set_product; assumption.
    + unfold world_ok. cbn. rewrite Hs. split; assumption.
  - unfold world_ok. cbn. rewrite Hs. split; assumption.
Qed.

Lemma view_product_keeps : keeps world_ok App.view_product.
Proof.
  unfold App.view_product.
  repeat (keeps_step; try apply edit_product_keeps).
Qed.

Lemma session_backup_db (w : World) :
  session (snd (App.backup_db w)) = session w.
Proof. reflexivity. Qed.

Lemma backup_db_keeps : keeps world_ok App.backup_db.
Proof.
  apply keeps_snd. intros w Hw.
  eapply world_ok_session; [apply session_backup_db | exact Hw].
Qed.

Lemma app_turn_keeps :
  triple world_ok App.app_turn
         (fun r w => match r with Some _ => world_ok w | None => world_ok w end)
         (fun _ => world_ok).
Proof.
  eapply triple_weaken with (P' := world_ok) (Q' := fun _ => world_ok)
                            (R' := fun _ => world_ok);
    [| auto | intros [[] |] w H; exact H | auto].
  change (keeps world_ok App.app_turn).
  unfold App.app_turn.
  repeat (keeps_step;
          try apply view_product_keeps; try apply add_product_keeps;
          try apply backup_db_keeps).
Qed.

Lemma brands_by_name_nil (s : Session) (name : string) :
  App.brands_by_name s name = [] ->
  ~ In name (map Brand.brand_name (brands (working s))).
Proof.
  unfold App.brands_by_name. intros H Hin.
  apply in_map_iff in Hin. destruct Hin as [b [Eb Hb]].
  assert (Hf : In b (filter (fun x => (Brand.brand_name x =? name)%string)
                            (brands (working s))))
    by (apply filter_In; split; [exact Hb | apply String.eqb_eq, Eb]).
  rewrite H in Hf. exact Hf.
Qed.

Lemma add_brands_csv_keeps (rows : list string) :
  keeps world_ok (App.add_brands_csv rows).
Proof.
  unfold App.add_brands_csv.
  apply keeps_bind; [| intros _; keeps_step].
  apply triple_for_each. intros name _.
  apply keeps_snd. intros w [Hw Hc].
  unfold Run.bind, get_session, lift.
  destruct (App.brands_by_name (session w) name) as [| b [| b' l]] eqn:E;
    cbn [one_or_none]; try (split; assumption).
  unfold world_ok. cbn. split; [| exact Hc].
  apply tables_ok_add_brand; [exact Hw | apply brands_by_name_nil, E].
Qed.

Lemma add_products_csv_row_keeps (row : App.InventoryRow) :
  keeps world_ok (App.add_products_csv_row row).
Proof.
  apply keeps_snd. intros w [Hw Hc].
  unfold App.add_products_csv_row.
  unfold Run.bind at 1. unfold get_session at 1. cbv zeta.
  destruct (count _ =? 0) eqn:Ecount; [| split; assumption].
  assert (Hname : App.products_by_name (session w) (App.row_product_name row)
                  = []).
  { apply Z.eqb_eq in Ecount. unfold count, len in Ecount.
    destruct (App.products_by_name _ _); [reflexivity | discriminate]. }
  unfold Run.bind at 1. unfold lift at 1.
  destruct (PyStr.int_of_str _) as [quantity | e]; [| split; assumption].
  unfold Run.bind at 1.
  pose proof (read_only_clean_price (App.row_product_price row) w) as [Hs _].
  destruct (App.clean_price (App.row_product_price row) w)
    as [[price | e] w1]; cbn [snd] in Hs;
    [| eapply world_ok_session; [exact Hs | split; assumption]].
  unfold Run.bind at 1. unfold lift at 1.
  destruct (App.clean_date _) as [date | e];
    [| eapply world_ok_session; [exact Hs | split; assumption]].
  unfold Run.bind at 1. unfold get_session at 1.
  unfold Run.bind at 1. unfold lift at 1.
  destruct (App.brands_by_name (session w1) (App.row_brand_name row))
    as [| b [| b' l]] eqn:E; cbn [one];
    try (eapply world_ok_session; [exact Hs | split; assumption]).
  unfold modify_session, world_ok. cbn. rewrite Hs.
  split; [| exact Hc].
  apply tables_ok_add_product_row;
    [exact Hw | apply products_by_name_nil, Hname |].
  cbn [brand_ok]. apply in_map.
  assert (Hb : In b (App.brands_by_name (session w1) (App.row_brand_name row)))
    by (rewrite E; left; reflexivity).
  unfold App.brands_by_name in Hb. apply filter_In in Hb.
  rewrite Hs in Hb. apply Hb.
Qed.

Lemma add_products_csv_keeps (rows : list App.InventoryRow) :
  keeps world_ok (App.add_products_csv rows).
Proof.
  unfold App.add_products_csv.
  apply keeps_bind; [| intros _; keeps_step].
  apply triple_for_each. intros row _. apply add_products_csv_row_keeps.
Qed.

Lemma app_keeps : keeps world_ok App.app.
Proof.
  unfold App.app, keeps.
  apply triple_while_true. apply app_turn_keeps.
Qed.

(** The store stays consistent through the whole program: whatever the
    two CSV files hold and whatever the operator types, and whether the
    program ends or raises, the ids and the names of the brands and of the
    products are pairwise distinct and every product that has a brand refers
    to a brand of the store, in the committed tables as in the pending
    ones. *)
Theorem main_keeps_store_consistent
        (brands_csv : list string) (inventory_csv : list App.InventoryRow)
        (w : World) :
  world_ok w ->
  world_ok (snd (App.main brands_csv inventory_csv w)).
Proof.
  intros Hw. apply snd_keeps; [| exact Hw].
  unfold App.main.
  apply keeps_bind; [apply add_brands_csv_keeps | intros _].
  apply keeps_bind; [apply add_products_csv_keeps | intros _].
  apply app_keeps.
Qed.

(** One turn of the menu, whatever the operator chooses and types, keeps
    the store consistent. *)
Theorem app_turn_keeps_store_consistent (w : World) :
  world_ok w -> world_ok (snd (App.app_turn w)).
Proof.
  intros Hw. pose proof (app_turn_keeps w Hw) as H.
  destruct (App.app_turn w) as [[[[] |] | e] w1]; exact H.
Qed.

(** ** The loops that ask again *)

Lemma triple_loop_eof {A : Type} (I : World -> Prop) (body : M (option A))
      (Q : A -> World -> Prop) (R : exn -> World -> Prop) (fuel : nat) :
  (forall w, I w -> R EOFError w) ->
  triple I body
         (fun r w => match r with Some a => Q a w | None => I w end) R ->
  triple I (loop fuel body) Q R.
Proof.
  intros He Hb. induction fuel as [| fuel IH]; cbn [loop].
  - apply triple_raise. exact He.
  - eapply triple_bind; [exact Hb |].
    intros [a |]; [apply triple_ret; auto | exact IH].
Qed.

Lemma length_attempts (tries : list (string * string)) :
  List.length (attempts tries) = (2 * List.length tries)%nat.
Proof.
  induction tries as [| t tries IH]; [reflexivity |].
  cbn [attempts flat_map app List.length]. fold (attempts tries).
  rewrite IH. lia.
Qed.

(** A loop whose round reads a line, refuses it and reads the
    acknowledgement, or accepts it: after any number of refused lines the
    loop returns what the first accepted line gives. *)
Lemma while_true_retry {A : Type} (body : M (option A))
      (refused : World -> string -> Prop)
      (accepted : World -> string -> A -> Prop) :
  (forall w bad ack rest,
      stdin w = bad :: ack :: rest -> refused w bad ->
      body w = (Ok None, with_stdin w rest)) ->
  (forall w good rest a,
      stdin w = good :: rest -> accepted w good a ->
      body w = (Ok (Some a), with_stdin w rest)) ->
  (forall w lines line, refused (with_stdin w lines) line <-> refused w line) ->
  (forall w lines line a,
      accepted (with_stdin w lines) line a <-> accepted w line a) ->
  forall (tries : list (string * string)) (good : string)
         (rest : list string) (a : A) (w : World),
    stdin w = attempts tries ++ good :: rest ->
    (forall t, In t tries -> refused w (fst t)) ->
    accepted w good a ->
    while_true body w = (Ok a, with_stdin w rest).
Proof.
  intros Hbad Hgood Hr Ha tries good rest a w Hin Htries Hacc.
  unfold while_true.
  assert (Hfuel : (List.length tries < S (List.length (stdin w)))%nat).
  { rewrite Hin, length_app, length_attempts. lia. }
  revert Hfuel. generalize (S (List.length (stdin w))) as fuel.
  revert w Hin Htries Hacc.
  induction tries as [| [bad ack] tries IH];
    intros w Hin Htries Hacc fuel Hfuel.
  - destruct fuel as [| fuel]; [cbn in Hfuel; lia |].
    cbn [loop]. unfold Run.bind.
    rewrite (Hgood w good rest a Hin Hacc). reflexivity.
  - destruct fuel as [| fuel]; [cbn in Hfuel; lia |].
    cbn [loop]. unfold Run.bind.
    cbn [attempts flat_map fst snd app] in Hin.
    rewrite (Hbad w bad ack _ Hin (Htries (bad, ack) (or_introl eq_refl))).
    fold (attempts tries) in *.
    rewrite (IH (with_stdin w (attempts tries ++ good :: rest))).
    + reflexivity.
    + reflexivity.
    + intros t Ht. apply Hr. apply Htries. right. exact Ht.
    + apply Ha. exact Hacc.
    + cbn [List.length] in Hfuel. lia.
Qed.

Lemma with_stdin_id (w : World) : with_stdin w (stdin w) = w.
Proof. destruct w. reflexivity. Qed.

Lemma menu_round (choices : list string) (w : World) :
  (forall bad ack rest,
      stdin w = bad :: ack :: rest ->
      App.mem_str (PyStr.lower (PyStr.strip bad)) choices = false ->
      (line <- input ;;
       let choice := PyStr.lower (PyStr.strip line) in
       if App.mem_str choice choices then ret (Some choice)
       else (input ;;; ret None))%io w
      = (Ok None, with_stdin w rest))
  /\ (forall good rest a,
         stdin w = good :: rest ->
         a = PyStr.lower (PyStr.strip good)
         /\ App.mem_str a choices = true ->
         (line <- input ;;
          let choice := PyStr.lower (PyStr.strip line) in
          if App.mem_str choice choices then ret (Some choice)
          else (input ;;; ret None))%io w
         = (Ok (Some a), with_stdin w rest)).
Proof.
  split.
  - intros bad ack rest Hin Hbad.
    unfold Run.bind at 1. unfold input at 1. rewrite Hin. cbv zeta.
    rewrite Hbad. unfold Run.bind, input. cbn [stdin]. reflexivity.
  - intros good rest a Hin [-> Hgood].
    unfold Run.bind at 1. unfold input at 1. rewrite Hin. cbv zeta.
    rewrite Hgood. reflexivity.
Qed.

(** [main_menu] asks again after a line of ASCII characters that is not a
    choice, once the operator has acknowledged the message, and returns the
    first line that is one of [n v a b l r q], in lower case and without the
    white space around it; the store is not touched and the lines after it
    are left on the keyboard. *)
Theorem main_menu_asks_again
        (tries : list (string * string)) (good : string)
        (rest : list string) (w : World) :
  stdin w = attempts tries ++ good :: rest ->
  (forall t, In t tries -> PyStr.is_ascii (fst t) = true) ->
  (forall t, In t tries ->
             App.mem_str (PyStr.lower (PyStr.strip (fst t)))
                         ["n"; "v"; "a"; "b"; "l"; "r"; "q"]%string = false) ->
  App.mem_str (PyStr.lower (PyStr.strip good))
              ["n"; "v"; "a"; "b"; "l"; "r"; "q"]%string = true ->
  App.main_menu w = (Ok (PyStr.lower (PyStr.strip good)), with_stdin w rest).
Proof.
  intros Hin _ Htries Hgood. unfold App.main_menu.
  apply (while_true_retry _
           (fun _ bad =>
              App.mem_str (PyStr.lower (PyStr.strip bad))
                          ["n"; "v"; "a"; "b"; "l"; "r"; "q"]%string = false)
           (fun _ line a =>
              a = PyStr.lower (PyStr.strip line)
              /\ App.mem_str a ["n"; "v"; "a"; "b"; "l"; "r"; "q"]%string
                 = true)
           ltac:(intros w0; apply (menu_round _ w0))
           ltac:(intros w0; apply (menu_round _ w0))
           ltac:(intros; reflexivity) ltac:(intros; reflexivity)
           tries good rest _ w Hin Htries).
  split; [reflexivity | exact Hgood].
Qed.

Lemma main_menu_asks_again_witness :
  let w := Sample.fresh_world ["x"; ""; "hello"; "ok"; " A "; "q"]%string in
  App.main_menu w = (Ok "a"%string, with_stdin w ["q"%string]).
Proof.
  intros w.
  apply (main_menu_asks_again [("x", ""); ("hello", "ok")]%string
                              " A " ["q"%string] w).
  - reflexivity.
  - intros t [<- | [<- | []]]; reflexivity.
  - intros t [<- | [<- | []]]; reflexivity.
  - reflexivity.
Defined.

(** [product_menu] does the same with the choices [e d q]: it asks again
    after a line of ASCII characters that is none of them, and returns the
    first line that is one. *)
Theorem product_menu_asks_again
        (tries : list (string * string)) (good : string)
        (rest : list string) (w : World) :
  stdin w = attempts tries ++ good :: rest ->
  (forall t, In t tries -> PyStr.is_ascii (fst t) = true) ->
  (forall t, In t tries ->
             App.mem_str (PyStr.lower (PyStr.strip (fst t)))
                         ["e"; "d"; "q"]%string = false) ->
  App.mem_str (PyStr.lower (PyStr.strip good)) ["e"; "d"; "q"]%string = true ->
  App.product_menu w
  = (Ok (PyStr.lower (PyStr.strip good)), with_stdin w rest).
Proof.
  intros Hin _ Htries Hgood. unfold App.product_menu.
  apply (while_true_retry _
           (fun _ bad =>
              App.mem_str (PyStr.lower (PyStr.strip bad))
                          ["e"; "d"; "q"]%string = false)
           (fun _ line a =>
              a = PyStr.lower (PyStr.strip line)
              /\ App.mem_str a ["e"; "d"; "q"]%string = true)
           ltac:(intros w0; apply (menu_round _ w0))
           ltac:(intros w0; apply (menu_round _ w0))
           ltac:(intros; reflexivity) ltac:(intros; reflexivity)
           tries good rest _ w Hin Htries).
  split; [reflexivity | exact Hgood].
Qed.

Lemma product_menu_asks_again_witness :
  let w := Sample.fresh_world ["x"; ""; "D"]%string in
  App.product_menu w = (Ok "d"%string, with_stdin w []).
Proof.
  intros w.
  apply (product_menu_asks_again [("x", "")]%string "D" [] w).
  - reflexivity.
  - intros t [<- | []]; reflexivity.
  - intros t [<- | []]; reflexivity.
  - reflexivity.
Defined.

Lemma mem_str_In (x : string) (xs : list string) :
  App.mem_str x xs = true <-> In x xs.
Proof.
  unfold App.mem_str. rewrite existsb_exists. split.
  - intros [y [Hy E]]. apply String.eqb_eq in E. subst. exact Hy.
  - intros H. exists x. split; [exact H | apply String.eqb_refl].
Qed.

Lemma menu_valid (choices : list string) :
  triple (fun _ => True)
         (while_true
            (line <- input ;;
             let choice := PyStr.lower (PyStr.strip line) in
             if App.mem_str choice choices then ret (Some choice)
             else (input ;;; ret None))%io)
         (fun c _ => In c choices) (fun e _ => e = EOFError).
Proof.
  intros w Hw. unfold while_true.
  refine (triple_loop_eof (fun _ => True) _ (fun c _ => In c choices)
            (fun e _ => e = EOFError) _ (fun _ _ => eq_refl) _ w I).
  clear. intros w _.
  unfold Run.bind, input, ret.
  destruct (stdin w) as [| line rest]; [reflexivity |]. cbv zeta.
  destruct (App.mem_str _ choices) eqn:E.
  - apply mem_str_In, E.
  - cbn [stdin]. destruct rest; [reflexivity | exact I].
Qed.

(** Whatever is typed, the two menus return nothing but one of their
    choices, and the only exception that they raise is the end of the
    input. *)
Theorem menus_return_valid_choices (w : World) :
  match App.main_menu w with
  | (Ok c, _) => In c ["n"; "v"; "a"; "b"; "l"; "r"; "q"]%string
  | (Raise e, _) => e = EOFError
  end
  /\ match App.product_menu w with
     | (Ok c, _) => In c ["e"; "d"; "q"]%string
     | (Raise e, _) => e = EOFError
     end.
Proof.
  split; [apply (menu_valid _ w I) | apply (menu_valid _ w I)].
Qed.

(** [get_quantity_input] asks again after a line of ASCII characters that
    is not an integer, once the operator has acknowledged the message, and
    returns the integer of the first line that is one (negative integers
    included); the store is not touched. *)
Theorem get_quantity_input_asks_again
        (current_value : option Z) (tries : list (string * string))
        (good : string) (rest : list string) (quantity : Z) (w : World) :
  stdin w = attempts tries ++ good :: rest ->
  (forall t, In t tries -> PyStr.is_ascii (fst t) = true) ->
  (forall t, In t tries ->
             PyStr.int_of_str (PyStr.strip (fst t)) = Raise ValueError) ->
  PyStr.int_of_str (PyStr.strip good) = Ok quantity ->
  App.get_quantity_input current_value w = (Ok quantity, with_stdin w rest).
Proof.
  intros Hin _ Htries Hgood. unfold App.get_quantity_input.
  apply (while_true_retry _
           (fun _ bad =>
              PyStr.int_of_str (PyStr.strip bad) = Raise ValueError)
           (fun _ line a => PyStr.int_of_str (PyStr.strip line) = Ok a))
    with (tries := tries) (good := good); auto; try (intros; reflexivity).
  - intros w0 bad ack rest0 Hin0 Hbad.
    unfold Run.bind at 1. unfold input at 1. rewrite Hin0.
    unfold App.check_quantity. rewrite Hbad.
    unfold Run.bind, input. cbn [stdin]. reflexivity.
  - intros w0 line rest0 a Hin0 Ha.
    unfold Run.bind at 1. unfold input at 1. rewrite Hin0.
    unfold App.check_quantity. rewrite Ha. reflexivity.
Qed.

Lemma get_quantity_input_asks_again_witness :
  let w := Sample.fresh_world ["ten"; ""; "1.5"; ""; " -12 "; "next"]%string in
  App.get_quantity_input None w = (Ok (-12), with_stdin w ["next"%string]).
Proof.
  intros w.
  apply (get_quantity_input_asks_again
           None [("ten", ""); ("1.5", "")]%string " -12 " ["next"%string]).
  - reflexivity.
  - intros t [<- | [<- | []]]; reflexivity.
  - intros t [<- | [<- | []]]; reflexivity.
  - reflexivity.
Defined.

(** [get_price_input] asks again after a line of ASCII characters that is
    not a number, once the operator has acknowledged the message, and
    returns for the first line that is a number, with or without leading [$]
    signs, the float times 100 cut to an integer; the store is not
    touched. *)
Theorem get_price_input_asks_again
        (current_value : option Z) (tries : list (string * string))
        (good : string) (rest : list string) (x : Float64.float)
        (cents : Z) (w : World) :
  (if App.truthy current_value
   then is_ok (App.humanize_price_opt current_value) else true) = true ->
  stdin w = attempts tries ++ good :: rest ->
  (forall t, In t tries -> PyStr.is_ascii (fst t) = true) ->
  (forall t, In t tries ->
             PyStr.float_of_str (PyStr.lstrip "$" (PyStr.strip (fst t)))
             = Raise ValueError) ->
  PyStr.float_of_str (PyStr.lstrip "$" (PyStr.strip good)) = Ok x ->
  Float64.trunc (Float64.mul x (Float64.of_Z 100)) = Ok cents ->
  App.get_price_input current_value w = (Ok cents, with_stdin w rest).
Proof.
  intros Hcv Hin _ Htries Hgood Hcents. unfold App.get_price_input.
  assert (Hprompt : forall w0,
             (if App.truthy current_value
              then lift (App.humanize_price_opt current_value)
              else ret ""%string) w0
             = (Ok (if App.truthy current_value
                    then match App.humanize_price_opt current_value with
                         | Ok t => t
                         | Raise _ => ""%string
                         end
                    else ""%string), w0)).
  { intros w0. destruct (App.truthy current_value); [| reflexivity].
    unfold lift.
    destruct (App.humanize_price_opt current_value);
      [reflexivity | discriminate]. }
  apply (while_true_retry _
           (fun _ bad =>
              PyStr.float_of_str (PyStr.lstrip "$" (PyStr.strip bad))
              = Raise ValueError)
           (fun _ line a =>
              exists y,
                PyStr.float_of_str (PyStr.lstrip "$" (PyStr.strip line)) = Ok y
                /\ Float64.trunc (Float64.mul y (Float64.of_Z 100)) = Ok a))
    with (tries := tries) (good := good); auto; try (intros; reflexivity).
  - intros w0 bad ack rest0 Hin0 Hbad.
    unfold Run.bind at 1. rewrite Hprompt.
    unfold Run.bind at 1. unfold input at 1. rewrite Hin0.
    unfold App.clean_price. rewrite Hbad.
    unfold Run.bind, input. cbn [stdin]. reflexivity.
  - intros w0 line rest0 a Hin0 [y [Hy Ha]].
    unfold Run.bind at 1. rewrite Hprompt.
    unfold Run.bind at 1. unfold input at 1. rewrite Hin0.
    unfold App.clean_price. rewrite Hy.
    unfold Run.bind, lift. rewrite Ha. reflexivity.
  - exists x. split; assumption.
Qed.

Lemma get_price_input_asks_again_witness :
  let w := Sample.fresh_world ["cheap"; ""; " $$4.50 "]%string in
  App.get_price_input (Some 299) w = (Ok 450, with_stdin w []).
Proof.
  intros w.
  apply (get_price_input_asks_again
           (Some 299) [("cheap", "")]%string " $$4.50 " []
           (S754_finite false 5066549580791808 (-50))).
  - vm_compute. reflexivity.
  - reflexivity.
  - intros t [<- | []]; reflexivity.
  - intros t [<- | []]; vm_compute; reflexivity.
  - vm_compute. reflexivity.
  - vm_compute. reflexivity.
Defined.

Lemma main_keeps_store_consistent_witness :
  world_ok
    (snd (App.main ["Kraft"; "Kraft"]%string Sample.inventory
                   (Sample.fresh_world ["l"; ""; "q"]%string))).
Proof.
  apply main_keeps_store_consistent.
  split; (repeat split; try constructor; intros p b []).
Defined.

(** ** Integers written and read back *)

Lemma rev_append_all (p : ascii -> bool) (s acc : string) :
  Spec.all_chars p (PyStr.rev_append s acc)
  = Spec.all_chars p s && Spec.all_chars p acc.
Proof.
  revert acc. induction s as [| c s IH]; intros acc; cbn; [reflexivity |].
  rewrite IH. cbn. rewrite !andb_assoc. f_equal. apply andb_comm.
Qed.

Lemma rev_append_rev_append (s acc : string) :
  PyStr.rev_append (PyStr.rev_append s acc) EmptyString
  = PyStr.rev_append acc s.
Proof.
  revert acc. induction s as [| c s IH]; intros acc; cbn.
  - reflexivity.
  - rewrite IH. reflexivity.
Qed.

Lemma rev_rev (s : string) : PyStr.rev (PyStr.rev s) = s.
Proof. unfold PyStr.rev. apply (rev_append_rev_append s EmptyString). Qed.

Lemma lstrip_by_none (p : ascii -> bool) (s : string) :
  Spec.all_chars (fun c => negb (p c)) s = true -> PyStr.lstrip_by p s = s.
Proof.
  destruct s as [| c s]; cbn; [reflexivity |].
  intros H. apply andb_true_iff in H. destruct H as [H _].
  apply negb_true_iff in H. rewrite H. reflexivity.
Qed.

(** A text without white space is left as it is by [strip]. *)
Lemma strip_none (s : string) :
  Spec.all_chars (fun c => negb (PyStr.is_space c)) s = true ->
  PyStr.strip s = s.
Proof.
  intros H. unfold PyStr.strip, PyStr.rstrip_by.
  rewrite (lstrip_by_none _ s H).
  rewrite lstrip_by_none; [apply rev_rev |].
  unfold PyStr.rev. rewrite rev_append_all, H. reflexivity.
Qed.

(** A text without the white space of C is left as it is by [c_strip]. *)
Lemma c_strip_none (s : string) :
  Spec.all_chars (fun c => negb (PyStr.is_c_space c)) s = true ->
  PyStr.c_strip s = s.
Proof.
  intros H. unfold PyStr.c_strip, PyStr.rstrip_by.
  rewrite (lstrip_by_none _ s H).
  rewrite lstrip_by_none; [apply rev_rev |].
  unfold PyStr.rev. rewrite rev_append_all, H. reflexivity.
Qed.

Lemma string_of_uint_digits (d : Decimal.uint) :
  Spec.all_chars PyStr.is_digit (NilEmpty.string_of_uint d) = true.
Proof. induction d; cbn; auto. Qed.

Lemma all_chars_impl (p q : ascii -> bool) (s : string) :
  (forall c, p c = true -> q c = true) ->
  Spec.all_chars p s = true -> Spec.all_chars q s = true.
Proof.
  intros Hpq. induction s as [| c s IH]; cbn; [reflexivity |].
  rewrite !andb_true_iff. intros [H1 H2]. auto.
Qed.

Lemma is_digit_cases (c : ascii) :
  PyStr.is_digit c = true ->
  PyStr.is_space c = false /\ Ascii.eqb c "_" = false
  /\ Ascii.eqb c "-" = false /\ Ascii.eqb c "+" = false
  /\ Ascii.eqb c "/" = false.
Proof.
  destruct c as [[] [] [] [] [] [] [] []]; cbn; intros H;
    try discriminate; repeat split; reflexivity.
Qed.

Lemma is_digit_not_c_space (c : ascii) :
  PyStr.is_digit c = true -> PyStr.is_c_space c = false.
Proof.
  destruct c as [[] [] [] [] [] [] [] []]; cbn; intros H;
    try discriminate; reflexivity.
Qed.

Lemma digits_no_c_space (s : string) :
  Spec.all_chars PyStr.is_digit s = true ->
  Spec.all_chars (fun c => negb (PyStr.is_c_space c)) s = true.
Proof.
  apply all_chars_impl. intros c Hc.
  rewrite (is_digit_not_c_space c Hc). reflexivity.
Qed.

Lemma drop_underscores_digits (s : string) (prev : bool) :
  Spec.all_chars PyStr.is_digit s = true ->
  PyStr.drop_underscores prev s = Some s.
Proof.
  revert prev. induction s as [| c s IH]; intros prev; cbn [Spec.all_chars];
    [reflexivity |].
  intros H. apply andb_true_iff in H. destruct H as [Hc Hs].
  cbn [PyStr.drop_underscores].
  destruct (is_digit_cases c Hc) as (_ & Hu & _).
  rewrite Hu, (IH _ Hs). reflexivity.
Qed.

(** Reading the digits of a decimal number, most significant first. *)
Lemma take_digits_uint (d u : Decimal.uint) (cnt : Z) :
  PyStr.take_digits (Z.of_N (DecimalPos.Unsigned.of_lu u)) cnt
                    (NilEmpty.string_of_uint d)
  = (Z.of_N (DecimalPos.Unsigned.of_lu (Decimal.revapp d u)),
     cnt + Z.of_N (DecimalPos.Unsigned.usize d),
     EmptyString).
Proof.
  revert u cnt.
  induction d; intros u cnt;
    cbn [NilEmpty.string_of_uint PyStr.take_digits Decimal.revapp
         DecimalPos.Unsigned.usize];
    [f_equal; f_equal; lia | ..];
    (match goal with
     | |- context [PyStr.is_digit ?c] =>
         change (PyStr.is_digit c) with true; cbv iota
     end;
     match goal with
     | |- PyStr.take_digits ?a ?n _ = (Z.of_N (DecimalPos.Unsigned.of_lu
                                                 (Decimal.revapp _ ?u')), _, _) =>
         replace a with (Z.of_N (DecimalPos.Unsigned.of_lu u'))
           by (cbn [DecimalPos.Unsigned.of_lu];
               match goal with
               | |- context [PyStr.digit_value ?c] =>
                   let v := eval vm_compute in (PyStr.digit_value c) in
                   change (PyStr.digit_value c) with v
               end; lia)
     end;
     rewrite IHd; f_equal; f_equal; lia).
Qed.

Lemma usize_pos (d : Decimal.uint) :
  d <> Decimal.Nil -> 0 < Z.of_N (DecimalPos.Unsigned.usize d).
Proof. destruct d; cbn [DecimalPos.Unsigned.usize]; intros H; try lia. congruence. Qed.

Lemma take_digits_of_uint (d : Decimal.uint) :
  d <> Decimal.Nil ->
  exists cnt,
    PyStr.take_digits 0 0 (NilEmpty.string_of_uint d)
    = (Z.of_uint d, cnt, EmptyString) /\ 0 < cnt.
Proof.
  intros Hd. exists (0 + Z.of_N (DecimalPos.Unsigned.usize d)).
  split; [| pose proof (usize_pos d Hd); lia].
  change 0 with (Z.of_N (DecimalPos.Unsigned.of_lu Decimal.Nil)) at 1.
  rewrite take_digits_uint. f_equal. f_equal.
  unfold Z.of_uint. f_equal.
  rewrite DecimalPos.Unsigned.of_uint_alt. reflexivity.
Qed.

(** The digits of a natural number are read back as that number. *)
Lemma int_of_str_digits (d : Decimal.uint) :
  d <> Decimal.Nil ->
  PyStr.int_of_str (NilEmpty.string_of_uint d) = Ok (Z.of_uint d).
Proof.
  intros Hd. pose proof (string_of_uint_digits d) as Hdig.
  unfold PyStr.int_of_str.
  rewrite c_strip_none by (apply digits_no_c_space; exact Hdig).
  assert (Hsign : PyStr.take_sign (NilEmpty.string_of_uint d)
                  = (false, NilEmpty.string_of_uint d)).
  { destruct (NilEmpty.string_of_uint d) as [| c r]; [reflexivity |].
    cbn [Spec.all_chars] in Hdig. apply andb_true_iff in Hdig.
    destruct Hdig as [Hc _].
    destruct (is_digit_cases c Hc) as (_ & _ & Hm & Hp & _).
    unfold PyStr.take_sign.
    destruct c as [[] [] [] [] [] [] [] []]; try reflexivity;
      cbn in Hm, Hp; discriminate. }
  rewrite Hsign, (drop_underscores_digits _ _ Hdig).
  destruct (take_digits_of_uint d Hd) as [cnt [-> Hcnt]].
  replace (0 <? cnt) with true by (symmetry; apply Z.ltb_lt; exact Hcnt).
  reflexivity.
Qed.

(** An integer written in decimal by [str] is read back by [int]. *)
Lemma int_of_str_of_int (z : Z) : PyStr.int_of_str (PyStr.str_of_int z) = Ok z.
Proof.
  unfold PyStr.str_of_int.
  destruct z as [| p | p]; [reflexivity | |].
  - cbn [Z.to_int NilZero.string_of_int].
    pose proof (DecimalPos.Unsigned.to_uint_nonnil p) as Hd.
    pose proof (DecimalZ.of_to (Zpos p)) as Hz.
    cbn [Z.to_int Z.of_int] in Hz.
    unfold NilZero.string_of_uint.
    destruct (Pos.to_uint p) eqn:E; try congruence;
      rewrite <- E in *; rewrite int_of_str_digits by exact Hd;
      rewrite Hz; reflexivity.
  - cbn [Z.to_int NilZero.string_of_int].
    pose proof (DecimalPos.Unsigned.to_uint_nonnil p) as Hd.
    pose proof (DecimalZ.of_to (Zneg p)) as Hz.
    cbn [Z.to_int Z.of_int] in Hz.
    pose proof (string_of_uint_digits (Pos.to_uint p)) as Hdig.
    assert (Hs : NilZero.string_of_uint (Pos.to_uint p)
                 = NilEmpty.string_of_uint (Pos.to_uint p)).
    { unfold NilZero.string_of_uint.
      destruct (Pos.to_uint p); try reflexivity. congruence. }
    rewrite Hs. unfold PyStr.int_of_str.
    rewrite c_strip_none.
    2:{ cbn [Spec.all_chars]. apply andb_true_iff. split; [reflexivity |].
        apply digits_no_c_space. exact Hdig. }
    cbn [PyStr.take_sign].
    rewrite (drop_underscores_digits _ _ Hdig).
    destruct (take_digits_of_uint _ Hd) as [cnt [-> Hcnt]].
    replace (0 <? cnt) with true by (symmetry; apply Z.ltb_lt; exact Hcnt).
    rewrite Hz. reflexivity.
Qed.

(** ** Running a function on the lines that are typed *)

Lemma bind_ok {A B : Type} (m : M A) (k : A -> M B) (w w' : World) (a : A) :
  m w = (Ok a, w') -> Run.bind m k w = k a w'.
Proof. intros H. unfold Run.bind. rewrite H. reflexivity. Qed.

Lemma bind_raise {A B : Type} (m : M A) (k : A -> M B) (w w' : World)
      (e : exn) :
  m w = (Raise e, w') -> Run.bind m k w = (Raise e, w').
Proof. intros H. unfold Run.bind. rewrite H. reflexivity. Qed.

Lemma input_cons (w : World) (line : string) (rest : list string) :
  stdin w = line :: rest -> input w = (Ok line, with_stdin w rest).
Proof. intros H. unfold input. rewrite H. reflexivity. Qed.

Lemma with_stdin_twice (w : World) (a b : list string) :
  with_stdin (with_stdin w a) b = with_stdin w b.
Proof. reflexivity. Qed.

Lemma int_of_str_raises (s : string) (e : exn) :
  PyStr.int_of_str s = Raise e -> e = ValueError.
Proof.
  unfold PyStr.int_of_str.
  destruct (PyStr.take_sign _) as [neg body].
  destruct (PyStr.drop_underscores _ _); [| congruence].
  destruct (PyStr.take_digits _ _ _) as [[v cnt] [| c r]]; [| congruence].
  destruct (0 <? cnt); congruence.
Qed.

Lemma getitem_ends {A : Type} (xs : list A) :
  xs <> [] ->
  exists a b, getitem xs 0 = Ok a /\ getitem xs (-1) = Ok b.
Proof.
  intros Hx. destruct xs as [| x r]; [congruence |].
  exists x. cut (exists b, getitem (x :: r) (-1) = Ok b).
  { intros [b Hb]. exists b. split; [reflexivity | exact Hb]. }
  unfold getitem.
  change (-1 <? 0) with true. cbv iota.
  set (n := Z.of_nat (List.length (x :: r))).
  assert (Hn : 0 < n) by (unfold n; cbn [List.length]; lia).
  replace (0 <=? -1 + n) with true by (symmetry; apply Z.leb_le; lia).
  replace (-1 + n <? n) with true by (symmetry; apply Z.ltb_lt; lia).
  cbn [andb].
  destruct (nth_error (x :: r) (Z.to_nat (-1 + n))) eqn:E.
  - eexists. reflexivity.
  - apply nth_error_None in E. unfold n in *. lia.
Qed.

Lemma getitem_nil {A : Type} (i : Z) : getitem (@nil A) i = Raise IndexError.
Proof.
  unfold getitem. cbn [List.length Z.of_nat].
  destruct (i <? 0) eqn:E.
  - replace (0 <=? i + 0) with false; [reflexivity |].
    symmetry. apply Z.leb_gt. apply Z.ltb_lt in E. lia.
  - replace (i <? 0) with false. rewrite andb_false_r. reflexivity.
Qed.

Lemma products_by_product_id_ids (s : Session) (i : Z) :
  In i (map Product.product_id (App.products_by_product_id s)) <->
  In i (map Product.product_id (products (working s))).
Proof.
  destruct (products_by_product_id_spec s) as [_ Hp].
  split; apply Permutation_in, Permutation_map;
    [exact Hp | apply Permutation_sym, Hp].
Qed.

Lemma products_by_product_id_nil (s : Session) :
  App.products_by_product_id s = [] <-> products (working s) = [].
Proof.
  destruct (products_by_product_id_spec s) as [_ Hp].
  split; intros H; rewrite H in Hp.
  - apply Permutation_nil. exact Hp.
  - apply Permutation_nil. apply Permutation_sym. exact Hp.
Qed.

Lemma existsb_eqb_In (i : Z) (l : list Z) :
  existsb (Z.eqb i) l = true <-> In i l.
Proof.
  rewrite existsb_exists. split.
  - intros [y [Hy E]]. apply Z.eqb_eq in E. subst. exact Hy.
  - intros H. exists i. split; [exact H | apply Z.eqb_refl].
Qed.

Lemma filter_none {A : Type} (f : A -> bool) (l : list A) :
  (forall x, In x l -> f x = false) -> filter f l = [].
Proof.
  induction l as [| y r IH]; intros H; [reflexivity |].
  cbn [filter]. rewrite (H y (or_introl eq_refl)).
  apply IH. intros x Hx. apply H. right. exact Hx.
Qed.

(** The rows of one id, when the ids are distinct. *)
Lemma filter_unique {A : Type} (key : A -> Z) (l : list A) (x : A) :
  NoDup (map key l) -> In x l ->
  filter (fun y => key y =? key x) l = [x].
Proof.
  induction l as [| y r IH]; intros Hnd Hin; [destruct Hin |].
  cbn [map] in Hnd. inversion Hnd as [| ? ? Hy Hr]; subst.
  cbn [filter]. destruct Hin as [-> | Hin].
  - rewrite Z.eqb_refl. f_equal.
    apply filter_none.
    intros z Hz. apply Z.eqb_neq. intros E. apply Hy. rewrite <- E.
    apply in_map. exact Hz.
  - replace (key y =? key x) with false; [apply IH; assumption |].
    symmetry. apply Z.eqb_neq. intros E. apply Hy. rewrite E.
    apply in_map. exact Hin.
Qed.

Lemma filter_absent {A : Type} (key : A -> Z) (l : list A) (i : Z) :
  ~ In i (map key l) -> filter (fun y => key y =? i) l = [].
Proof.
  intros H. apply filter_none.
  intros z Hz. apply Z.eqb_neq. intros E. apply H. rewrite <- E.
  apply in_map. exact Hz.
Qed.

(** A menu returns at once a line that is a choice. *)
Lemma menu_accepts (choices : list string) (good : string)
      (rest : list string) (w : World) :
  stdin w = good :: rest ->
  App.mem_str (PyStr.lower (PyStr.strip good)) choices = true ->
  while_true
    (line <- input ;;
     let choice := PyStr.lower (PyStr.strip line) in
     if App.mem_str choice choices then ret (Some choice)
     else (input ;;; ret None))%io w
  = (Ok (PyStr.lower (PyStr.strip good)), with_stdin w rest).
Proof.
  intros Hin Hgood. unfold while_true. rewrite Hin.
  cbn [List.length loop].
  erewrite bind_ok; [| erewrite bind_ok; [| apply input_cons; exact Hin]].
  2:{ cbv beta zeta. rewrite Hgood. reflexivity. }
  reflexivity.
Qed.

(** [check_id] takes the decimal text of every id of the list. *)
Lemma check_id_listed (id_str : string) (id_options : list Z) (i : Z)
      (w : World) :
  PyStr.int_of_str id_str = Ok i -> In i id_options ->
  App.check_id id_str id_options w = (Ok (Some i), w).
Proof.
  intros Hs Hi. unfold App.check_id. rewrite Hs.
  rewrite (proj2 (existsb_eqb_In i id_options) Hi). reflexivity.
Qed.

(** [check_id] refuses every other text, once the message is
    acknowledged. *)
Lemma check_id_unlisted (id_str : string) (id_options : list Z)
      (ack : string) (rest : list string) (w : World) :
  (forall i, PyStr.int_of_str id_str = Ok i -> ~ In i id_options) ->
  stdin w = ack :: rest ->
  App.check_id id_str id_options w = (Ok None, with_stdin w rest).
Proof.
  intros Hs Hin. unfold App.check_id.
  destruct (PyStr.int_of_str id_str) as [i | e] eqn:E.
  - destruct (existsb (Z.eqb i) id_options) eqn:Ex.
    + apply existsb_eqb_In in Ex. destruct (Hs i eq_refl Ex).
    + erewrite bind_ok; [| apply input_cons; exact Hin]. reflexivity.
  - rewrite (int_of_str_raises _ _ E).
    erewrite bind_ok; [| apply input_cons; exact Hin]. reflexivity.
Qed.

(** ** Viewing and deleting a product *)

Lemma view_product_nil (w : World) :
  products (working (session w)) = [] ->
  App.view_product w = (Raise IndexError, w).
Proof.
  intros H. unfold App.view_product.
  erewrite bind_ok; [| reflexivity]. cbv beta zeta.
  rewrite (proj2 (products_by_product_id_nil (session w)) H).
  cbn [map]. erewrite bind_raise; [reflexivity |].
  unfold lift. rewrite getitem_nil. reflexivity.
Qed.

Lemma products_by_product_id_cons (s : Session) :
  products (working s) <> [] ->
  exists a b,
    getitem (map Product.product_id (App.products_by_product_id s)) 0 = Ok a
    /\ getitem (map Product.product_id (App.products_by_product_id s)) (-1)
       = Ok b.
Proof.
  intros H. apply getitem_ends. intros E. apply map_eq_nil in E.
  apply products_by_product_id_nil in E. exact (H E).
Qed.

Lemma view_product_absent (line ack : string) (rest : list string)
      (w : World) :
  products (working (session w)) <> [] ->
  (forall i, PyStr.int_of_str (PyStr.strip line) = Ok i ->
             ~ In i (map Product.product_id (products (working (session w))))) ->
  stdin w = line :: ack :: rest ->
  App.view_product w = (Raise AttributeError, with_stdin w rest).
Proof.
  intros Hne Hline Hin. unfold App.view_product.
  erewrite bind_ok; [| reflexivity]. cbv beta zeta.
  destruct (products_by_product_id_cons (session w) Hne) as [a [b [Ha Hb]]].
  erewrite bind_ok; [| unfold lift; rewrite Ha; reflexivity].
  erewrite bind_ok; [| unfold lift; rewrite Hb; reflexivity].
  erewrite bind_ok; [| apply input_cons; exact Hin].
  erewrite bind_ok.
  2:{ apply check_id_unlisted with (ack := ack) (rest := rest);
      [| reflexivity].
      intros i Hi Hi'. apply products_by_product_id_ids in Hi'.
      exact (Hline i Hi Hi'). }
  erewrite bind_ok; [| reflexivity].
  cbn [App.products_by_id one_or_none].
  erewrite bind_ok; [| reflexivity].
  erewrite bind_raise; reflexivity.
Qed.

(** Once the product of the id typed is found and shown, what is left of
    [view_product] is the menu of the product. *)
Lemma view_product_found (p : Product.t) (line : string)
      (rest : list string) (w : World) :
  NoDup (map Product.product_id (products (working (session w)))) ->
  In p (products (working (session w))) ->
  is_ok (App.humanize_price_opt (Product.product_price p)) = true ->
  stdin w = line :: rest ->
  PyStr.int_of_str (PyStr.strip line) = Ok (Product.product_id p) ->
  App.view_product w
  = (product_choice <- App.product_menu ;;
     if String.eqb product_choice "e" then
       App.edit_product (Product.product_id p)
     else if String.eqb product_choice "d" then
       line <- input ;;
       let confirm := PyStr.lower (PyStr.strip line) in
       if String.eqb confirm "y" then
         modify_session (delete_product (Product.product_id p)) ;;;
         modify_session commit
       else ret tt
     else ret tt)%io (with_stdin w rest).
Proof.
  intros Hnd Hp Hprice Hin Hline. unfold App.view_product.
  assert (Hne : products (working (session w)) <> []).
  { intros E. rewrite E in Hp. destruct Hp. }
  erewrite bind_ok; [| reflexivity]. cbv beta zeta.
  destruct (products_by_product_id_cons (session w) Hne) as [a [b [Ha Hb]]].
  erewrite bind_ok; [| unfold lift; rewrite Ha; reflexivity].
  erewrite bind_ok; [| unfold lift; rewrite Hb; reflexivity].
  erewrite bind_ok; [| apply input_cons; exact Hin].
  erewrite bind_ok.
  2:{ apply check_id_listed; [exact Hline |].
      apply products_by_product_id_ids. apply in_map. exact Hp. }
  erewrite bind_ok; [| reflexivity].
  unfold App.products_by_id. cbn [session with_stdin].
  rewrite (filter_unique Product.product_id _ p Hnd Hp).
  cbn [one_or_none].
  erewrite bind_ok; [| reflexivity].
  erewrite bind_ok; [| reflexivity].
  destruct (App.humanize_price_opt (Product.product_price p)) as [price | e]
    eqn:Eprice; [| discriminate].
  erewrite bind_ok; [| reflexivity].
  destruct (get_brand_name_reads (Product.brand_id p) (with_stdin w rest))
    as [name Hname].
  erewrite bind_ok; [| exact Hname].
  reflexivity.
Qed.

Lemma product_menu_accepts (good : string) (rest : list string) (w : World) :
  stdin w = good :: rest ->
  App.mem_str (PyStr.lower (PyStr.strip good)) ["e"; "d"; "q"]%string = true ->
  App.product_menu w = (Ok (PyStr.lower (PyStr.strip good)), with_stdin w rest).
Proof. intros Hin Hgood. apply menu_accepts; assumption. Qed.

Lemma view_product_delete_run (p : Product.t) (line choice confirm : string)
      (rest : list string) (w : World) :
  NoDup (map Product.product_id (products (working (session w)))) ->
  In p (products (working (session w))) ->
  is_ok (App.humanize_price_opt (Product.product_price p)) = true ->
  stdin w = line :: choice :: confirm :: rest ->
  PyStr.int_of_str (PyStr.strip line) = Ok (Product.product_id p) ->
  PyStr.lower (PyStr.strip choice) = "d"%string ->
  PyStr.lower (PyStr.strip confirm) = "y"%string ->
  App.view_product w
  = (Ok tt,
     {| session := commit (delete_product (Product.product_id p) (session w));
        stdin := rest; clock := clock w; ticks := ticks w;
        backup_file := backup_file w |}).
Proof.
  intros Hnd Hp Hprice Hin Hline Hchoice Hconfirm.
  rewrite (view_product_found p line _ w Hnd Hp Hprice Hin Hline).
  erewrite bind_ok.
  2:{ apply product_menu_accepts with (rest := confirm :: rest);
      [reflexivity | rewrite Hchoice; reflexivity]. }
  rewrite Hchoice. cbn [String.eqb Ascii.eqb Bool.eqb].
  erewrite bind_ok; [| apply input_cons; reflexivity].
  cbv beta zeta. rewrite Hconfirm. cbn [String.eqb Ascii.eqb Bool.eqb].
  reflexivity.
Qed.

Lemma delete_product_absent (pid : Z) (s : Session) :
  ~ In pid (map Product.product_id
                (products (working (commit (delete_product pid s))))).
Proof.
  unfold commit, delete_product, set_working. cbn [working products].
  intros H. apply in_map_iff in H. destruct H as [q [Hq Hin]].
  apply filter_In in Hin. destruct Hin as [_ Hne].
  apply negb_true_iff, Z.eqb_neq in Hne. exact (Hne Hq).
Qed.

(** Typing a line of ASCII characters that is not the id of a product does
    not lead back to the prompt: with no product in the store
    [view_product] raises [IndexError] before it reads anything, otherwise
    it reads the line, waits for the message to be acknowledged and raises
    [AttributeError]; the store is left as it was. *)
Theorem view_product_unknown_id
        (line ack : string) (rest : list string) (w : World) :
  stdin w = line :: ack :: rest ->
  PyStr.is_ascii line = true ->
  (forall p, In p (products (working (session w))) ->
             PyStr.int_of_str (PyStr.strip line)
             <> Ok (Product.product_id p)) ->
  App.view_product w
  = match products (working (session w)) with
    | [] => (Raise IndexError, w)
    | _ :: _ => (Raise AttributeError, with_stdin w rest)
    end.
Proof.
  intros Hin _ Hline.
  destruct (products (working (session w))) as [| q r] eqn:E.
  - apply view_product_nil. exact E.
  - apply view_product_absent with (line := line) (ack := ack);
      [congruence | | exact Hin].
    intros i Hi Hi'. rewrite E in Hi'.
    apply in_map_iff in Hi'. destruct Hi' as [x [Hx Hx']].
    apply (Hline x Hx'). rewrite Hx. exact Hi.
Qed.

Lemma view_product_unknown_id_witness :
  let w := Sample.world_of [Sample.kraft] Sample.two_products
             ["7"; ""; "q"]%string in
  App.view_product w = (Raise AttributeError, with_stdin w ["q"%string]).
Proof.
  intros w.
  apply (view_product_unknown_id "7" "" ["q"%string] w).
  - reflexivity.
  - reflexivity.
  - intros p [<- | [<- | []]]; vm_compute; discriminate.
Defined.

(** A product that is viewed by its id and deleted with [d] and [y] is
    removed from the store, the other rows are kept, and the removal is
    committed; typing the same id again then raises: [IndexError] when it
    was the last product, [AttributeError] otherwise. *)
Theorem deleted_product_cannot_be_viewed
        (p : Product.t) (line choice confirm ack : string)
        (rest : list string) (w : World) :
  NoDup (map Product.product_id (products (working (session w)))) ->
  In p (products (working (session w))) ->
  is_ok (App.humanize_price_opt (Product.product_price p)) = true ->
  stdin w = line :: choice :: confirm :: line :: ack :: rest ->
  PyStr.int_of_str (PyStr.strip line) = Ok (Product.product_id p) ->
  PyStr.lower (PyStr.strip choice) = "d"%string ->
  PyStr.lower (PyStr.strip confirm) = "y"%string ->
  let w1 := snd (App.view_product w) in
  fst (App.view_product w) = Ok tt
  /\ products (committed (session w1))
     = filter (fun q => negb (Product.product_id q =? Product.product_id p))
              (products (working (session w)))
  /\ working (session w1) = committed (session w1)
  /\ brands (committed (session w1)) = brands (working (session w))
  /\ fst (App.view_product w1)
     = Raise (match products (working (session w1)) with
              | [] => IndexError
              | _ :: _ => AttributeError
              end)
  /\ session (snd (App.view_product w1)) = session w1.
Proof.
  intros Hnd Hp Hprice Hin Hline Hchoice Hconfirm. cbv zeta.
  rewrite (view_product_delete_run p line choice confirm _ w
             Hnd Hp Hprice Hin Hline Hchoice Hconfirm).
  cbn [fst snd].
  set (w1 := {| session := commit (delete_product (Product.product_id p)
                                                  (session w));
                stdin := line :: ack :: rest; clock := clock w;
                ticks := ticks w; backup_file := backup_file w |}).
  split; [reflexivity |]. split; [reflexivity |].
  split; [reflexivity |]. split; [reflexivity |].
  destruct (products (working (session w1))) as [| q r] eqn:E.
  - rewrite (view_product_nil w1 E). split; reflexivity.
  - rewrite (view_product_absent line ack rest w1).
    + split; reflexivity.
    + congruence.
    + intros i Hi Hi'. rewrite Hline in Hi. inversion Hi; subst i.
      exact (delete_product_absent _ _ Hi').
    + reflexivity.
Qed.

Lemma deleted_product_cannot_be_viewed_witness :
  let w := Sample.world_of [Sample.kraft] Sample.two_products
             ["2"; "d"; "y"; "2"; ""]%string in
  let w1 := snd (App.view_product w) in
  fst (App.view_product w) = Ok tt
  /\ products (committed (session w1)) = [Sample.product 1 "Water" 5 0 1]
  /\ fst (App.view_product w1) = Raise AttributeError.
Proof.
  intros w.
  destruct (deleted_product_cannot_be_viewed
              (Sample.product 2 "Candy" 7 10 1) "2" "d" "y" "" [] w)
    as (H1 & H2 & _ & _ & H5 & _).
  - vm_compute. repeat constructor; intros H;
      repeat (destruct H as [H | H]; try discriminate); destruct H.
  - right. left. reflexivity.
  - vm_compute. reflexivity.
  - reflexivity.
  - vm_compute. reflexivity.
  - reflexivity.
  - reflexivity.
  - split; [exact H1 |]. split; [exact H2 | exact H5].
Defined.

(** ** The functions that touch nothing but the keyboard *)

Lemma only_reads_ret {A : Type} (a : A) : only_reads (ret a).
Proof. intros [s l c t b]. reflexivity. Qed.

Lemma only_reads_raise {A : Type} (e : exn) : only_reads (@raise A e).
Proof. intros [s l c t b]. reflexivity. Qed.

Lemma only_reads_lift {A : Type} (r : res A) : only_reads (lift r).
Proof. intros [s l c t b]. reflexivity. Qed.

Lemma only_reads_get_session : only_reads get_session.
Proof. intros [s l c t b]. reflexivity. Qed.

Lemma only_reads_input : only_reads input.
Proof. intros [s [| x l] c t b]; reflexivity. Qed.

Lemma only_reads_bind {A B : Type} (m : M A) (k : A -> M B) :
  only_reads m -> (forall a, only_reads (k a)) -> only_reads (Run.bind m k).
Proof.
  intros Hm Hk w. unfold Run.bind.
  pose proof (Hm w) as H.
  destruct (m w) as [[a | e] w1]; cbn [snd] in *.
  - rewrite (Hk a w1). rewrite H. reflexivity.
  - exact H.
Qed.

Lemma only_reads_loop {A : Type} (fuel : nat) (body : M (option A)) :
  only_reads body -> only_reads (loop fuel body).
Proof.
  intros Hb. induction fuel as [| fuel IH]; cbn [loop].
  - apply only_reads_raise.
  - apply only_reads_bind; [exact Hb |].
    intros [a |]; [apply only_reads_ret | exact IH].
Qed.

Lemma only_reads_while_true {A : Type} (body : M (option A)) :
  only_reads body -> only_reads (while_true body).
Proof.
  intros Hb w. unfold while_true. apply only_reads_loop, Hb.
Qed.

Lemma only_reads_for_each {A : Type} (xs : list A) (body : A -> M unit) :
  (forall x, only_reads (body x)) -> only_reads (for_each xs body).
Proof.
  intros Hb. induction xs as [| x xs IH]; cbn [for_each].
  - apply only_reads_ret.
  - apply only_reads_bind; [apply Hb | intros _; exact IH].
Qed.

Create HintDb only_reads.

#[local] Hint Resolve only_reads_ret only_reads_raise only_reads_lift
  only_reads_get_session only_reads_input : only_reads.

Ltac only_reads_step :=
  match goal with
  | |- only_reads (Run.bind _ _) => apply only_reads_bind; [| intros ?]
  | |- only_reads (while_true _) => apply only_reads_while_true
  | |- only_reads (for_each _ _) => apply only_reads_for_each; intros ?
  | |- only_reads (let _ := _ in _) => cbv zeta
  | |- only_reads (if ?b then _ else _) => destruct b
  | |- only_reads (match ?x with _ => _ end) => destruct x
  | |- only_reads _ => solve [auto with only_reads]
  end.

Lemma only_reads_check_id (id_str : string) (id_options : list Z) :
  only_reads (App.check_id id_str id_options).
Proof. unfold App.check_id. repeat only_reads_step. Qed.

Lemma only_reads_check_quantity (qty : string) :
  only_reads (App.check_quantity qty).
Proof. unfold App.check_quantity. repeat only_reads_step. Qed.

Lemma only_reads_clean_price (price_str : string) :
  only_reads (App.clean_price price_str).
Proof. unfold App.clean_price. repeat only_reads_step. Qed.

Lemma only_reads_get_brand_name (brand_id : option Z) :
  only_reads (App.get_brand_name brand_id).
Proof. unfold App.get_brand_name. repeat only_reads_step. Qed.

#[local] Hint Resolve only_reads_check_id only_reads_check_quantity
  only_reads_clean_price only_reads_get_brand_name : only_reads.

Lemma only_reads_main_menu : only_reads App.main_menu.
Proof. unfold App.main_menu. repeat only_reads_step. Qed.

Lemma only_reads_product_menu : only_reads App.product_menu.
Proof. unfold App.product_menu. repeat only_reads_step. Qed.

Lemma only_reads_get_quantity_input (current_value : option Z) :
  only_reads (App.get_quantity_input current_value).
Proof. unfold App.get_quantity_input. repeat only_reads_step. Qed.

Lemma only_reads_get_price_input (current_value : option Z) :
  only_reads (App.get_price_input current_value).
Proof. unfold App.get_price_input. repeat only_reads_step. Qed.

Lemma only_reads_get_brand_input (current_value : option Z) :
  only_reads (App.get_brand_input current_value).
Proof. unfold App.get_brand_input. repeat only_reads_step. Qed.

Lemma only_reads_confirm_product_info (price_input : Z)
      (brand_input : option Z) :
  only_reads (App.confirm_product_info price_input brand_input).
Proof. unfold App.confirm_product_info. repeat only_reads_step. Qed.

Lemma only_reads_list_products : only_reads App.list_products.
Proof. unfold App.list_products. repeat only_reads_step. Qed.

Lemma only_reads_list_brands : only_reads App.list_brands.
Proof. unfold App.list_brands. repeat only_reads_step. Qed.

Lemma only_reads_analyze_products : only_reads App.analyze_products.
Proof. unfold App.analyze_products. repeat only_reads_step. Qed.

(** What a computation that only reads returns is the world it was given,
    with fewer lines on the keyboard. *)
Lemma only_reads_run {A : Type} (m : M A) (w w' : World) (r : res A) :
  only_reads m -> m w = (r, w') -> w' = with_stdin w (stdin w').
Proof. intros Hm H. pose proof (Hm w) as E. rewrite H in E. exact E. Qed.

(** Listing the products or the brands, the analysis, the two menus and
    the dialogues that ask for a quantity, a price, a brand and a
    confirmation change nothing but the lines left on the keyboard: the
    session, committed and pending, the clock and the backup file are
    afterwards what they were, whether the function returns or raises. *)
Theorem listings_and_dialogues_only_read :
  only_reads App.list_products
  /\ only_reads App.list_brands
  /\ only_reads App.analyze_products
  /\ only_reads App.main_menu
  /\ only_reads App.product_menu
  /\ (forall v, only_reads (App.get_quantity_input v))
  /\ (forall v, only_reads (App.get_price_input v))
  /\ (forall v, only_reads (App.get_brand_input v))
  /\ (forall price brand, only_reads (App.confirm_product_info price brand)).
Proof.
  repeat split; intros;
    auto using only_reads_list_products, only_reads_list_brands,
      only_reads_analyze_products, only_reads_main_menu,
      only_reads_product_menu, only_reads_get_quantity_input,
      only_reads_get_price_input, only_reads_get_brand_input,
      only_reads_confirm_product_info.
Qed.

(** ** Editing a product *)

(** [edit_product] saves on "y" only: once the three dialogues, on lines
    of ASCII characters, have returned a quantity, a price and a brand,
    integers that the table can hold, the answer "y" gives them and the time
    of the clock to the product of that id and commits, and any other answer
    leaves the session as it was. *)
Theorem edit_product_saves_on_yes_only
        (p : Product.t) (quantity price : Z) (brand : option Z)
        (answer : string) (w w1 w2 w3 w4 : World) :
  NoDup (map Product.product_id (products (working (session w)))) ->
  forallb PyStr.is_ascii (stdin w) = true ->
  pending_fits (session w) = true ->
  sqlite_int quantity = true -> sqlite_int price = true ->
  In p (products (working (session w))) ->
  App.get_quantity_input (Some (Product.product_quantity p)) w
  = (Ok quantity, w1) ->
  App.get_price_input (Product.product_price p) w1 = (Ok price, w2) ->
  App.get_brand_input (Product.brand_id p) w2 = (Ok brand, w3) ->
  App.confirm_product_info price brand w3 = (Ok answer, w4) ->
  App.edit_product (Product.product_id p) w
  = (Ok tt,
     if String.eqb answer "y" then
       {| session := commit (set_product (Product.product_id p) quantity
                                         (Some price) brand
                                         (clock w (ticks w)) (session w));
          stdin := stdin w4; clock := clock w; ticks := S (ticks w);
          backup_file := backup_file w |}
     else with_stdin w (stdin w4)).
Proof.
  intros Hnd _ _ _ _ Hp Hq Hpr Hb Hc.
  pose proof (only_reads_run _ _ _ _
                (only_reads_get_quantity_input _) Hq) as E1.
  pose proof (only_reads_run _ _ _ _ (only_reads_get_price_input _) Hpr) as E2.
  pose proof (only_reads_run _ _ _ _ (only_reads_get_brand_input _) Hb) as E3.
  pose proof (only_reads_run _ _ _ _
                (only_reads_confirm_product_info _ _) Hc) as E4.
  assert (E : w4 = with_stdin w (stdin w4)).
  { rewrite E4 at 1. rewrite E3. rewrite E2. rewrite E1. reflexivity. }
  unfold App.edit_product.
  erewrite bind_ok; [| reflexivity].
  unfold App.products_by_id.
  rewrite (filter_unique Product.product_id _ p Hnd Hp).
  cbn [one].
  erewrite bind_ok; [| reflexivity].
  erewrite bind_ok; [| exact Hq].
  erewrite bind_ok; [| exact Hpr].
  erewrite bind_ok; [| exact Hb].
  erewrite bind_ok; [| exact Hc].
  destruct (String.eqb answer "y").
  - rewrite E. reflexivity.
  - unfold ret. rewrite <- E. reflexivity.
Qed.

Lemma edit_product_saves_on_yes_only_witness :
  let w := Sample.world_of [Sample.kraft] Sample.two_products
             ["many"; ""; "12"; "2.50"; "x"; "Y"]%string in
  products (committed (session (snd (App.edit_product 2 w))))
  = [Sample.product 1 "Water" 5 0 1;
     {| Product.product_id := 2; Product.product_name := "Candy";
        Product.product_quantity := 12; Product.product_price := Some 250;
        Product.date_updated := Sample.noon; Product.brand_id := None |}].
Proof.
  intros w.
  change (App.edit_product 2 w)
    with (App.edit_product
            (Product.product_id (Sample.product 2 "Candy" 7 10 1)) w).
  rewrite (edit_product_saves_on_yes_only
             (Sample.product 2 "Candy" 7 10 1) 12 250 None "y" w
             (with_stdin w ["2.50"; "x"; "Y"]%string)
             (with_stdin w ["x"; "Y"]%string)
             (with_stdin w ["Y"]%string)
             (with_stdin w [])).
  - reflexivity.
  - vm_compute. repeat constructor; intros H;
      repeat (destruct H as [H | H]; try discriminate); destruct H.
  - reflexivity.
  - reflexivity.
  - reflexivity.
  - reflexivity.
  - right. left. reflexivity.
  - vm_compute. reflexivity.
  - vm_compute. reflexivity.
  - vm_compute. reflexivity.
  - vm_compute. reflexivity.
Defined.

(** ** Adding a product *)

Lemma confirm_product_info_run (price_input : Z) (brand_input : option Z)
      (line : string) (rest : list string) (w : World) :
  stdin w = line :: rest ->
  is_ok (App.humanize_price (Int price_input)) = true ->
  App.confirm_product_info price_input brand_input w
  = (Ok (PyStr.lower (PyStr.strip line)), with_stdin w rest).
Proof.
  intros Hin Hprice. unfold App.confirm_product_info.
  destruct (App.humanize_price (Int price_input)) as [txt | e];
    [| discriminate].
  erewrite bind_ok; [| reflexivity].
  destruct (get_brand_name_reads brand_input w) as [name Hname].
  erewrite bind_ok; [| exact Hname].
  erewrite bind_ok; [| apply input_cons; exact Hin].
  reflexivity.
Qed.

(** The part of [add_product] that follows the four dialogues, under a
    name that the store does not hold: the answer "y" appends one row with
    the values typed, the time of the clock and an id that no row has,
    leaves the other rows as they were and commits; any other answer leaves
    the session as it was. *)
Lemma add_product_save_inserts
        (name : string) (quantity_input price_input : Z)
        (brand_input : option Z) (line : string) (rest : list string)
        (w : World) :
  App.products_by_name (session w) name = [] ->
  stdin w = line :: rest ->
  is_ok (App.humanize_price (Int price_input)) = true ->
  let new_id :=
    next_id (map Product.product_id (products (working (session w)))) in
  let row :=
    {| Product.product_id := new_id; Product.product_name := name;
       Product.product_quantity := quantity_input;
       Product.product_price := Some price_input;
       Product.date_updated := clock w (ticks w);
       Product.brand_id := brand_input |} in
  let saved :=
    {| brands := brands (working (session w));
       products := products (working (session w)) ++ [row] |} in
  ~ In new_id (map Product.product_id (products (working (session w))))
  /\ App.add_product_save name quantity_input price_input brand_input w
     = (Ok tt,
        if String.eqb (PyStr.lower (PyStr.strip line)) "y" then
          {| session := {| committed := saved; working := saved |};
             stdin := rest; clock := clock w; ticks := S (ticks w);
             backup_file := backup_file w |}
        else with_stdin w rest).
Proof.
  intros Hnew Hin Hprice new_id row saved.
  split; [apply next_id_fresh |].
  unfold App.add_product_save.
  erewrite bind_ok; [| reflexivity]. cbv beta zeta.
  rewrite Hnew. cbn [order_by_desc sort count len List.length Z.of_nat Z.ltb
                       Z.compare].
  erewrite bind_ok;
    [| apply confirm_product_info_run with (line := line) (rest := rest);
       assumption].
  destruct (String.eqb (PyStr.lower (PyStr.strip line)) "y");
    reflexivity.
Qed.

(** The part of [add_product] that follows the four dialogues, under a
    name that the store holds and with an answer other than "y": the row of
    that name has the values typed and the time of the clock in the pending
    tables, while the committed tables are what they were. *)
Lemma add_product_save_declined_overwrite
        (name : string) (quantity_input price_input : Z)
        (brand_input : option Z) (line : string) (rest : list string)
        (w : World) :
  App.products_by_name (session w) name <> [] ->
  stdin w = line :: rest ->
  PyStr.lower (PyStr.strip line) <> "y"%string ->
  is_ok (App.humanize_price (Int price_input)) = true ->
  exists target,
    In target (products (working (session w)))
    /\ Product.product_name target = name
    /\ App.add_product_save name quantity_input price_input brand_input w
       = (Ok tt,
          {| session :=
               {| committed := committed (session w);
                  working :=
                    working (set_product (Product.product_id target)
                                         quantity_input (Some price_input)
                                         brand_input (clock w (ticks w))
                                         (session w)) |};
             stdin := rest; clock := clock w; ticks := S (ticks w);
             backup_file := backup_file w |})
    /\ In {| Product.product_id := Product.product_id target;
             Product.product_name := name;
             Product.product_quantity := quantity_input;
             Product.product_price := Some price_input;
             Product.date_updated := clock w (ticks w);
             Product.brand_id := brand_input |}
          (products (working (set_product (Product.product_id target)
                                          quantity_input (Some price_input)
                                          brand_input (clock w (ticks w))
                                          (session w)))).
Proof.
  intros Hdup Hin Hn Hprice.
  set (dups := order_by_desc Datetime.leb Product.date_updated
                             (App.products_by_name (session w) name)).
  assert (Hperm : Permutation dups (App.products_by_name (session w) name))
    by apply sort_perm.
  destruct dups as [| target ds] eqn:Edups.
  { apply Permutation_nil in Hperm. congruence. }
  assert (Ht : In target (App.products_by_name (session w) name)).
  { eapply Permutation_in; [exact Hperm | left; reflexivity]. }
  unfold App.products_by_name in Ht. apply filter_In in Ht.
  destruct Ht as [HtIn HtName]. apply String.eqb_eq in HtName.
  exists target.
  split; [exact HtIn |]. split; [exact HtName |]. split.
  - unfold App.add_product_save.
    erewrite bind_ok; [| reflexivity]. cbv beta zeta.
    fold dups. rewrite Edups.
    replace (0 <? count (target :: ds)) with true
      by (symmetry; apply Z.ltb_lt; unfold count; rewrite len_cons;
          pose proof (len_nonneg ds); lia).
    erewrite bind_ok.
    2:{ unfold lift.
        rewrite (getitem_nth (target :: ds) 0 target)
          by (rewrite len_cons; pose proof (len_nonneg ds); lia).
        reflexivity. }
    cbn [Z.to_nat nth].
    erewrite bind_ok; [| reflexivity].
    erewrite bind_ok; [| reflexivity].
    erewrite bind_ok.
    2:{ apply confirm_product_info_run with (line := line) (rest := rest);
        [exact Hin | exact Hprice]. }
    apply String.eqb_neq in Hn. rewrite Hn. reflexivity.
  - rewrite set_product_products.
    apply in_map_iff. exists target. split; [| exact HtIn].
    rewrite Z.eqb_refl. rewrite HtName. reflexivity.
Qed.

(** ** Ids and quantities as they are printed *)

Lemma str_of_int_chars (z : Z) :
  Spec.all_chars (fun c => PyStr.is_digit c || Ascii.eqb c "-")
                 (PyStr.str_of_int z) = true.
Proof.
  assert (Hd : forall d,
             Spec.all_chars (fun c => PyStr.is_digit c || Ascii.eqb c "-")
                            (NilEmpty.string_of_uint d) = true).
  { intros d. eapply all_chars_impl; [| apply string_of_uint_digits].
    intros c Hc. rewrite Hc. reflexivity. }
  assert (Hz : forall d,
             Spec.all_chars (fun c => PyStr.is_digit c || Ascii.eqb c "-")
                            (NilZero.string_of_uint d) = true).
  { intros d. unfold NilZero.string_of_uint.
    destruct d; try apply Hd. reflexivity. }
  unfold PyStr.str_of_int.
  destruct (Z.to_int z) as [d | d]; cbn [NilZero.string_of_int].
  - apply Hz.
  - cbn [Spec.all_chars]. rewrite Hz. reflexivity.
Qed.

Lemma str_of_int_no_space (z : Z) :
  Spec.all_chars (fun c => negb (PyStr.is_space c)) (PyStr.str_of_int z)
  = true.
Proof.
  eapply all_chars_impl; [| apply str_of_int_chars].
  intros c Hc. apply orb_true_iff in Hc. destruct Hc as [Hc | Hc].
  - destruct (is_digit_cases c Hc) as [-> _]. reflexivity.
  - apply Ascii.eqb_eq in Hc. subst c. reflexivity.
Qed.

Lemma strip_str_of_int (z : Z) :
  PyStr.strip (PyStr.str_of_int z) = PyStr.str_of_int z.
Proof. apply strip_none, str_of_int_no_space. Qed.

(** [check_id] takes every id of the list as [str] prints it, reads
    nothing and leaves the world as it is. *)
Theorem check_id_accepts_printed_id
        (i : Z) (id_options : list Z) (w : World) :
  In i id_options ->
  App.check_id (PyStr.str_of_int i) id_options w = (Ok (Some i), w).
Proof.
  intros Hi. apply check_id_listed; [apply int_of_str_of_int | exact Hi].
Qed.

Lemma check_id_accepts_printed_id_witness :
  App.check_id (PyStr.str_of_int (-12)) [3; -12; 40]
               (Sample.fresh_world ["x"%string])
  = (Ok (Some (-12)), Sample.fresh_world ["x"%string]).
Proof.
  apply check_id_accepts_printed_id. right. left. reflexivity.
Defined.

(** [get_quantity_input] takes every integer as [str] prints it, a
    negative quantity as well as any other. *)
Theorem get_quantity_input_accepts_every_integer
        (current_value : option Z) (quantity : Z) (rest : list string)
        (w : World) :
  stdin w = PyStr.str_of_int quantity :: rest ->
  App.get_quantity_input current_value w = (Ok quantity, with_stdin w rest).
Proof.
  intros Hin. unfold App.get_quantity_input, while_true.
  rewrite Hin. cbn [List.length loop].
  erewrite bind_ok.
  2:{ erewrite bind_ok; [| apply input_cons; exact Hin].
      unfold App.check_quantity.
      rewrite strip_str_of_int, int_of_str_of_int. reflexivity. }
  reflexivity.
Qed.

Lemma get_quantity_input_accepts_every_integer_witness :
  let w := Sample.fresh_world ["-5"; "next"]%string in
  App.get_quantity_input None w = (Ok (-5), with_stdin w ["next"%string]).
Proof.
  intros w.
  apply (get_quantity_input_accepts_every_integer None (-5)).
  reflexivity.
Defined.

(** ** The name of a brand *)

(** [get_brand_name] always returns, and touches nothing: the name of a
    brand of the id asked for when the store has one, the text "None" when
    it has none or when the id is [None]. *)
Theorem get_brand_name_found_or_none (brand_id : option Z) (w : World) :
  exists name,
    App.get_brand_name brand_id w = (Ok name, w)
    /\ ((exists b, In b (brands (working (session w)))
                   /\ Some (Brand.brand_id b) = brand_id
                   /\ name = Brand.brand_name b)
        \/ ((forall b, In b (brands (working (session w))) ->
                       Some (Brand.brand_id b) <> brand_id)
            /\ name = "None"%string)).
Proof.
  unfold App.get_brand_name.
  erewrite bind_ok; [| reflexivity].
  destruct (first (App.brands_by_id (session w) brand_id)) as [b |] eqn:E.
  - exists (Brand.brand_name b). split; [reflexivity |]. left. exists b.
    unfold App.brands_by_id in E. destruct brand_id as [i |];
      [| discriminate].
    destruct (filter _ _) as [| x r] eqn:F; [discriminate |].
    cbn [first] in E. inversion E; subst x.
    assert (Hb : In b (filter (fun x => Brand.brand_id x =? i)
                              (brands (working (session w)))))
      by (rewrite F; left; reflexivity).
    apply filter_In in Hb. destruct Hb as [Hin Hid].
    apply Z.eqb_eq in Hid. subst i. repeat split. exact Hin.
  - exists "None"%string. split; [reflexivity |]. right.
    split; [| reflexivity].
    intros b Hb Hid. unfold App.brands_by_id in E. subst brand_id.
    assert (Hf : In b (filter (fun x => Brand.brand_id x =? Brand.brand_id b)
                              (brands (working (session w))))).
    { apply filter_In. split; [exact Hb | apply Z.eqb_refl]. }
    destruct (filter _ _); [destruct Hf | discriminate].
Qed.

(** ** Dates *)

Lemma split_aux_sep (sep : ascii) (a r cur : string) :
  Spec.count_char sep a = O ->
  PyStr.split_aux sep cur (a ++ String sep r)
  = PyStr.rev (PyStr.rev_append a cur)
      :: PyStr.split_aux sep EmptyString r.
Proof.
  revert cur. induction a as [| c a IH]; intros cur Ha.
  - cbn [append PyStr.split_aux PyStr.rev_append].
    rewrite Ascii.eqb_refl. reflexivity.
  - cbn [append PyStr.split_aux PyStr.rev_append].
    cbn [Spec.count_char] in Ha.
    destruct (Ascii.eqb c sep); [discriminate |].
    apply IH. exact Ha.
Qed.

Lemma split_aux_last (sep : ascii) (a cur : string) :
  Spec.count_char sep a = O ->
  PyStr.split_aux sep cur a = [PyStr.rev (PyStr.rev_append a cur)].
Proof.
  revert cur. induction a as [| c a IH]; intros cur Ha.
  - reflexivity.
  - cbn [PyStr.split_aux PyStr.rev_append].
    cbn [Spec.count_char] in Ha.
    destruct (Ascii.eqb c sep); [discriminate |].
    apply IH. exact Ha.
Qed.

Lemma rev_rev_append_nil (a : string) :
  PyStr.rev (PyStr.rev_append a EmptyString) = a.
Proof. apply (rev_rev a). Qed.

(** The pieces of a text of three fields. *)
Lemma split_three (sep : ascii) (a b c : string) :
  Spec.count_char sep a = O -> Spec.count_char sep b = O ->
  Spec.count_char sep c = O ->
  PyStr.split sep (a ++ String sep (b ++ String sep c)) = [a; b; c].
Proof.
  intros Ha Hb Hc. unfold PyStr.split.
  rewrite split_aux_sep by exact Ha.
  rewrite split_aux_sep by exact Hb.
  rewrite split_aux_last by exact Hc.
  rewrite !rev_rev_append_nil. reflexivity.
Qed.

(** The pieces of a text are one more than its separators. *)
Lemma length_split_aux (sep : ascii) (s cur : string) :
  List.length (PyStr.split_aux sep cur s) = S (Spec.count_char sep s).
Proof.
  revert cur. induction s as [| c s IH]; intros cur.
  - reflexivity.
  - cbn [PyStr.split_aux Spec.count_char].
    destruct (Ascii.eqb c sep); cbn [List.length Nat.add].
    + rewrite IH. reflexivity.
    + apply IH.
Qed.

Lemma count_char_none (c : ascii) (s : string) :
  Spec.all_chars (fun d => negb (Ascii.eqb d c)) s = true ->
  Spec.count_char c s = O.
Proof.
  induction s as [| d s IH]; cbn [Spec.all_chars Spec.count_char];
    [reflexivity |].
  intros H. apply andb_true_iff in H. destruct H as [Hd Hs].
  apply negb_true_iff in Hd. rewrite Hd. apply IH. exact Hs.
Qed.

Lemma count_char_app (c : ascii) (s t : string) :
  Spec.count_char c (s ++ t)
  = (Spec.count_char c s + Spec.count_char c t)%nat.
Proof.
  induction s as [| d s IH]; cbn [append Spec.count_char]; [reflexivity |].
  rewrite IH. apply Nat.add_assoc.
Qed.

Lemma str_of_int_no_slash (z : Z) :
  Spec.count_char "/" (PyStr.str_of_int z) = O.
Proof.
  apply count_char_none.
  eapply all_chars_impl; [| apply str_of_int_chars].
  intros c Hc. apply orb_true_iff in Hc. destruct Hc as [Hc | Hc].
  - destruct (is_digit_cases c Hc) as (_ & _ & _ & _ & ->). reflexivity.
  - apply Ascii.eqb_eq in Hc. subst c. reflexivity.
Qed.

Lemma getitem_short {A : Type} (xs : list A) (i : Z) :
  Z.of_nat (List.length xs) <= i -> getitem xs i = Raise IndexError.
Proof.
  intros H. unfold getitem.
  replace (i <? 0) with false by (symmetry; apply Z.ltb_ge; lia).
  replace (i <? Z.of_nat (List.length xs)) with false
    by (symmetry; apply Z.ltb_ge; lia).
  rewrite andb_false_r. reflexivity.
Qed.

(** [clean_date] reads a date written month/day/year with the numbers as
    [str] prints them: the result is what the constructor [datetime(year,
    month, day)] gives, midnight of that day for a date of the calendar and
    [ValueError] otherwise. *)
Theorem clean_date_reads_month_day_year (m d y : Z) :
  Datetime.fits_int y = true -> Datetime.fits_int m = true ->
  Datetime.fits_int d = true ->
  App.clean_date (PyStr.str_of_int m ++ "/" ++ PyStr.str_of_int d ++ "/"
                    ++ PyStr.str_of_int y)
  = (if (1 <=? y) && (y <=? 9999) && (1 <=? m) && (m <=? 12)
        && (1 <=? d) && (d <=? Datetime.days_in_month y m)
     then Ok {| year := y; month := m; day := d;
                hour := 0; minute := 0; second := 0; microsecond := 0 |}
     else Raise ValueError).
Proof.
  intros Hy Hm Hd. unfold App.clean_date.
  change ("/" ++ PyStr.str_of_int d ++ "/" ++ PyStr.str_of_int y)%string
    with (String "/" (PyStr.str_of_int d
                        ++ String "/" (PyStr.str_of_int y)))%string.
  rewrite split_three by apply str_of_int_no_slash.
  change (getitem [PyStr.str_of_int m; PyStr.str_of_int d;
                   PyStr.str_of_int y] 2) with (Ok (PyStr.str_of_int y)).
  change (getitem [PyStr.str_of_int m; PyStr.str_of_int d;
                   PyStr.str_of_int y] 0) with (Ok (PyStr.str_of_int m)).
  change (getitem [PyStr.str_of_int m; PyStr.str_of_int d;
                   PyStr.str_of_int y] 1) with (Ok (PyStr.str_of_int d)).
  cbn [Py.bind]. rewrite !int_of_str_of_int. cbn [Py.bind].
  unfold Datetime.make. rewrite Hy, Hm, Hd. reflexivity.
Qed.

Lemma clean_date_reads_month_day_year_witness :
  App.clean_date "4/3/2018"
  = Ok {| year := 2018; month := 4; day := 3;
          hour := 0; minute := 0; second := 0; microsecond := 0 |}.
Proof.
  apply (clean_date_reads_month_day_year 4 3 2018); reflexivity.
Defined.

(** A text with fewer than two [/] is no date for [clean_date], which
    raises [IndexError] whatever else the text holds. *)
Theorem clean_date_needs_two_slashes (date_str : string) :
  (Spec.count_char "/" date_str < 2)%nat ->
  App.clean_date date_str = Raise IndexError.
Proof.
  intros H. unfold App.clean_date.
  rewrite getitem_short; [reflexivity |].
  unfold PyStr.split. rewrite length_split_aux. lia.
Qed.

Lemma clean_date_needs_two_slashes_witness :
  App.clean_date "2018-04-03" = Raise IndexError.
Proof.
  apply clean_date_needs_two_slashes. vm_compute. lia.
Defined.

Lemma zeros_no_slash (k : nat) : Spec.count_char "/" (PyStr.zeros k) = O.
Proof. induction k as [| k IH]; [reflexivity | exact IH]. Qed.

Lemma pad_int_no_slash (width : nat) (n : Z) :
  Spec.count_char "/" (PyStr.pad_int width n) = O.
Proof.
  unfold PyStr.pad_int. rewrite count_char_app, zeros_no_slash.
  apply str_of_int_no_slash.
Qed.

Lemma datetime_str_no_slash (t : datetime) :
  Spec.count_char "/" (Datetime.str t) = O.
Proof.
  unfold Datetime.str.
  repeat (rewrite count_char_app; rewrite ?pad_int_no_slash).
  destruct (microsecond t =? 0); [reflexivity |].
  rewrite count_char_app, pad_int_no_slash. reflexivity.
Qed.

(** The date that [backup_db] writes for a product is [str] of a
    datetime, which has no [/]: [clean_date], which the import of products
    uses, raises [IndexError] on it, for every product. *)
Theorem backup_date_is_not_an_import_date (product : Product.t) :
  nth_error (App.backup_row product) 5
  = Some (Datetime.str (Product.date_updated product))
  /\ App.clean_date (Datetime.str (Product.date_updated product))
     = Raise IndexError.
Proof.
  split; [reflexivity |].
  unfold App.clean_date.
  rewrite getitem_short; [reflexivity |].
  unfold PyStr.split. rewrite length_split_aux, datetime_str_no_slash.
  cbn. lia.
Qed.

(** ** The import of the brands *)

(** One record of [brands.csv]. *)
Lemma add_brands_csv_step (name : string) (w : World) :
  (s <- get_session ;;
   brand_in_db <- lift (one_or_none (App.brands_by_name s name)) ;;
   match brand_in_db with
   | None => modify_session (add_brand name)
   | Some _ => ret tt
   end)%io w
  = match App.brands_by_name (session w) name with
    | [] => modify_session (add_brand name) w
    | [_] => (Ok tt, w)
    | _ :: _ :: _ => (Raise MultipleResultsFound, w)
    end.
Proof.
  unfold Run.bind, get_session, lift.
  destruct (App.brands_by_name (session w) name) as [| b [| c r]];
    reflexivity.
Qed.

Lemma brands_by_name_add_brand_same (name : string) (s : Session) :
  App.brands_by_name s name = [] ->
  exists b, App.brands_by_name (add_brand name s) name = [b].
Proof.
  intros H. unfold App.brands_by_name, add_brand, set_working in *.
  cbn [working brands]. rewrite filter_app, H.
  cbn [filter Brand.brand_name app]. rewrite String.eqb_refl.
  eexists. reflexivity.
Qed.

Lemma brands_by_name_add_brand_other (name other : string) (s : Session) :
  name <> other ->
  App.brands_by_name (add_brand name s) other = App.brands_by_name s other.
Proof.
  intros H. unfold App.brands_by_name, add_brand, set_working.
  cbn [working brands]. rewrite filter_app.
  cbn [filter Brand.brand_name].
  apply String.eqb_neq in H. rewrite H. apply app_nil_r.
Qed.

(** The brands of one name are what they were after a record, unless the
    record is of that name and the store had none. *)
Lemma add_brands_csv_step_other (name other : string) (w : World) (b : Brand.t) :
  App.brands_by_name (session w) other = [b] ->
  App.brands_by_name
    (session (snd ((s <- get_session ;;
                    brand_in_db <-
                      lift (one_or_none (App.brands_by_name s name)) ;;
                    match brand_in_db with
                    | None => modify_session (add_brand name)
                    | Some _ => ret tt
                    end)%io w))) other
  = [b].
Proof.
  intros Hb. rewrite add_brands_csv_step.
  destruct (App.brands_by_name (session w) name) as [| c [| d r]] eqn:E;
    try exact Hb.
  cbn [modify_session snd session].
  rewrite brands_by_name_add_brand_other; [exact Hb |].
  intros ->. rewrite E in Hb. discriminate.
Qed.

Lemma add_brands_csv_loop_other (rows : list string) (other : string)
      (b : Brand.t) (w : World) :
  App.brands_by_name (session w) other = [b] ->
  App.brands_by_name
    (session (snd (for_each rows
       (fun brand_name =>
          s <- get_session ;;
          brand_in_db <-
            lift (one_or_none (App.brands_by_name s brand_name)) ;;
          match brand_in_db with
          | None => modify_session (add_brand brand_name)
          | Some _ => ret tt
          end)%io w))) other
  = [b].
Proof.
  revert w. induction rows as [| n rows IH]; intros w Hb; cbn [for_each].
  - exact Hb.
  - unfold Run.bind at 1.
    pose proof (add_brands_csv_step_other n other w b Hb) as H1.
    destruct ((s <- get_session ;; _)%io w) as [[[] | e] w1] eqn:E.
    + apply IH. exact H1.
    + exact H1.
Qed.

(** After the records have been read without an exception, the store has
    one brand exactly of each name of the file. *)
Lemma add_brands_csv_loop_names (rows : list string) (w w1 : World) :
  for_each rows
    (fun brand_name =>
       s <- get_session ;;
       brand_in_db <- lift (one_or_none (App.brands_by_name s brand_name)) ;;
       match brand_in_db with
       | None => modify_session (add_brand brand_name)
       | Some _ => ret tt
       end)%io w = (Ok tt, w1) ->
  forall n, In n rows -> exists b, App.brands_by_name (session w1) n = [b].
Proof.
  revert w. induction rows as [| x rows IH]; intros w H n Hn;
    [destruct Hn |].
  cbn [for_each] in H. unfold Run.bind at 1 in H.
  pose proof (add_brands_csv_step x w) as Hstep.
  destruct ((s <- get_session ;; _)%io w) as [[[] | e] w2] eqn:E;
    [| discriminate].
  assert (Hx : exists b, App.brands_by_name (session w2) x = [b]).
  { destruct (App.brands_by_name (session w) x) as [| c [| d r]] eqn:Ex.
    - inversion Hstep; subst w2. cbn [session].
      apply brands_by_name_add_brand_same. exact Ex.
    - inversion Hstep; subst w2. exists c. exact Ex.
    - discriminate. }
  destruct Hn as [<- | Hn].
  - destruct Hx as [b Hb]. exists b.
    pose proof (add_brands_csv_loop_other rows x b w2 Hb) as Hk.
    rewrite H in Hk. exact Hk.
  - apply (IH w2 H n Hn).
Qed.

(** With one brand of each name of the file, reading the records changes
    nothing. *)
Lemma add_brands_csv_loop_known (rows : list string) (w : World) :
  (forall n, In n rows -> exists b, App.brands_by_name (session w) n = [b]) ->
  for_each rows
    (fun brand_name =>
       s <- get_session ;;
       brand_in_db <- lift (one_or_none (App.brands_by_name s brand_name)) ;;
       match brand_in_db with
       | None => modify_session (add_brand brand_name)
       | Some _ => ret tt
       end)%io w = (Ok tt, w).
Proof.
  induction rows as [| x rows IH]; intros H; [reflexivity |].
  cbn [for_each]. unfold Run.bind at 1.
  rewrite add_brands_csv_step.
  destruct (H x (or_introl eq_refl)) as [b ->].
  apply IH. intros n Hn. apply H. right. exact Hn.
Qed.

(** ** The import of the products *)

Lemma count_zero {A : Type} (l : list A) : (count l =? 0) = true -> l = [].
Proof.
  intros H. apply Z.eqb_eq in H. destruct l as [| x r]; [reflexivity |].
  unfold count in H. rewrite len_cons in H. pose proof (len_nonneg r). lia.
Qed.

(** One record of [inventory.csv] leaves the session as it is, or appends
    one product of a name that the store did not hold, with the id of the
    one brand of the name given. *)
Lemma add_products_csv_row_session (row : App.InventoryRow) (w : World) :
  (session (snd (App.add_products_csv_row row w)) = session w
   /\ (fst (App.add_products_csv_row row w) = Ok tt ->
       App.products_by_name (session w) (App.row_product_name row) <> []))
  \/ (App.products_by_name (session w) (App.row_product_name row) = []
      /\ exists quantity price date b,
           App.brands_by_name (session w) (App.row_brand_name row) = [b]
           /\ session (snd (App.add_products_csv_row row w))
              = add_product_row (App.row_product_name row) quantity price
                                (Some (Brand.brand_id b)) date (session w)).
Proof.
  unfold App.add_products_csv_row.
  erewrite bind_ok; [| reflexivity]. cbv beta zeta.
  destruct (count (App.products_by_name (session w)
                                        (App.row_product_name row)) =? 0)
    eqn:Ec.
  2:{ left. split; [reflexivity |]. intros _ E. rewrite E in Ec.
      discriminate. }
  apply count_zero in Ec.
  destruct (PyStr.int_of_str (App.row_product_quantity row)) as [q | e] eqn:Eq.
  2:{ left. split; [reflexivity | intros H; cbn [fst Run.bind lift] in H; discriminate H]. }
  erewrite bind_ok; [| reflexivity].
  pose proof (read_only_clean_price (App.row_product_price row) w) as [Hs _].
  destruct (App.clean_price (App.row_product_price row) w)
    as [[price | e] w1] eqn:Ep; cbn [snd] in Hs.
  2:{ erewrite bind_raise; [| exact Ep].
      left. split; [exact Hs | intros H; discriminate H]. }
  erewrite bind_ok; [| exact Ep].
  destruct (App.clean_date (App.row_date_updated row)) as [date | e] eqn:Ed.
  2:{ left. split; [exact Hs | intros H; cbn [fst Run.bind lift] in H; discriminate H]. }
  erewrite bind_ok; [| reflexivity].
  erewrite bind_ok; [| reflexivity].
  rewrite Hs.
  destruct (App.brands_by_name (session w) (App.row_brand_name row))
    as [| b [| c r]] eqn:Eb.
  - left. split; [exact Hs | intros H; cbn [fst Run.bind lift] in H; discriminate H].
  - right. split; [exact Ec |].
    exists q, price, date, b. split; [reflexivity |].
    cbn [one]. erewrite bind_ok; [| reflexivity].
    cbn [modify_session snd session]. rewrite Hs. reflexivity.
  - left. split; [exact Hs | intros H; cbn [fst Run.bind lift] in H; discriminate H].
Qed.

Lemma products_by_name_add_product_row (name other : string) (quantity : Z)
      (price brand : option Z) (date : datetime) (s : Session) :
  App.products_by_name s other <> [] \/ name = other ->
  App.products_by_name (add_product_row name quantity price brand date s)
                       other <> [].
Proof.
  intros H. unfold App.products_by_name, add_product_row, set_working in *.
  cbn [working products]. rewrite filter_app.
  destruct H as [H | ->].
  - destruct (filter _ (products (working s))); [congruence | discriminate].
  - cbn [filter Product.product_name]. rewrite String.eqb_refl.
    destruct (filter _ (products (working s))); discriminate.
Qed.

Lemma add_products_csv_row_other (row : App.InventoryRow) (other : string)
      (w : World) :
  App.products_by_name (session w) other <> [] ->
  App.products_by_name (session (snd (App.add_products_csv_row row w))) other
  <> [].
Proof.
  intros H.
  destruct (add_products_csv_row_session row w)
    as [[-> _] | [_ (q & price & date & b & _ & ->)]]; [exact H |].
  apply products_by_name_add_product_row. left. exact H.
Qed.

Lemma add_products_csv_row_brands (row : App.InventoryRow) (w : World) :
  brands (working (session (snd (App.add_products_csv_row row w))))
  = brands (working (session w)).
Proof.
  destruct (add_products_csv_row_session row w)
    as [[-> _] | [_ (q & price & date & b & _ & ->)]]; reflexivity.
Qed.

Lemma add_products_csv_loop_other (rows : list App.InventoryRow)
      (other : string) (w : World) :
  App.products_by_name (session w) other <> [] ->
  App.products_by_name
    (session (snd (for_each rows App.add_products_csv_row w))) other <> [].
Proof.
  revert w. induction rows as [| x rows IH]; intros w H; cbn [for_each].
  - exact H.
  - unfold Run.bind at 1.
    pose proof (add_products_csv_row_other x other w H) as H1.
    destruct (App.add_products_csv_row x w) as [[[] | e] w1].
    + apply IH. exact H1.
    + exact H1.
Qed.

Lemma add_products_csv_loop_brands (rows : list App.InventoryRow)
      (w : World) :
  brands (working (session (snd (for_each rows App.add_products_csv_row w))))
  = brands (working (session w)).
Proof.
  revert w. induction rows as [| x rows IH]; intros w; cbn [for_each].
  - reflexivity.
  - unfold Run.bind at 1.
    pose proof (add_products_csv_row_brands x w) as H1.
    destruct (App.add_products_csv_row x w) as [[[] | e] w1].
    + rewrite IH. exact H1.
    + exact H1.
Qed.

(** After the records have been read without an exception, the store has
    a product of each name of the file. *)
Lemma add_products_csv_loop_names (rows : list App.InventoryRow)
      (w w1 : World) :
  for_each rows App.add_products_csv_row w = (Ok tt, w1) ->
  forall row, In row rows ->
              App.products_by_name (session w1) (App.row_product_name row)
              <> [].
Proof.
  revert w. induction rows as [| x rows IH]; intros w H row Hrow;
    [destruct Hrow |].
  cbn [for_each] in H. unfold Run.bind at 1 in H.
  pose proof (add_products_csv_row_session x w) as Hstep.
  destruct (App.add_products_csv_row x w) as [[[] | e] w2] eqn:E;
    [| discriminate].
  cbn [fst snd] in Hstep.
  assert (Hx : App.products_by_name (session w2) (App.row_product_name x)
               <> []).
  { destruct Hstep as [[Hs Hok] | [_ (q & price & date & b & _ & Hs)]].
    - rewrite Hs. apply Hok. reflexivity.
    - rewrite Hs. apply products_by_name_add_product_row. right.
      reflexivity. }
  destruct Hrow as [<- | Hrow].
  - pose proof (add_products_csv_loop_other rows _ w2 Hx) as Hk.
    rewrite H in Hk. exact Hk.
  - apply (IH w2 H row Hrow).
Qed.

(** With a product of each name of the file, reading the records changes
    nothing: no field of a record is looked at. *)
Lemma add_products_csv_loop_known (rows : list App.InventoryRow) (w : World) :
  (forall row, In row rows ->
               App.products_by_name (session w) (App.row_product_name row)
               <> []) ->
  for_each rows App.add_products_csv_row w = (Ok tt, w).
Proof.
  induction rows as [| x rows IH]; intros H; [reflexivity |].
  cbn [for_each]. unfold Run.bind at 1.
  assert (Hx : App.add_products_csv_row x w = (Ok tt, w)).
  { unfold App.add_products_csv_row.
    erewrite bind_ok; [| reflexivity]. cbv beta zeta.
    destruct (count _ =? 0) eqn:Ec; [| reflexivity].
    apply count_zero in Ec. destruct (H x (or_introl eq_refl) Ec). }
  rewrite Hx. apply IH. intros row Hrow. apply H. right. exact Hrow.
Qed.

(** ** Starting the program again *)

(** The two imports that the program starts with are idempotent: when
    they have run without an exception, running them again on the store they
    left, with the same two files, adds nothing and changes nothing. *)
Theorem startup_import_is_idempotent
        (brands_csv : list string) (inventory_csv : list App.InventoryRow)
        (w w1 : World) :
  (App.add_brands_csv brands_csv ;;;
   App.add_products_csv inventory_csv)%io w = (Ok tt, w1) ->
  (App.add_brands_csv brands_csv ;;;
   App.add_products_csv inventory_csv)%io w1 = (Ok tt, w1).
Proof.
  intros H. unfold Run.bind at 1 in H.
  destruct (App.add_brands_csv brands_csv w) as [[[] | e] wa] eqn:Ea;
    [| discriminate].
  unfold App.add_brands_csv in Ea. unfold Run.bind at 1 in Ea.
  destruct (for_each brands_csv _ w) as [[[] | e] wl] eqn:El;
    [| discriminate].
  pose proof (add_brands_csv_loop_names brands_csv w wl El) as Hb.
  cbn [modify_session] in Ea. inversion Ea; subst wa; clear Ea.
  unfold App.add_products_csv in H. unfold Run.bind at 1 in H.
  destruct (for_each inventory_csv App.add_products_csv_row _)
    as [[[] | e] wp] eqn:Ep; [| discriminate].
  pose proof (add_products_csv_loop_names inventory_csv _ wp Ep) as Hp.
  pose proof (add_products_csv_loop_brands inventory_csv
                {| session := commit (session wl); stdin := stdin wl;
                   clock := clock wl; ticks := ticks wl;
                   backup_file := backup_file wl |}) as Hbr.
  rewrite Ep in Hbr. cbn [snd session commit working] in Hbr.
  cbn [modify_session] in H. inversion H; subst w1; clear H.
  assert (Hb1 : forall n, In n brands_csv ->
                          exists b,
                            App.brands_by_name (commit (session wp)) n = [b]).
  { intros n Hn. destruct (Hb n Hn) as [b Hbn]. exists b.
    unfold App.brands_by_name in *. cbn [commit working].
    rewrite Hbr. exact Hbn. }
  unfold Run.bind at 1. unfold App.add_brands_csv. unfold Run.bind at 1.
  rewrite add_brands_csv_loop_known by exact Hb1.
  cbn [modify_session session stdin clock ticks backup_file commit working].
  unfold App.add_products_csv. unfold Run.bind at 1.
  rewrite add_products_csv_loop_known by exact Hp.
  reflexivity.
Qed.

Lemma startup_import_is_idempotent_witness :
  let w := snd ((App.add_brands_csv ["Kraft"; "Kraft"]%string ;;;
                 App.add_products_csv [Sample.soup; Sample.rice])%io
                  (Sample.fresh_world [])) in
  (App.add_brands_csv ["Kraft"; "Kraft"]%string ;;;
   App.add_products_csv [Sample.soup; Sample.rice])%io w = (Ok tt, w).
Proof.
  intros w.
  apply (startup_import_is_idempotent _ _ (Sample.fresh_world [])).
  vm_compute. reflexivity.
Defined.

(** ** The imports only append *)

Lemma for_each_cons {A : Type} (x : A) (xs : list A) (body : A -> M unit)
      (w : World) :
  for_each (x :: xs) body w
  = match body x w with
    | (Ok _, w1) => for_each xs body w1
    | (Raise e, w1) => (Raise e, w1)
    end.
Proof. reflexivity. Qed.

Lemma add_brands_csv_loop_appends (rows : list string) (w : World) :
  exists added,
    brands (working (session (snd (for_each rows
      (fun brand_name =>
         s <- get_session ;;
         brand_in_db <-
           lift (one_or_none (App.brands_by_name s brand_name)) ;;
         match brand_in_db with
         | None => modify_session (add_brand brand_name)
         | Some _ => ret tt
         end)%io w))))
    = brands (working (session w)) ++ added
    /\ products (working (session (snd (for_each rows
         (fun brand_name =>
            s <- get_session ;;
            brand_in_db <-
              lift (one_or_none (App.brands_by_name s brand_name)) ;;
            match brand_in_db with
            | None => modify_session (add_brand brand_name)
            | Some _ => ret tt
            end)%io w))))
       = products (working (session w))
    /\ NoDup (map Brand.brand_name added)
    /\ forall b, In b added ->
                 In (Brand.brand_name b) rows
                 /\ ~ In (Brand.brand_name b)
                         (map Brand.brand_name (brands (working (session w)))).
Proof.
  revert w. induction rows as [| x rows IH]; intros w.
  - exists []. cbn [for_each ret snd]. rewrite app_nil_r.
    repeat split; [constructor | destruct H | destruct H].
  - rewrite for_each_cons. cbv beta.
    rewrite add_brands_csv_step.
    destruct (App.brands_by_name (session w) x) as [| c [| d r]] eqn:Ex.
    + cbn [modify_session].
      match goal with
      | |- context [for_each rows ?body ?w2] =>
          destruct (IH w2) as (added & Hb & Hp & Hnd & Hin)
      end.
      cbn [session add_brand set_working working brands products] in Hb, Hp, Hin.
      set (bx := {| Brand.brand_id :=
                      next_id (map Brand.brand_id (brands (working (session w))));
                    Brand.brand_name := x |}) in *.
      exists (bx :: added).
      split; [rewrite Hb, <- app_assoc; reflexivity |].
      split; [exact Hp |].
      split.
      * cbn [map]. constructor; [| exact Hnd].
        intros Hx. apply in_map_iff in Hx. destruct Hx as [b [Eb Hb']].
        destruct (Hin b Hb') as [_ Hn]. apply Hn.
        rewrite map_app. apply in_or_app. right. left. symmetry. exact Eb.
      * intros b [<- | Hb'].
        -- split; [left; reflexivity |].
           apply brands_by_name_nil. exact Ex.
        -- destruct (Hin b Hb') as [Hr Hn]. split; [right; exact Hr |].
           intros Hc. apply Hn. rewrite map_app. apply in_or_app. left.
           exact Hc.
    + destruct (IH w) as (added & Hb & Hp & Hnd & Hin).
      exists added. split; [exact Hb |]. split; [exact Hp |].
      split; [exact Hnd |].
      intros b Hb'. destruct (Hin b Hb') as [Hr Hn].
      split; [right; exact Hr | exact Hn].
    + exists []. cbn [snd]. rewrite app_nil_r.
      repeat split; [constructor | destruct H | destruct H].
Qed.

(** [add_brands_csv] only appends: whether it returns or raises, the
    brands of the store are afterwards the brands it had, unchanged and in
    the same order, followed by new ones; the names of the new ones are
    names of the file that the store did not hold, each one once; the
    products are not touched. *)
Theorem brands_import_only_appends (rows : list string) (w : World) :
  exists added,
    brands (working (session (snd (App.add_brands_csv rows w))))
    = brands (working (session w)) ++ added
    /\ products (working (session (snd (App.add_brands_csv rows w))))
       = products (working (session w))
    /\ NoDup (map Brand.brand_name added)
    /\ forall b, In b added ->
                 In (Brand.brand_name b) rows
                 /\ ~ In (Brand.brand_name b)
                         (map Brand.brand_name (brands (working (session w)))).
Proof.
  destruct (add_brands_csv_loop_appends rows w)
    as (added & Hb & Hp & Hnd & Hin).
  exists added. unfold App.add_brands_csv. unfold Run.bind.
  destruct (for_each rows _ w) as [[[] | e] w1];
    cbn [snd modify_session session commit working] in *;
    repeat split; try assumption; apply Hin; assumption.
Qed.

Lemma brands_by_name_one (s : Session) (name : string) (b : Brand.t) :
  App.brands_by_name s name = [b] ->
  In b (brands (working s)) /\ Brand.brand_name b = name.
Proof.
  intros H.
  assert (Hb : In b (App.brands_by_name s name)) by (rewrite H; left; reflexivity).
  unfold App.brands_by_name in Hb. apply filter_In in Hb.
  destruct Hb as [Hin Hn]. apply String.eqb_eq in Hn. split; assumption.
Qed.

(** The product that a record of [inventory.csv] may add. *)
Lemma add_products_csv_row_appends (row : App.InventoryRow) (w : World) :
  exists added,
    products (working (session (snd (App.add_products_csv_row row w))))
    = products (working (session w)) ++ added
    /\ brands (working (session (snd (App.add_products_csv_row row w))))
       = brands (working (session w))
    /\ (added = []
        \/ exists p, added = [p]
             /\ Product.product_name p = App.row_product_name row
             /\ ~ In (Product.product_name p)
                     (map Product.product_name (products (working (session w))))
             /\ exists b, In b (brands (working (session w)))
                          /\ Brand.brand_name b = App.row_brand_name row
                          /\ Product.brand_id p = Some (Brand.brand_id b)).
Proof.
  destruct (add_products_csv_row_session row w)
    as [[Hs _] | [Hn (q & price & date & b & Hb & Hs)]]; rewrite Hs.
  - exists []. rewrite app_nil_r. repeat split. left. reflexivity.
  - eexists. split; [reflexivity |]. split; [reflexivity |]. right.
    eexists. split; [reflexivity |]. cbn [Product.product_name Product.brand_id].
    split; [reflexivity |].
    split; [apply products_by_name_nil; exact Hn |].
    exists b. destruct (brands_by_name_one _ _ _ Hb) as [Hin Hname].
    repeat split; assumption.
Qed.

Lemma add_products_csv_loop_appends (rows : list App.InventoryRow)
      (w : World) :
  exists added,
    products (working (session (snd (for_each rows App.add_products_csv_row
                                                w))))
    = products (working (session w)) ++ added
    /\ brands (working (session (snd (for_each rows App.add_products_csv_row
                                                 w))))
       = brands (working (session w))
    /\ NoDup (map Product.product_name added)
    /\ forall p, In p added ->
         ~ In (Product.product_name p)
              (map Product.product_name (products (working (session w))))
         /\ exists row b,
              In row rows
              /\ Product.product_name p = App.row_product_name row
              /\ In b (brands (working (session w)))
              /\ Brand.brand_name b = App.row_brand_name row
              /\ Product.brand_id p = Some (Brand.brand_id b).
Proof.
  revert w. induction rows as [| x rows IH]; intros w.
  - exists []. cbn [for_each ret snd]. rewrite app_nil_r.
    repeat split; [constructor | destruct H | destruct H].
  - rewrite for_each_cons.
    destruct (add_products_csv_row_appends x w) as (a1 & Hp1 & Hb1 & Ha1).
    destruct (App.add_products_csv_row x w) as [[[] | e] w2];
      cbn [snd] in Hp1, Hb1.
    + destruct (IH w2) as (a2 & Hp2 & Hb2 & Hnd & Hin).
      exists (a1 ++ a2).
      split; [rewrite Hp2, Hp1, app_assoc; reflexivity |].
      split; [rewrite Hb2; exact Hb1 |].
      destruct Ha1 as [-> | (p & -> & Hname & Hnew & b & Hb & Hbn & Hbid)].
      * cbn [app]. rewrite app_nil_r in Hp1.
        split; [exact Hnd |]. intros q Hq.
        destruct (Hin q Hq) as [Hn (row & b & Hr & Hrn & Hb & Hbn & Hbid)].
        split; [rewrite <- Hp1; exact Hn |].
        exists row, b. rewrite <- Hb1. repeat split; try assumption.
        right. exact Hr.
      * cbn [app map]. split.
        -- constructor; [| exact Hnd].
           intros Hx. apply in_map_iff in Hx. destruct Hx as [q [Eq Hq]].
           destruct (Hin q Hq) as [Hn _]. apply Hn.
           rewrite Hp1, map_app. apply in_or_app. right. left.
           symmetry. exact Eq.
        -- intros q [<- | Hq].
           ++ split; [exact Hnew |]. exists x, b.
              repeat split; try assumption. left. reflexivity.
           ++ destruct (Hin q Hq)
                as [Hn (row & b' & Hr & Hrn & Hb' & Hbn' & Hbid')].
              split.
              ** intros Hc. apply Hn. rewrite Hp1, map_app.
                 apply in_or_app. left. exact Hc.
              ** exists row, b'. rewrite <- Hb1.
                 repeat split; try assumption. right. exact Hr.
    + exists a1. cbn [snd]. split; [exact Hp1 |]. split; [exact Hb1 |].
      destruct Ha1 as [-> | (p & -> & Hname & Hnew & b & Hb & Hbn & Hbid)].
      * split; [constructor |]. intros q [].
      * split; [repeat constructor; intros [] |].
        intros q [<- | []]. split; [exact Hnew |].
        exists x, b. repeat split; try assumption. left. reflexivity.
Qed.

(** [add_products_csv] only appends: whether it returns or raises, the
    products of the store are afterwards the products it had, unchanged and
    in the same order, followed by new ones; each new one has the name of a
    record of the file, a name that the store did not hold and that no other
    new one has, and the id of a brand of the store that has the brand name
    of the record; the brands are not touched. *)
Theorem products_import_only_appends
        (rows : list App.InventoryRow) (w : World) :
  exists added,
    products (working (session (snd (App.add_products_csv rows w))))
    = products (working (session w)) ++ added
    /\ brands (working (session (snd (App.add_products_csv rows w))))
       = brands (working (session w))
    /\ NoDup (map Product.product_name added)
    /\ forall p, In p added ->
         ~ In (Product.product_name p)
              (map Product.product_name (products (working (session w))))
         /\ exists row b,
              In row rows
              /\ Product.product_name p = App.row_product_name row
              /\ In b (brands (working (session w)))
              /\ Brand.brand_name b = App.row_brand_name row
              /\ Product.brand_id p = Some (Brand.brand_id b).
Proof.
  destruct (add_products_csv_loop_appends rows w)
    as (added & Hp & Hb & Hnd & Hin).
  exists added. unfold App.add_products_csv. unfold Run.bind.
  destruct (for_each rows App.add_products_csv_row w) as [[[] | e] w1];
    cbn [snd modify_session session commit working] in *;
    repeat split; try assumption; apply Hin; assumption.
Qed.

(** ** A product without a price *)

Lemma numbers_none (values : list (option Z)) :
  In None values -> App.numbers values = Raise TypeError.
Proof.
  induction values as [| [z |] r IH]; intros H.
  - destruct H.
  - destruct H as [H | H]; [discriminate |].
    cbn [App.numbers]. rewrite (IH H). reflexivity.
  - reflexivity.
Qed.

Lemma analyze_products_none_price (p : Product.t) (w : World) :
  In p (products (working (session w))) ->
  Product.product_price p = None ->
  App.analyze_products w = (Raise TypeError, w).
Proof.
  intros Hp Hprice. unfold App.analyze_products.
  erewrite bind_ok; [| reflexivity]. cbv beta zeta.
  erewrite bind_raise; [reflexivity |].
  unfold lift. rewrite numbers_none; [reflexivity |].
  rewrite <- Hprice. apply in_map. exact Hp.
Qed.

Lemma humanize_price_opt_raises (price : option Z) (e : exn) :
  App.humanize_price_opt price = Raise e ->
  e = TypeError \/ e = OverflowError.
Proof.
  destruct price as [z |]; cbn [App.humanize_price_opt].
  - unfold App.humanize_price, div100, truediv.
    intros H. right.
    repeat match type of H with
           | context [match ?x with _ => _ end] => destruct x eqn:?
           | context [if ?x then _ else _] => destruct x eqn:?
           end; cbn [Py.bind] in H; try discriminate; congruence.
  - intros H. left. congruence.
Qed.

(** The line of [list_products] for one product. *)
Lemma list_products_line (product : Product.t) (w : World) :
  (lift (App.humanize_price_opt (Product.product_price product)) ;;;
   App.get_brand_name (Product.brand_id product) ;;;
   ret tt)%io w
  = match App.humanize_price_opt (Product.product_price product) with
    | Ok _ => (Ok tt, w)
    | Raise e => (Raise e, w)
    end.
Proof.
  destruct (App.humanize_price_opt (Product.product_price product)) as [t | e].
  - erewrite bind_ok; [| reflexivity].
    destruct (get_brand_name_reads (Product.brand_id product) w) as [n Hn].
    erewrite bind_ok; [| exact Hn]. reflexivity.
  - reflexivity.
Qed.

Lemma list_products_loop (ps : list Product.t) (p : Product.t) (w : World) :
  In p ps -> Product.product_price p = None ->
  exists e,
    for_each ps
      (fun product =>
         lift (App.humanize_price_opt (Product.product_price product)) ;;;
         App.get_brand_name (Product.brand_id product) ;;;
         ret tt)%io w = (Raise e, w)
    /\ (e = TypeError \/ e = OverflowError).
Proof.
  intros Hp Hprice. induction ps as [| x ps IH]; [destruct Hp |].
  rewrite for_each_cons. cbv beta. rewrite list_products_line.
  destruct (App.humanize_price_opt (Product.product_price x)) as [t | e]
    eqn:Ex.
  - destruct Hp as [-> | Hp].
    + rewrite Hprice in Ex. discriminate.
    + apply IH. exact Hp.
  - exists e. split; [reflexivity |].
    apply (humanize_price_opt_raises _ _ Ex).
Qed.

(** A product without a price breaks the two reports: the analysis raises
    [TypeError], and the list of the products raises when it comes to a
    product that it cannot print, [TypeError] for the missing price; neither
    reads a line nor changes anything. *)
Theorem missing_price_breaks_reports (p : Product.t) (w : World) :
  In p (products (working (session w))) ->
  Product.product_price p = None ->
  App.analyze_products w = (Raise TypeError, w)
  /\ exists e, App.list_products w = (Raise e, w)
               /\ (e = TypeError \/ e = OverflowError).
Proof.
  intros Hp Hprice.
  split; [apply (analyze_products_none_price p w Hp Hprice) |].
  unfold App.list_products.
  erewrite bind_ok; [| reflexivity].
  assert (Hin : In p (App.products_by_product_id (session w))).
  { destruct (products_by_product_id_spec (session w)) as [_ Hperm].
    eapply Permutation_in; [apply Permutation_sym, Hperm | exact Hp]. }
  destruct (list_products_loop _ p w Hin Hprice) as [e [He Hor]].
  exists e. split; [| exact Hor].
  erewrite bind_raise; [reflexivity | exact He].
Qed.

(** A record of [inventory.csv], of ASCII cells and of a quantity that the
    table can hold, whose price is not a number is imported all the same,
    once the operator has acknowledged the message: the product is stored
    without a price. *)
Theorem import_stores_unreadable_price_as_none
        (row : App.InventoryRow) (quantity : Z) (date : datetime)
        (b : Brand.t) (ack : string) (rest : list string) (w : World) :
  App.row_is_ascii row = true ->
  pending_fits (session w) = true ->
  sqlite_int quantity = true ->
  sqlite_int (next_id (map Product.product_id
                           (products (working (session w))))) = true ->
  App.products_by_name (session w) (App.row_product_name row) = [] ->
  PyStr.int_of_str (App.row_product_quantity row) = Ok quantity ->
  PyStr.float_of_str (PyStr.lstrip "$" (App.row_product_price row))
  = Raise ValueError ->
  App.clean_date (App.row_date_updated row) = Ok date ->
  App.brands_by_name (session w) (App.row_brand_name row) = [b] ->
  stdin w = ack :: rest ->
  fst (App.add_products_csv [row] w) = Ok tt
  /\ products (committed (session (snd (App.add_products_csv [row] w))))
     = products (working (session w))
       ++ [{| Product.product_id :=
                next_id (map Product.product_id
                             (products (working (session w))));
              Product.product_name := App.row_product_name row;
              Product.product_quantity := quantity;
              Product.product_price := None;
              Product.date_updated := date;
              Product.brand_id := Some (Brand.brand_id b) |}]
  /\ stdin (snd (App.add_products_csv [row] w)) = rest.
Proof.
  intros _ _ _ _ Hnew Hq Hprice Hdate Hb Hin.
  assert (Hrow : App.add_products_csv_row row w
                 = (Ok tt,
                    {| session :=
                         add_product_row (App.row_product_name row) quantity
                                         None (Some (Brand.brand_id b)) date
                                         (session w);
                       stdin := rest; clock := clock w; ticks := ticks w;
                       backup_file := backup_file w |})).
  { unfold App.add_products_csv_row.
    erewrite bind_ok; [| reflexivity]. cbv beta zeta.
    rewrite Hnew. change (count [] =? 0) with true. cbv iota.
    rewrite Hq. erewrite bind_ok; [| reflexivity].
    erewrite bind_ok.
    2:{ unfold App.clean_price. rewrite Hprice.
        erewrite bind_ok; [| apply input_cons; exact Hin]. reflexivity. }
    rewrite Hdate. erewrite bind_ok; [| reflexivity].
    erewrite bind_ok; [| reflexivity].
    cbn [session with_stdin]. rewrite Hb. cbn [one].
    erewrite bind_ok; [| reflexivity]. reflexivity. }
  unfold App.add_products_csv. cbn [for_each].
  unfold Run.bind. rewrite Hrow. cbn [ret modify_session fst snd].
  repeat split.
Qed.

Lemma missing_price_breaks_reports_witness :
  let p := {| Product.product_id := 1; Product.product_name := "Tea";
              Product.product_quantity := 3; Product.product_price := None;
              Product.date_updated := Sample.noon;
              Product.brand_id := Some 1 |} in
  let w := Sample.world_of [Sample.kraft] [p] ["l"%string] in
  App.analyze_products w = (Raise TypeError, w)
  /\ exists e, App.list_products w = (Raise e, w)
               /\ (e = TypeError \/ e = OverflowError).
Proof.
  intros p w.
  apply (missing_price_breaks_reports p w); [left |]; reflexivity.
Defined.

Lemma import_stores_unreadable_price_as_none_witness :
  let row := {| App.row_product_name := "Tea";
                App.row_product_price := "cheap";
                App.row_product_quantity := "3";
                App.row_date_updated := "1/2/2020";
                App.row_brand_name := "Kraft" |} in
  let w := Sample.world_of [Sample.kraft] [] [""%string] in
  fst (App.add_products_csv [row] w) = Ok tt
  /\ map Product.product_price
         (products (committed (session (snd (App.add_products_csv [row] w)))))
     = [None].
Proof.
  intros row w.
  destruct (import_stores_unreadable_price_as_none
              row 3
              {| year := 2020; month := 1; day := 2;
                 hour := 0; minute := 0; second := 0; microsecond := 0 |}
              Sample.kraft "" [] w) as (H1 & H2 & _);
    try (vm_compute; reflexivity).
  split; [exact H1 |]. rewrite H2. reflexivity.
Defined.

(** ** The extremes of the analysis *)

Section Extremes.

Context {A K : Type} (leb : K -> K -> bool) (key : A -> K).

Hypothesis leb_total : forall a b, leb a b = true \/ leb b a = true.
Hypothesis leb_trans :
  forall a b c, leb a b = true -> leb b c = true -> leb a c = true.

Lemma first_order_by_asc (rows : list A) (x : A) :
  first (order_by_asc leb key rows) = Some x ->
  In x rows /\ forall y, In y rows -> leb (key x) (key y) = true.
Proof using leb_total leb_trans.
  unfold order_by_asc. intros H.
  apply first_sort_least in H.
  - destruct H as [Hin Hall]. split; [exact Hin |].
    intros y Hy. destruct (Hall y Hy) as [-> | Hle]; [| exact Hle].
    destruct (leb_total (key x) (key x)); assumption.
  - intros a b. apply leb_total.
  - intros a b c. apply leb_trans.
Qed.

Lemma first_order_by_desc (rows : list A) (x : A) :
  first (order_by_desc leb key rows) = Some x ->
  In x rows /\ forall y, In y rows -> leb (key y) (key x) = true.
Proof using leb_total leb_trans.
  unfold order_by_desc. intros H.
  apply first_sort_least in H.
  - destruct H as [Hin Hall]. split; [exact Hin |].
    intros y Hy. destruct (Hall y Hy) as [-> | Hle]; [| exact Hle].
    destruct (leb_total (key x) (key x)); assumption.
  - intros a b. apply leb_total.
  - intros a b c Hab Hbc. apply (leb_trans _ _ _ Hbc Hab).
Qed.

Lemma first_sort_some (le : A -> A -> bool) (rows : list A) :
  rows <> [] -> exists x, first (sort le rows) = Some x.
Proof.
  intros H. pose proof (sort_perm le rows) as Hp.
  destruct (sort le rows) as [| x r].
  - apply Permutation_nil in Hp. congruence.
  - exists x. reflexivity.
Qed.

End Extremes.

Lemma option_leb_total (a b : option Z) :
  option_leb a b = true \/ option_leb b a = true.
Proof.
  destruct a as [x |], b as [y |]; cbn; auto.
  rewrite !Z.leb_le. lia.
Qed.

Lemma option_leb_trans (a b c : option Z) :
  option_leb a b = true -> option_leb b c = true -> option_leb a c = true.
Proof.
  destruct a as [x |], b as [y |], c as [z |]; cbn; auto; try discriminate.
  rewrite !Z.leb_le. lia.
Qed.

Lemma Zleb_total (a b : Z) : (a <=? b) = true \/ (b <=? a) = true.
Proof. rewrite !Z.leb_le. lia. Qed.

Lemma Zleb_trans (a b c : Z) :
  (a <=? b) = true -> (b <=? c) = true -> (a <=? c) = true.
Proof. rewrite !Z.leb_le. lia. Qed.

Lemma numbers_ok (values : list (option Z)) (zs : list Z) :
  App.numbers values = Ok zs -> values = map Some zs.
Proof.
  revert zs. induction values as [| [z |] r IH]; intros zs H.
  - inversion H. reflexivity.
  - cbn [App.numbers] in H.
    destruct (App.numbers r) as [ys | e]; [| discriminate].
    inversion H; subst zs. cbn [map]. f_equal. apply IH. reflexivity.
  - discriminate.
Qed.

(** What [analyze_products] has in its variables when it returns. *)
Lemma analyze_products_fields (w w' : World) (a : App.Analysis)
      (text : list string) :
  App.analyze_products w = (Ok (a, text), w') ->
  let ps := products (working (session w)) in
  ps <> []
  /\ (exists prices, App.numbers (map Product.product_price ps) = Ok prices)
  /\ App.total_products a = count ps
  /\ App.most_expensive a
     = first (order_by_desc option_leb Product.product_price ps)
  /\ App.least_expensive a
     = first (order_by_asc option_leb Product.product_price ps)
  /\ App.oldest_product a
     = first (order_by_asc Datetime.leb Product.date_updated ps)
  /\ App.newest_product a
     = first (order_by_desc Datetime.leb Product.date_updated ps)
  /\ App.large_qty a
     = first (order_by_desc Z.leb Product.product_quantity ps)
  /\ App.low_qty a
     = first (order_by_asc Z.leb Product.product_quantity ps).
Proof.
  intros H ps.
  assert (Hne : ps <> []).
  { intros E. rewrite (analyze_products_empty w E) in H. discriminate. }
  split; [exact Hne |].
  unfold App.analyze_products, Run.bind, lift, get_session, ret in H.
  fold ps in H.
  repeat match type of H with
         | context [match ?x with _ => _ end] =>
             let E := fresh "E" in
             destruct x eqn:E; try discriminate
         end.
  inversion H; subst; clear H. cbn [fst snd].
  split; [eexists; reflexivity |].
  repeat split.
Qed.

(** When [analyze_products] returns, the products that it reports are
    products of the store and extremes of it: no product costs more than the
    most expensive one or less than the least expensive one, none was
    updated before the oldest one or after the newest one, and none has a
    greater quantity than the one of the largest quantity or a smaller
    quantity than the one of the lowest; the count reported is the number of
    the products. *)
Theorem analysis_reports_extremes
        (w w' : World) (a : App.Analysis) (text : list string) :
  App.analyze_products w = (Ok (a, text), w') ->
  let ps := products (working (session w)) in
  App.total_products a = len ps
  /\ (exists p c,
        App.most_expensive a = Some p /\ In p ps
        /\ Product.product_price p = Some c
        /\ forall q, In q ps ->
                     exists d, Product.product_price q = Some d /\ d <= c)
  /\ (exists p c,
        App.least_expensive a = Some p /\ In p ps
        /\ Product.product_price p = Some c
        /\ forall q, In q ps ->
                     exists d, Product.product_price q = Some d /\ c <= d)
  /\ (exists p,
        App.oldest_product a = Some p /\ In p ps
        /\ forall q, In q ps ->
                     Datetime.leb (Product.date_updated p)
                                  (Product.date_updated q) = true)
  /\ (exists p,
        App.newest_product a = Some p /\ In p ps
        /\ forall q, In q ps ->
                     Datetime.leb (Product.date_updated q)
                                  (Product.date_updated p) = true)
  /\ (exists p,
        App.large_qty a = Some p /\ In p ps
        /\ forall q, In q ps ->
                     Product.product_quantity q <= Product.product_quantity p)
  /\ (exists p,
        App.low_qty a = Some p /\ In p ps
        /\ forall q, In q ps ->
                     Product.product_quantity p <= Product.product_quantity q).
Proof.
  intros H ps.
  destruct (analyze_products_fields w w' a text H)
    as (Hne & [prices Hprices] & Ht & Hmost & Hleast & Hold & Hnew & Hlarge
        & Hlow).
  fold ps in Hne, Hprices, Ht, Hmost, Hleast, Hold, Hnew, Hlarge, Hlow.
  apply numbers_ok in Hprices.
  assert (Hsome : forall q, In q ps -> exists d, Product.product_price q = Some d).
  { intros q Hq.
    assert (Hi : In (Product.product_price q) (map Product.product_price ps))
      by (apply in_map; exact Hq).
    rewrite Hprices in Hi. apply in_map_iff in Hi.
    destruct Hi as [d [Hd _]]. exists d. symmetry. exact Hd. }
  split; [exact Ht |].
  split.
  { destruct (first_sort_some
                (fun x y => option_leb (Product.product_price y)
                                       (Product.product_price x)) ps Hne)
      as [p Hp].
    pose proof (first_order_by_desc option_leb Product.product_price
                  option_leb_total option_leb_trans ps p Hp) as [Hin Hall].
    destruct (Hsome p Hin) as [c Hc].
    exists p, c. split; [rewrite Hmost; exact Hp |].
    split; [exact Hin |]. split; [exact Hc |].
    intros q Hq. destruct (Hsome q Hq) as [d Hd]. exists d.
    split; [exact Hd |]. specialize (Hall q Hq). rewrite Hc, Hd in Hall.
    apply Z.leb_le. exact Hall. }
  split.
  { destruct (first_sort_some
                (fun x y => option_leb (Product.product_price x)
                                       (Product.product_price y)) ps Hne)
      as [p Hp].
    pose proof (first_order_by_asc option_leb Product.product_price
                  option_leb_total option_leb_trans ps p Hp) as [Hin Hall].
    destruct (Hsome p Hin) as [c Hc].
    exists p, c. split; [rewrite Hleast; exact Hp |].
    split; [exact Hin |]. split; [exact Hc |].
    intros q Hq. destruct (Hsome q Hq) as [d Hd]. exists d.
    split; [exact Hd |]. specialize (Hall q Hq). rewrite Hc, Hd in Hall.
    apply Z.leb_le. exact Hall. }
  split.
  { destruct (first_sort_some
                (fun x y => Datetime.leb (Product.date_updated x)
                                         (Product.date_updated y)) ps Hne)
      as [p Hp].
    pose proof (first_order_by_asc Datetime.leb Product.date_updated
                  datetime_leb_total datetime_leb_trans ps p Hp)
      as [Hin Hall].
    exists p. split; [rewrite Hold; exact Hp |]. split; assumption. }
  split.
  { destruct (first_sort_some
                (fun x y => Datetime.leb (Product.date_updated y)
                                         (Product.date_updated x)) ps Hne)
      as [p Hp].
    pose proof (first_order_by_desc Datetime.leb Product.date_updated
                  datetime_leb_total datetime_leb_trans ps p Hp)
      as [Hin Hall].
    exists p. split; [rewrite Hnew; exact Hp |]. split; assumption. }
  split.
  { destruct (first_sort_some
                (fun x y => Product.product_quantity y
                            <=? Product.product_quantity x) ps Hne)
      as [p Hp].
    pose proof (first_order_by_desc Z.leb Product.product_quantity
                  Zleb_total Zleb_trans ps p Hp) as [Hin Hall].
    exists p. split; [rewrite Hlarge; exact Hp |]. split; [exact Hin |].
    intros q Hq. apply Z.leb_le. apply Hall. exact Hq. }
  { destruct (first_sort_some
                (fun x y => Product.product_quantity x
                            <=? Product.product_quantity y) ps Hne)
      as [p Hp].
    pose proof (first_order_by_asc Z.leb Product.product_quantity
                  Zleb_total Zleb_trans ps p Hp) as [Hin Hall].
    exists p. split; [rewrite Hlow; exact Hp |]. split; [exact Hin |].
    intros q Hq. apply Z.leb_le. apply Hall. exact Hq. }
Qed.

Lemma analysis_reports_extremes_witness :
  exists a text w',
    App.analyze_products Sample.two_products_world = (Ok (a, text), w')
    /\ App.total_products a = 2
    /\ exists p c, App.most_expensive a = Some p
                   /\ Product.product_price p = Some c /\ 10 <= c.
Proof.
  pose (r := App.analyze_products Sample.two_products_world).
  assert (E : App.analyze_products Sample.two_products_world = r)
    by reflexivity.
  vm_compute in r.
  destruct (analysis_reports_extremes _ _ _ _ E)
    as (Ht & (p & c & Hm & _ & Hc & Hall) & _).
  do 3 eexists. split; [exact E |]. split; [exact Ht |].
  exists p, c. split; [exact Hm |]. split; [exact Hc |].
  destruct (Hall (Sample.product 2 "Candy" 7 10 1)) as [d [Hd Hle]].
  - right. left. reflexivity.
  - inversion Hd; subst d. exact Hle.
Defined.

(** ** The lines that the program reads *)

Lemma consumes_ret {A : Type} (a : A) : consumes (ret a).
Proof. intros w. exists []. reflexivity. Qed.

Lemma consumes_raise {A : Type} (e : exn) : consumes (@raise A e).
Proof. intros w. exists []. reflexivity. Qed.

Lemma consumes_lift {A : Type} (r : res A) : consumes (lift r).
Proof. intros w. exists []. reflexivity. Qed.

Lemma consumes_get_session : consumes get_session.
Proof. intros w. exists []. reflexivity. Qed.

Lemma consumes_modify_session (f : Session -> Session) :
  consumes (modify_session f).
Proof. intros w. exists []. reflexivity. Qed.

Lemma consumes_now : consumes now.
Proof. intros w. exists []. reflexivity. Qed.

Lemma consumes_write_backup (rows : list (list string)) :
  consumes (write_backup rows).
Proof. intros w. exists []. reflexivity. Qed.

Lemma consumes_input : consumes input.
Proof.
  intros w. unfold input. destruct (stdin w) as [| line rest] eqn:E.
  - exists []. cbn [snd]. rewrite E. reflexivity.
  - exists [line]. reflexivity.
Qed.

Lemma consumes_bind {A B : Type} (m : M A) (k : A -> M B) :
  consumes m -> (forall a, consumes (k a)) -> consumes (Run.bind m k).
Proof.
  intros Hm Hk w. unfold Run.bind.
  destruct (Hm w) as [r1 H1].
  destruct (m w) as [[a | e] w1]; cbn [snd] in *.
  - destruct (Hk a w1) as [r2 H2]. exists (r1 ++ r2).
    rewrite <- app_assoc, <- H2. exact H1.
  - exists r1. exact H1.
Qed.

Lemma consumes_loop {A : Type} (fuel : nat) (body : M (option A)) :
  consumes body -> consumes (loop fuel body).
Proof.
  intros Hb. induction fuel as [| fuel IH]; cbn [loop].
  - apply consumes_raise.
  - apply consumes_bind; [exact Hb |].
    intros [a |]; [apply consumes_ret | exact IH].
Qed.

Lemma consumes_while_true {A : Type} (body : M (option A)) :
  consumes body -> consumes (while_true body).
Proof. intros Hb w. unfold while_true. apply consumes_loop, Hb. Qed.

Lemma consumes_for_each {A : Type} (xs : list A) (body : A -> M unit) :
  (forall x, consumes (body x)) -> consumes (for_each xs body).
Proof.
  intros Hb. induction xs as [| x xs IH]; cbn [for_each].
  - apply consumes_ret.
  - apply consumes_bind; [apply Hb | intros _; exact IH].
Qed.

Create HintDb consumes.

#[local] Hint Resolve consumes_ret consumes_raise consumes_lift
  consumes_get_session consumes_modify_session consumes_now
  consumes_write_backup consumes_input : consumes.

Ltac consumes_step :=
  match goal with
  | |- consumes (Run.bind _ _) => apply consumes_bind; [| intros ?]
  | |- consumes (while_true _) => apply consumes_while_true
  | |- consumes (for_each _ _) => apply consumes_for_each; intros ?
  | |- consumes (let _ := _ in _) => cbv zeta
  | |- consumes (if ?b then _ else _) => destruct b
  | |- consumes (match ?x with _ => _ end) => destruct x
  | |- consumes _ => solve [auto with consumes]
  end.

Lemma consumes_check_id (id_str : string) (id_options : list Z) :
  consumes (App.check_id id_str id_options).
Proof. unfold App.check_id. repeat consumes_step. Qed.

Lemma consumes_check_quantity (qty : string) :
  consumes (App.check_quantity qty).
Proof. unfold App.check_quantity. repeat consumes_step. Qed.

Lemma consumes_clean_price (price_str : string) :
  consumes (App.clean_price price_str).
Proof. unfold App.clean_price. repeat consumes_step. Qed.

Lemma consumes_get_brand_name (brand_id : option Z) :
  consumes (App.get_brand_name brand_id).
Proof. unfold App.get_brand_name. repeat consumes_step. Qed.

#[local] Hint Resolve consumes_check_id consumes_check_quantity
  consumes_clean_price consumes_get_brand_name : consumes.

Lemma consumes_main_menu : consumes App.main_menu.
Proof. unfold App.main_menu. repeat consumes_step. Qed.

Lemma consumes_product_menu : consumes App.product_menu.
Proof. unfold App.product_menu. repeat consumes_step. Qed.

Lemma consumes_get_quantity_input (current_value : option Z) :
  consumes (App.get_quantity_input current_value).
Proof. unfold App.get_quantity_input. repeat consumes_step. Qed.

Lemma consumes_get_price_input (current_value : option Z) :
  consumes (App.get_price_input current_value).
Proof. unfold App.get_price_input. repeat consumes_step. Qed.

Lemma consumes_get_brand_input (current_value : option Z) :
  consumes (App.get_brand_input current_value).
Proof. unfold App.get_brand_input. repeat consumes_step. Qed.

Lemma consumes_confirm_product_info (price_input : Z)
      (brand_input : option Z) :
  consumes (App.confirm_product_info price_input brand_input).
Proof. unfold App.confirm_product_info. repeat consumes_step. Qed.

#[local] Hint Resolve consumes_main_menu consumes_product_menu
  consumes_get_quantity_input consumes_get_price_input
  consumes_get_brand_input consumes_confirm_product_info : consumes.

Lemma consumes_add_product_save (name : string) (quantity_input : Z)
      (price_input : Z) (brand_input : option Z) :
  consumes (App.add_product_save name quantity_input price_input brand_input).
Proof. unfold App.add_product_save. repeat consumes_step. Qed.

#[local] Hint Resolve consumes_add_product_save : consumes.

Lemma consumes_add_product : consumes App.add_product.
Proof. unfold App.add_product. repeat consumes_step. Qed.

Lemma consumes_edit_product (product_id : Z) :
  consumes (App.edit_product product_id).
Proof. unfold App.edit_product. repeat consumes_step. Qed.

#[local] Hint Resolve consumes_add_product consumes_edit_product : consumes.

Lemma consumes_view_product : consumes App.view_product.
Proof. unfold App.view_product. repeat consumes_step. Qed.

Lemma consumes_backup_db : consumes App.backup_db.
Proof. unfold App.backup_db. repeat consumes_step. Qed.

Lemma consumes_list_products : consumes App.list_products.
Proof. unfold App.list_products. repeat consumes_step. Qed.

Lemma consumes_list_brands : consumes App.list_brands.
Proof. unfold App.list_brands. repeat consumes_step. Qed.

Lemma consumes_analyze_products : consumes App.analyze_products.
Proof. unfold App.analyze_products. repeat consumes_step. Qed.

Lemma consumes_add_brands_csv (rows : list string) :
  consumes (App.add_brands_csv rows).
Proof. unfold App.add_brands_csv. repeat consumes_step. Qed.

Lemma consumes_add_products_csv_row (row : App.InventoryRow) :
  consumes (App.add_products_csv_row row).
Proof. unfold App.add_products_csv_row. repeat consumes_step. Qed.

#[local] Hint Resolve consumes_add_products_csv_row : consumes.

Lemma consumes_add_products_csv (rows : list App.InventoryRow) :
  consumes (App.add_products_csv rows).
Proof. unfold App.add_products_csv. repeat consumes_step. Qed.

#[local] Hint Resolve consumes_view_product consumes_backup_db
  consumes_list_products consumes_list_brands consumes_analyze_products
  consumes_add_brands_csv consumes_add_products_csv : consumes.

(** What is left on the keyboard is the end of what was there. *)
Lemma consumes_keeps {A : Type} (m : M A) (lines : list string) :
  consumes m ->
  keeps (fun w => exists read, lines = read ++ stdin w) m.
Proof.
  intros Hm. apply keeps_snd. intros w [r Hr].
  destruct (Hm w) as [r1 H1]. exists (r ++ r1).
  rewrite <- app_assoc, <- H1. exact Hr.
Qed.

(** The choice that [main_menu] returns is the line that it read last. *)
Lemma main_menu_last_line (lines : list string) :
  triple (fun w => exists read, lines = read ++ stdin w)
         App.main_menu
         (fun c w =>
            (exists before line,
                lines = before ++ line :: stdin w
                /\ c = PyStr.lower (PyStr.strip line))
            /\ App.mem_str c ["n"; "v"; "a"; "b"; "l"; "r"; "q"]%string = true)
         (fun _ w => exists read, lines = read ++ stdin w).
Proof.
  unfold App.main_menu. apply triple_while_true.
  intros w [read Hr]. unfold Run.bind, input, ret.
  destruct (stdin w) as [| line rest] eqn:E.
  - exists read. rewrite E. exact Hr.
  - cbv zeta.
    destruct (App.mem_str (PyStr.lower (PyStr.strip line)) _) eqn:Em.
    + split; [| exact Em]. exists read, line. cbn [stdin].
      split; [exact Hr | reflexivity].
    + cbn [stdin]. destruct rest as [| ack rest'].
      * exists (read ++ [line]). cbn [stdin].
        rewrite <- app_assoc. exact Hr.
      * exists (read ++ [line; ack]). cbn [stdin].
        rewrite <- app_assoc. exact Hr.
Qed.

Lemma consumes_then_none {A : Type} (m : M A) (lines : list string)
      (Q : World -> Prop) :
  consumes m ->
  triple (fun w => exists read, lines = read ++ stdin w)
         (m ;;; ret (@None unit))%io
         (fun r w => match r with
                     | Some _ => Q w
                     | None => exists read, lines = read ++ stdin w
                     end)
         (fun _ w => exists read, lines = read ++ stdin w).
Proof.
  intros Hm w Hw. pose proof (consumes_keeps m lines Hm w Hw) as H.
  unfold Run.bind. destruct (m w) as [[a | e] w1]; exact H.
Qed.

Lemma app_turn_last_line (lines : list string) :
  triple (fun w => exists read, lines = read ++ stdin w)
         App.app_turn
         (fun r w =>
            match r with
            | Some _ =>
                exists before line,
                  lines = before ++ line :: stdin w
                  /\ PyStr.lower (PyStr.strip line) = "q"%string
            | None => exists read, lines = read ++ stdin w
            end)
         (fun _ w => exists read, lines = read ++ stdin w).
Proof.
  unfold App.app_turn.
  eapply triple_bind; [apply main_menu_last_line |].
  intros choice.
  assert (Hi : forall w,
             (exists before line,
                 lines = before ++ line :: stdin w
                 /\ choice = PyStr.lower (PyStr.strip line))
             /\ App.mem_str choice
                            ["n"; "v"; "a"; "b"; "l"; "r"; "q"]%string = true ->
             exists read, lines = read ++ stdin w).
  { intros w [(before & line & Hl & _) _]. exists (before ++ [line]).
    rewrite <- app_assoc. exact Hl. }
  destruct (String.eqb choice "v") eqn:Ev.
  { intros w Hw. apply consumes_then_none;
      [apply consumes_view_product | apply Hi, Hw]. }
  destruct (String.eqb choice "n") eqn:En.
  { intros w Hw. apply consumes_then_none;
      [apply consumes_add_product | apply Hi, Hw]. }
  destruct (String.eqb choice "a") eqn:Ea.
  { intros w Hw. apply consumes_then_none;
      [apply consumes_analyze_products | apply Hi, Hw]. }
  destruct (String.eqb choice "b") eqn:Eb.
  { intros w Hw. apply consumes_then_none;
      [apply consumes_backup_db | apply Hi, Hw]. }
  destruct (String.eqb choice "l") eqn:El.
  { intros w Hw. apply consumes_then_none;
      [apply consumes_list_products | apply Hi, Hw]. }
  destruct (String.eqb choice "r") eqn:Er.
  { intros w Hw. apply consumes_then_none;
      [apply consumes_list_brands | apply Hi, Hw]. }
  intros w [(before & line & Hl & Hc) Hm]. cbn [ret].
  exists before, line. split; [exact Hl |].
  unfold App.mem_str in Hm. cbn [existsb] in Hm.
  rewrite Ev, En, Ea, Eb, El, Er in Hm. cbn [orb] in Hm.
  rewrite orb_false_r in Hm. apply String.eqb_eq in Hm.
  rewrite <- Hc. exact Hm.
Qed.

(** The program ends normally only on [q]: when [main] returns, the line
    that it read last is, without the white space around it and in lower
    case, the choice [q], and the lines after it are left unread. *)
Theorem program_ends_normally_only_on_q
        (brands_csv : list string) (inventory_csv : list App.InventoryRow)
        (w w' : World) :
  App.main brands_csv inventory_csv w = (Ok tt, w') ->
  exists before line,
    stdin w = before ++ line :: stdin w'
    /\ PyStr.lower (PyStr.strip line) = "q"%string.
Proof.
  intros H.
  assert (Ht : triple (fun w0 => exists read, stdin w = read ++ stdin w0)
                      (App.main brands_csv inventory_csv)
                      (fun _ w0 =>
                         exists before line,
                           stdin w = before ++ line :: stdin w0
                           /\ PyStr.lower (PyStr.strip line) = "q"%string)
                      (fun _ w0 => exists read, stdin w = read ++ stdin w0)).
  { unfold App.main.
    eapply triple_bind;
      [apply consumes_keeps, consumes_add_brands_csv | intros []].
    eapply triple_bind;
      [apply consumes_keeps, consumes_add_products_csv | intros []].
    unfold App.app. apply triple_while_true. apply app_turn_last_line. }
  specialize (Ht w (ex_intro _ [] eq_refl)).
  rewrite H in Ht. exact Ht.
Qed.

Lemma program_ends_normally_only_on_q_witness :
  let w := Sample.fresh_world ["l"; ""; " Q "; "unread"]%string in
  exists before line,
    stdin w = before ++ line :: stdin (snd (App.main [] [] w))
    /\ PyStr.lower (PyStr.strip line) = "q"%string.
Proof.
  intros w.
  apply (program_ends_normally_only_on_q [] [] w (snd (App.main [] [] w))).
  vm_compute. reflexivity.
Defined.

(** ** A store without brands *)

Lemma get_brand_input_no_brand (current_value : option Z) (w : World) :
  brands (working (session w)) = [] ->
  App.get_brand_input current_value w = (Raise IndexError, w).
Proof.
  intros H. unfold App.get_brand_input.
  erewrite bind_ok; [| reflexivity]. cbv beta zeta.
  assert (E : App.brands_by_brand_id (session w) = []).
  { unfold App.brands_by_brand_id, order_by_asc. rewrite H. reflexivity. }
  rewrite E. cbn [map].
  destruct (App.truthy current_value).
  - destruct (get_brand_name_reads current_value w) as [name Hname].
    erewrite bind_ok; [| exact Hname].
    erewrite bind_raise; [reflexivity |].
    unfold lift. rewrite getitem_nil. reflexivity.
  - erewrite bind_ok; [| reflexivity].
    erewrite bind_raise; [reflexivity |].
    unfold lift. rewrite getitem_nil. reflexivity.
Qed.

(** A computation that reads, then asks for a brand, raises in a store
    without brands and leaves the session as it was. *)
Lemma raises_before_brand {A B : Type} (m : M A) (k : A -> M B)
      (s0 : Session) :
  read_only m ->
  (forall a w, session w = s0 ->
               (exists e, fst (k a w) = Raise e)
               /\ session (snd (k a w)) = s0) ->
  forall w, session w = s0 ->
            (exists e, fst (Run.bind m k w) = Raise e)
            /\ session (snd (Run.bind m k w)) = s0.
Proof.
  intros Hm Hk w Hw. unfold Run.bind.
  destruct (Hm w) as [Hs _].
  destruct (m w) as [[a | e] w1]; cbn [snd] in Hs.
  - apply Hk. congruence.
  - cbn [fst snd]. split; [exists e; reflexivity | congruence].
Qed.

(** While the store has no brand, no product can be added or edited from
    the menus: whatever is typed, [add_product] and [edit_product] raise,
    at the latest [IndexError] when they come to ask for the brand, and the
    session is left as it was. *)
Theorem store_without_brands_takes_no_product (product_id : Z) (w : World) :
  brands (working (session w)) = [] ->
  ((exists e, fst (App.add_product w) = Raise e)
   /\ session (snd (App.add_product w)) = session w)
  /\ ((exists e, fst (App.edit_product product_id w) = Raise e)
      /\ session (snd (App.edit_product product_id w)) = session w).
Proof.
  intros H.
  assert (Hbrand : forall A (cv : option Z) (k : option Z -> M A) w0,
             session w0 = session w ->
             (exists e, fst (Run.bind (App.get_brand_input cv) k w0) = Raise e)
             /\ session (snd (Run.bind (App.get_brand_input cv) k w0))
                = session w).
  { intros A cv k w0 Hw0.
    erewrite bind_raise;
      [| apply get_brand_input_no_brand; rewrite Hw0; exact H].
    cbn [fst snd]. split; [exists IndexError; reflexivity | exact Hw0]. }
  split.
  - unfold App.add_product.
    apply raises_before_brand; [apply read_only_input | | reflexivity].
    intros line w1 Hw1. cbv zeta.
    apply raises_before_brand;
      [apply read_only_get_quantity_input | | exact Hw1].
    intros q w2 Hw2.
    apply raises_before_brand;
      [apply read_only_get_price_input | | exact Hw2].
    intros price w3 Hw3. apply Hbrand. exact Hw3.
  - unfold App.edit_product.
    apply raises_before_brand; [apply read_only_get_session | | reflexivity].
    intros s w1 Hw1.
    apply raises_before_brand; [apply read_only_lift | | exact Hw1].
    intros p w2 Hw2.
    apply raises_before_brand;
      [apply read_only_get_quantity_input | | exact Hw2].
    intros q w3 Hw3.
    apply raises_before_brand;
      [apply read_only_get_price_input | | exact Hw3].
    intros price w4 Hw4. apply Hbrand. exact Hw4.
Qed.

Lemma store_without_brands_takes_no_product_witness :
  let w := Sample.fresh_world ["Tea"; "3"; "2.50"; "1"; "y"]%string in
  fst (App.add_product w) = Raise IndexError
  /\ session (snd (App.add_product w)) = session w.
Proof.
  intros w.
  destruct (store_without_brands_takes_no_product 1 w eq_refl)
    as [[_ Hs] _].
  split; [vm_compute; reflexivity | exact Hs].
Defined.

(** ** The mean of the analysis *)

(** The mean price that [analyze_products] reports is the sum of the
    prices divided by their number: that quotient as an integer when the
    division is exact, else the float nearest to it. *)
Theorem analysis_mean_is_sum_over_count
        (w w' : World) (a : App.Analysis) (text : list string) :
  App.analyze_products w = (Ok (a, text), w') ->
  exists P,
    map Product.product_price (products (working (session w))) = map Some P
    /\ P <> []
    /\ Statistics._convert (Spec.mean_Q P) = Ok (App.mean_price a).
Proof.
  intros H.
  destruct (analyze_products_statistics w w' a text H)
    as (P & HP & Hmean & _).
  destruct (analyze_products_fields w w' a text H) as (Hne & _).
  exists P. split; [apply numbers_ok; exact HP |].
  assert (HPne : P <> []).
  { intros ->. apply numbers_ok in HP. cbn [map] in HP.
    apply map_eq_nil in HP. exact (Hne HP). }
  split; [exact HPne |].
  rewrite <- Hmean. symmetry. apply (mean_spec P HPne).
Qed.

Lemma analysis_mean_is_sum_over_count_witness :
  exists a text w',
    App.analyze_products Sample.two_products_world = (Ok (a, text), w')
    /\ App.mean_price a = Int 5.
Proof.
  pose (r := App.analyze_products Sample.two_products_world).
  assert (E : App.analyze_products Sample.two_products_world = r)
    by reflexivity.
  vm_compute in r.
  destruct (analysis_mean_is_sum_over_count _ _ _ _ E) as (P & HP & _ & Hm).
  do 3 eexists. split; [exact E |].
  assert (EP : P = [0; 10]).
  { cbn in HP. destruct P as [| x [| y [| z P]]]; try discriminate HP.
    inversion HP. reflexivity. }
  subst P. vm_compute in Hm. inversion Hm. reflexivity.
Defined.

(** ** Whole numbers in binary64 *)

Lemma pos_mul_pow2 (M : positive) (k : Z) :
  0 <= k -> exists N, Zpos M * 2 ^ k = Zpos N.
Proof.
  intros Hk.
  assert (H : 0 < Zpos M * 2 ^ k)
    by (apply Z.mul_pos_pos; [lia | apply Z.pow_pos_nonneg; lia]).
  destruct (Zpos M * 2 ^ k) as [| N | N]; try lia. exists N. reflexivity.
Qed.

(** Shifting out [k] zero bits is exact. *)
Lemma iter_pos_shr_1_exact (k : positive) :
  forall M : positive,
    iter_pos shr_1 k
             {| shr_m := Zpos M * 2 ^ Zpos k; shr_r := false; shr_s := false |}
    = {| shr_m := Zpos M; shr_r := false; shr_s := false |}.
Proof.
  induction k as [k IH | k IH |]; intros M; cbn [iter_pos].
  - assert (E : Zpos M * 2 ^ Zpos k~1
                = 2 * (Zpos M * 2 ^ Zpos k * 2 ^ Zpos k)).
    { rewrite (Pos2Z.inj_xI k).
      replace (2 * Zpos k + 1) with (Zpos k + Zpos k + 1) by lia.
      rewrite !Z.pow_add_r by lia. change (2 ^ 1) with 2. ring. }
    rewrite E. clear E.
    destruct (pos_mul_pow2 M (Zpos k) ltac:(lia)) as [N HN].
    rewrite HN.
    destruct (pos_mul_pow2 N (Zpos k) ltac:(lia)) as [N' HN'].
    rewrite HN'. change (2 * Zpos N') with (Zpos N'~0).
    cbn [shr_1 orb]. rewrite <- HN'. rewrite IH. rewrite <- HN. apply IH.
  - assert (E : Zpos M * 2 ^ Zpos k~0
                = Zpos M * 2 ^ Zpos k * 2 ^ Zpos k).
    { rewrite (Pos2Z.inj_xO k).
      replace (2 * Zpos k) with (Zpos k + Zpos k) by lia.
      rewrite Z.pow_add_r by lia. ring. }
    rewrite E. clear E.
    destruct (pos_mul_pow2 M (Zpos k) ltac:(lia)) as [N HN].
    rewrite HN. rewrite IH. rewrite <- HN. apply IH.
  - change (2 ^ 1) with 2. rewrite Z.mul_comm.
    change (2 * Zpos M) with (Zpos M~0). reflexivity.
Qed.

(** A mantissa of 53 bits followed by [k] zero bits is rounded to itself. *)
Lemma binary_round_aux_exact (s : bool) (M : positive) (k e : Z) :
  Zdigits2 (Zpos M) = 53 -> 0 <= k -> -1074 <= e + k -> e + k <= 971 ->
  binary_round_aux Float64.prec Float64.emax s (Zpos M * 2 ^ k) e loc_Exact
  = S754_finite s M (e + k).
Proof.
  intros Hd Hk Hlo Hhi.
  unfold binary_round_aux, shr_fexp, fexp, emin, Float64.prec, Float64.emax.
  rewrite Zdigits2_mul_pow2 by exact Hk. rewrite Hd.
  replace (Z.max (53 + k + e - 53) (3 - 1024 - 53) - e) with k by lia.
  cbn [shr_record_of_loc].
  assert (E : shr {| shr_m := Zpos M * 2 ^ k; shr_r := false;
                     shr_s := false |} e k
              = ({| shr_m := Zpos M; shr_r := false; shr_s := false |},
                 e + k)).
  { destruct k as [| k | k]; try lia.
    - cbn [shr]. rewrite Z.pow_0_r, Z.mul_1_r, Z.add_0_r. reflexivity.
    - cbn [shr]. rewrite iter_pos_shr_1_exact. reflexivity. }
  rewrite E.
  cbn [shr_m loc_of_shr_record round_nearest_even shr_record_of_loc].
  rewrite Hd.
  replace (Z.max (53 + (e + k) - 53) (3 - 1024 - 53) - (e + k)) with 0 by lia.
  cbn [shr shr_m].
  replace (e + k <=? 1024 - 53) with true by (symmetry; apply Z.leb_le; lia).
  reflexivity.
Qed.

Lemma Zdigits2_pos (p : positive) :
  1 <= Zdigits2 (Zpos p)
  /\ 2 ^ (Zdigits2 (Zpos p) - 1) <= Zpos p < 2 ^ Zdigits2 (Zpos p).
Proof.
  cbn [Zdigits2]. rewrite digits2_pos_size.
  pose proof (Pos.size_gt p) as Hgt. pose proof (Pos.size_le p) as Hle.
  apply Pos2Z.pos_lt_pos in Hgt. apply Pos2Z.pos_le_pos in Hle.
  rewrite Pos2Z.inj_pow in Hgt, Hle.
  change (Zpos p~0) with (2 * Zpos p) in Hle.
  split; [lia |]. split; [| exact Hgt].
  replace (Zpos (Pos.size p)) with (Z.succ (Zpos (Pos.size p) - 1)) in Hle
    by lia.
  rewrite Z.pow_succ_r in Hle by lia. lia.
Qed.

(** The 53 bits of a positive integer below [2 ^ 53]. *)
Lemma normal_mantissa (p : positive) :
  Zpos p < 2 ^ 53 ->
  exists M, Zpos M = Zpos p * 2 ^ (53 - Zdigits2 (Zpos p))
            /\ Zdigits2 (Zpos M) = 53.
Proof.
  intros Hp. pose proof (Zdigits2_bound p 53 ltac:(lia) Hp) as Hd.
  destruct (pos_mul_pow2 p (53 - Zdigits2 (Zpos p)) ltac:(lia)) as [M HM].
  exists M. split; [symmetry; exact HM |].
  rewrite <- HM. rewrite Zdigits2_mul_pow2 by lia. lia.
Qed.

(** An integer below [2 ^ 53] is a float. *)
Lemma of_ratio_whole (p : positive) :
  Zpos p < 2 ^ 53 ->
  exists M,
    Float64.of_ratio (Zpos p) 1
    = S754_finite false M (Zdigits2 (Zpos p) - 53)
    /\ Zpos M = Zpos p * 2 ^ (53 - Zdigits2 (Zpos p))
    /\ Zdigits2 (Zpos M) = 53.
Proof.
  intros Hp. pose proof (Zdigits2_bound p 53 ltac:(lia) Hp) as Hd.
  destruct (Zdigits2_pos p) as [Hd1 _].
  destruct (normal_mantissa p Hp) as [M [HM HdM]].
  exists M. split; [| split; assumption].
  set (d := Zdigits2 (Zpos p)) in *.
  unfold Float64.of_ratio, SFdiv_core_binary. fold d.
  change (Zdigits2 1) with 1.
  unfold Float64.prec, Float64.emax, fexp, emin.
  replace (Z.min (Z.max (d + 0 - (1 + 0) - 53) (3 - 1024 - 53)) (0 - 0))
    with (d - 54) by lia.
  replace (0 - 0 - (d - 54)) with (54 - d) by lia.
  destruct (54 - d) as [| s | s] eqn:Es; try lia.
  rewrite <- Es. rewrite Z.shiftl_mul_pow2 by lia.
  assert (Hdiv : Z.div_eucl (Zpos p * 2 ^ (54 - d)) 1
                 = (Zpos p * 2 ^ (54 - d), 0)).
  { pose proof (Z.div_1_r (Zpos p * 2 ^ (54 - d))) as Hq.
    pose proof (Z.mod_1_r (Zpos p * 2 ^ (54 - d))) as Hr.
    unfold Z.div, Z.modulo in Hq, Hr.
    destruct (Z.div_eucl (Zpos p * 2 ^ (54 - d)) 1) as [q r].
    cbn [fst snd] in *. congruence. }
  rewrite Hdiv.
  change (new_location 1 0) with loc_Exact.
  replace (Zpos p * 2 ^ (54 - d)) with (Zpos M * 2 ^ 1).
  2:{ rewrite HM. replace (54 - d) with (53 - d + 1) by lia.
      rewrite Z.pow_add_r by lia. ring. }
  change (binary_round_aux 53 1024 false (Zpos M * 2 ^ 1) (d - 54) loc_Exact)
    with (binary_round_aux Float64.prec Float64.emax false
                           (Zpos M * 2 ^ 1) (d - 54) loc_Exact).
  rewrite binary_round_aux_exact by (try exact HdM; lia).
  f_equal. lia.
Qed.

(** A whole number of dollars times 100, cut to an integer, is the number
    of cents: both the float and the product are exact. *)
Lemma whole_dollars_to_cents (n : Z) :
  0 <= n -> 100 * n < 2 ^ 53 ->
  Float64.trunc (Float64.mul (Float64.of_ratio n 1) (Float64.of_Z 100))
  = Ok (100 * n).
Proof.
  intros Hn Hb. destruct n as [| p | p]; try lia.
  - reflexivity.
  - assert (Hp : Zpos p < 2 ^ 53) by lia.
    destruct (of_ratio_whole p Hp) as (M & -> & HM & HdM).
    destruct (Zdigits2_pos p) as [Hd1 [Hlo Hhi]].
    set (d := Zdigits2 (Zpos p)) in *.
    change (100 * Zpos p) with (Zpos (100 * p)) in *.
    destruct (normal_mantissa (100 * p) Hb) as [M' [HM' HdM']].
    destruct (Zdigits2_pos (100 * p)) as [HD1 [HDlo HDhi]].
    pose proof (Zdigits2_bound (100 * p) 53 ltac:(lia) Hb) as HD.
    set (D := Zdigits2 (Zpos (100 * p))) in *.
    assert (HdD : d <= D).
    { destruct (Z.le_gt_cases d D) as [H | H]; [exact H |].
      exfalso.
      assert (2 ^ D <= 2 ^ (d - 1)) by (apply Z.pow_le_mono_r; lia).
      change (Zpos (100 * p)) with (100 * Zpos p) in HDhi. lia. }
    change (Float64.of_Z 100)
      with (S754_finite false 7036874417766400 (-46)).
    unfold Float64.mul. cbn [SFmul xorb].
    assert (E : Zpos (M * 7036874417766400) = Zpos M' * 2 ^ (46 - d + D)).
    { rewrite Pos2Z.inj_mul, HM, HM'.
      change (Zpos 7036874417766400) with (100 * 2 ^ 46).
      change (Zpos (100 * p)) with (100 * Zpos p).
      replace (46 - d + D) with ((53 - d) + 46 - (53 - D)) by lia.
      assert (E2 : 2 ^ (53 - d + 46)
                   = 2 ^ (53 - D) * 2 ^ (53 - d + 46 - (53 - D))).
      { rewrite <- Z.pow_add_r by lia. f_equal. lia. }
      replace (Zpos p * 2 ^ (53 - d) * (100 * 2 ^ 46))
        with (100 * Zpos p * 2 ^ (53 - d + 46))
        by (rewrite (Z.pow_add_r 2 (53 - d) 46) by lia; ring).
      rewrite E2. ring. }
    rewrite E.
    change (binary_round_aux 53 1024) with
      (binary_round_aux Float64.prec Float64.emax).
    rewrite binary_round_aux_exact by (try exact HdM'; lia).
    replace (d - 53 + -46 + (46 - d + D)) with (D - 53) by lia.
    unfold Float64.trunc. f_equal.
    destruct (0 <=? D - 53) eqn:Ee.
    + apply Z.leb_le in Ee. assert (D = 53) by lia.
      rewrite HM'. replace (53 - D) with 0 by lia.
      replace (D - 53) with 0 by lia. rewrite Z.pow_0_r. ring.
    + rewrite HM'. replace (- (D - 53)) with (53 - D) by lia.
      apply Z.div_mul. apply Z.pow_nonzero; lia.
Qed.

(** ** Prices typed as whole numbers *)

Lemma take_sign_digits (s : string) :
  Spec.all_chars PyStr.is_digit s = true -> PyStr.take_sign s = (false, s).
Proof.
  destruct s as [| c r]; [reflexivity |].
  cbn [Spec.all_chars]. intros H. apply andb_true_iff in H.
  destruct H as [Hc _].
  destruct (is_digit_cases c Hc) as (_ & _ & Hm & Hp & _).
  unfold PyStr.take_sign.
  destruct c as [[] [] [] [] [] [] [] []]; try reflexivity;
    cbn in Hm, Hp; discriminate.
Qed.

Lemma digit_not_letter (c : ascii) :
  PyStr.is_digit c = true ->
  Ascii.eqb (PyStr.to_lower c) "i" = false
  /\ Ascii.eqb (PyStr.to_lower c) "n" = false
  /\ Ascii.eqb c "$" = false.
Proof.
  destruct c as [[] [] [] [] [] [] [] []]; cbn; intros H;
    try discriminate; repeat split; reflexivity.
Qed.

(** The digits of a natural number are read by [float] as that number. *)
Lemma float_of_str_digits (d : Decimal.uint) :
  d <> Decimal.Nil ->
  PyStr.float_of_str (NilEmpty.string_of_uint d)
  = Ok (Float64.of_ratio (Z.of_uint d) 1).
Proof.
  intros Hd. pose proof (string_of_uint_digits d) as Hdig.
  unfold PyStr.float_of_str.
  rewrite c_strip_none by (apply digits_no_c_space; exact Hdig).
  rewrite (drop_underscores_digits _ _ Hdig).
  rewrite (take_sign_digits _ Hdig).
  destruct (take_digits_of_uint d Hd) as [cnt [Htd Hcnt]].
  unfold PyStr.take_decimal. rewrite Htd.
  replace (0 <? cnt + 0) with true by (symmetry; apply Z.ltb_lt; lia).
  cbn [PyStr.take_exponent option_map].
  destruct (NilEmpty.string_of_uint d) as [| c r] eqn:Es.
  { destruct d; cbn in Es; congruence. }
  cbn [Spec.all_chars] in Hdig. apply andb_true_iff in Hdig.
  destruct Hdig as [Hc _].
  destruct (digit_not_letter c Hc) as (Hi & Hnn & _).
  cbn [PyStr.lower String.eqb]. rewrite Hi, Hnn. cbn [orb].
  change (0 <=? 0 - 0) with true. cbv iota.
  change (10 ^ (0 - 0)) with 1. rewrite Z.mul_1_r. reflexivity.
Qed.

Lemma lstrip_dollar_digits (s : string) :
  Spec.all_chars PyStr.is_digit s = true ->
  PyStr.lstrip "$" s = s /\ PyStr.lstrip "$" (String "$" s) = s.
Proof.
  intros H.
  assert (E : PyStr.lstrip "$" s = s).
  { unfold PyStr.lstrip. destruct s as [| c r]; [reflexivity |].
    cbn [Spec.all_chars] in H. apply andb_true_iff in H.
    destruct H as [Hc _]. destruct (digit_not_letter c Hc) as (_ & _ & Hd).
    cbn [PyStr.lstrip_by PyStr.mem_char]. rewrite Hd. reflexivity. }
  split; [exact E |].
  unfold PyStr.lstrip in *. cbn [PyStr.lstrip_by PyStr.mem_char].
  rewrite Ascii.eqb_refl. cbn [orb]. exact E.
Qed.

Lemma str_of_int_nonneg (n : Z) :
  0 <= n ->
  exists d, d <> Decimal.Nil
            /\ PyStr.str_of_int n = NilEmpty.string_of_uint d
            /\ Z.of_uint d = n.
Proof.
  intros Hn. unfold PyStr.str_of_int. destruct n as [| p | p]; try lia.
  - exists (Decimal.D0 Decimal.Nil). repeat split. discriminate.
  - exists (Pos.to_uint p).
    pose proof (DecimalPos.Unsigned.to_uint_nonnil p) as Hd.
    pose proof (DecimalZ.of_to (Zpos p)) as Hz.
    cbn [Z.to_int Z.of_int] in Hz.
    split; [exact Hd |]. split; [| exact Hz].
    cbn [Z.to_int NilZero.string_of_int]. unfold NilZero.string_of_uint.
    destruct (Pos.to_uint p); try reflexivity. congruence.
Qed.

Lemma clean_price_of_whole (n : Z) (price_str : string) (w : World) :
  0 <= n -> 100 * n < 2 ^ 53 ->
  PyStr.lstrip "$" price_str = PyStr.str_of_int n ->
  App.clean_price price_str w = (Ok (Some (100 * n)), w).
Proof.
  intros Hn Hb Hs.
  destruct (str_of_int_nonneg n Hn) as (d & Hd & Hstr & Hval).
  unfold App.clean_price. rewrite Hs, Hstr.
  rewrite (float_of_str_digits d Hd). rewrite Hval.
  erewrite bind_ok.
  2:{ unfold lift. rewrite (whole_dollars_to_cents n Hn Hb). reflexivity. }
  reflexivity.
Qed.

(** A price typed as a whole number of dollars, with or without the [$],
    is stored as exactly 100 times as many cents: nothing is lost in the
    float, up to [2 ^ 53] cents. *)
Theorem clean_price_whole_dollars (n : Z) (w : World) :
  0 <= n -> 100 * n < 2 ^ 53 ->
  App.clean_price (PyStr.str_of_int n) w = (Ok (Some (100 * n)), w)
  /\ App.clean_price (String "$" (PyStr.str_of_int n)) w
     = (Ok (Some (100 * n)), w).
Proof.
  intros Hn Hb.
  destruct (str_of_int_nonneg n Hn) as (d & Hd & Hstr & _).
  pose proof (string_of_uint_digits d) as Hdig. rewrite <- Hstr in Hdig.
  destruct (lstrip_dollar_digits _ Hdig) as [E1 E2].
  split; apply clean_price_of_whole; assumption.
Qed.

Lemma clean_price_whole_dollars_witness :
  App.clean_price "$5" (Sample.fresh_world []) 
  = (Ok (Some 500), Sample.fresh_world []).
Proof.
  apply (proj2 (clean_price_whole_dollars 5 (Sample.fresh_world [])
                  ltac:(lia) ltac:(lia))).
Defined.

(** The price that [backup_db] writes for a product is its number of
    cents; read back by [clean_price], as the import of products would, it
    comes out multiplied by 100. *)
Theorem backup_price_is_read_as_dollars
        (product : Product.t) (cents : Z) (w : World) :
  Product.product_price product = Some cents ->
  0 <= cents -> 100 * cents < 2 ^ 53 ->
  nth_error (App.backup_row product) 3 = Some (PyStr.str_of_int cents)
  /\ App.clean_price (PyStr.str_of_int cents) w
     = (Ok (Some (100 * cents)), w).
Proof.
  intros Hp Hn Hb. split.
  - unfold App.backup_row. rewrite Hp. reflexivity.
  - destruct (str_of_int_nonneg cents Hn) as (d & Hd & Hstr & _).
    pose proof (string_of_uint_digits d) as Hdig. rewrite <- Hstr in Hdig.
    destruct (lstrip_dollar_digits _ Hdig) as [E1 _].
    apply clean_price_of_whole; assumption.
Qed.

Lemma backup_price_is_read_as_dollars_witness :
  let p := Sample.product 2 "Candy" 7 1299 1 in
  nth_error (App.backup_row p) 3 = Some "1299"%string
  /\ App.clean_price "1299" (Sample.fresh_world [])
     = (Ok (Some 129900), Sample.fresh_world []).
Proof.
  intros p.
  apply (backup_price_is_read_as_dollars p 1299 (Sample.fresh_world []));
    [reflexivity | lia | lia].
Defined.

(** ** Adding a product, from the first prompt *)

(** Once the name is read and the three dialogues have returned,
    [add_product] is what follows them, in the world it was given with the
    lines that are left. *)
Lemma add_product_run
      (w w1 w2 w3 : World) (name_line : string) (rest0 : list string)
      (quantity_input price_input : Z) (brand_input : option Z) :
  stdin w = name_line :: rest0 ->
  App.get_quantity_input None (with_stdin w rest0) = (Ok quantity_input, w1) ->
  App.get_price_input None w1 = (Ok price_input, w2) ->
  App.get_brand_input None w2 = (Ok brand_input, w3) ->
  App.add_product w
  = App.add_product_save (PyStr.strip name_line) quantity_input price_input
                         brand_input (with_stdin w (stdin w3)).
Proof.
  intros Hin Hq Hpr Hb.
  pose proof (only_reads_run _ _ _ _
                (only_reads_get_quantity_input _) Hq) as E1.
  pose proof (only_reads_run _ _ _ _ (only_reads_get_price_input _) Hpr) as E2.
  pose proof (only_reads_run _ _ _ _ (only_reads_get_brand_input _) Hb) as E3.
  assert (E : w3 = with_stdin w (stdin w3)).
  { rewrite E3 at 1. rewrite E2. rewrite E1. reflexivity. }
  unfold App.add_product.
  erewrite bind_ok; [| apply input_cons; exact Hin]. cbv beta zeta.
  erewrite bind_ok; [| exact Hq].
  erewrite bind_ok; [| exact Hpr].
  erewrite bind_ok; [| exact Hb].
  rewrite <- E. reflexivity.
Qed.

(** C10. When a product is added under a name that the store already holds
    and the operator confirms with "y", the lines typed being ASCII and the
    integers typed being ones that the table can hold, no row is inserted:
    the row of that name with the latest [date_updated] gets the quantity,
    the price and the brand typed and the time of the clock, every other
    row is left as it was, the change is committed, and the number of
    products is what it was. *)
Theorem add_product_updates_latest_duplicate
        (w w1 w2 w3 : World) (name_line line : string)
        (rest0 rest : list string)
        (quantity_input price_input : Z) (brand_input : option Z) :
  stdin w = name_line :: rest0 ->
  forallb PyStr.is_ascii (stdin w) = true ->
  pending_fits (session w) = true ->
  App.get_quantity_input None (with_stdin w rest0) = (Ok quantity_input, w1) ->
  App.get_price_input None w1 = (Ok price_input, w2) ->
  App.get_brand_input None w2 = (Ok brand_input, w3) ->
  sqlite_int quantity_input = true ->
  sqlite_int price_input = true ->
  stdin w3 = line :: rest ->
  PyStr.lower (PyStr.strip line) = "y"%string ->
  App.products_by_name (session w) (PyStr.strip name_line) <> [] ->
  is_ok (App.humanize_price (Int price_input)) = true ->
  exists target,
    In target (products (working (session w)))
    /\ Product.product_name target = PyStr.strip name_line
    /\ (forall p, In p (products (working (session w))) ->
                  Product.product_name p = PyStr.strip name_line ->
                  Datetime.leb (Product.date_updated p)
                               (Product.date_updated target) = true)
    /\ fst (App.add_product w) = Ok tt
    /\ products (committed (session (snd (App.add_product w))))
       = map (fun r =>
                if Product.product_id r =? Product.product_id target then
                  {| Product.product_id := Product.product_id r;
                     Product.product_name := Product.product_name r;
                     Product.product_quantity := quantity_input;
                     Product.product_price := Some price_input;
                     Product.date_updated := clock w (ticks w);
                     Product.brand_id := brand_input |}
                else r)
             (products (working (session w)))
    /\ working (session (snd (App.add_product w)))
       = committed (session (snd (App.add_product w)))
    /\ brands (committed (session (snd (App.add_product w))))
       = brands (working (session w))
    /\ len (products (committed (session (snd (App.add_product w)))))
       = len (products (working (session w))).
Proof.
  intros Hin _ _ Hq Hpr Hb _ _ Hline Hy Hdup Hprice.
  rewrite (add_product_run w w1 w2 w3 name_line rest0 quantity_input
             price_input brand_input Hin Hq Hpr Hb).
  rewrite Hline.
  set (name := PyStr.strip name_line) in *.
  set (dups := order_by_desc Datetime.leb Product.date_updated
                             (App.products_by_name (session w) name)).
  assert (Hperm : Permutation dups (App.products_by_name (session w) name))
    by apply sort_perm.
  destruct dups as [| target ds] eqn:Edups.
  { apply Permutation_nil in Hperm. congruence. }
  assert (Hfirst : first (order_by_desc Datetime.leb Product.date_updated
                            (App.products_by_name (session w) name))
                   = Some target).
  { fold dups. rewrite Edups. reflexivity. }
  apply first_latest in Hfirst. destruct Hfirst as [Ht Hlatest].
  unfold App.products_by_name in Ht. apply filter_In in Ht.
  destruct Ht as [HtIn HtName]. apply String.eqb_eq in HtName.
  exists target.
  split; [exact HtIn |]. split; [exact HtName |].
  split.
  { intros p Hp Hn. apply Hlatest. unfold App.products_by_name.
    apply filter_In. split; [exact Hp | apply String.eqb_eq; exact Hn]. }
  assert (Hrun :
    App.add_product_save name quantity_input price_input brand_input
                         (with_stdin w (line :: rest))
    = (Ok tt,
       {| session :=
            commit (set_product (Product.product_id target) quantity_input
                                (Some price_input) brand_input
                                (clock w (ticks w)) (session w));
          stdin := rest; clock := clock w; ticks := S (ticks w);
          backup_file := backup_file w |})).
  { unfold App.add_product_save.
    erewrite bind_ok; [| reflexivity]. cbv beta zeta.
    cbn [with_stdin session]. fold dups. rewrite Edups.
    replace (0 <? count (target :: ds)) with true
      by (symmetry; apply Z.ltb_lt; unfold count; rewrite len_cons;
          pose proof (len_nonneg ds); lia).
    erewrite bind_ok.
    2:{ unfold lift.
        rewrite (getitem_nth (target :: ds) 0 target)
          by (rewrite len_cons; pose proof (len_nonneg ds); lia).
        reflexivity. }
    cbn [Z.to_nat nth].
    erewrite bind_ok; [| reflexivity].
    erewrite bind_ok; [| reflexivity].
    erewrite bind_ok.
    2:{ apply confirm_product_info_run with (line := line) (rest := rest);
        [reflexivity | exact Hprice]. }
    rewrite Hy. reflexivity. }
  rewrite Hrun. cbn [fst snd session committed working commit].
  split; [reflexivity |].
  rewrite set_product_products.
  split; [reflexivity |]. split; [reflexivity |]. split; [reflexivity |].
  unfold len. rewrite length_map. reflexivity.
Qed.

Lemma add_product_updates_latest_duplicate_witness :
  let w := Sample.world_of [Sample.kraft] Sample.candy_thrice
             ["Candy"; "3"; "2.50"; "x"; "Y"]%string in
  fst (App.add_product w) = Ok tt
  /\ products (committed (session (snd (App.add_product w))))
     = [Sample.product 1 "Water" 5 0 1;
        Sample.product 2 "Candy" 7 10 1;
        {| Product.product_id := 3; Product.product_name := "Candy";
           Product.product_quantity := 3; Product.product_price := Some 250;
           Product.date_updated := Sample.noon; Product.brand_id := None |};
        Sample.product 4 "Candy" 9 30 1].
Proof.
  intros w.
  destruct (add_product_updates_latest_duplicate
              w (with_stdin w ["2.50"; "x"; "Y"]%string)
              (with_stdin w ["x"; "Y"]%string)
              (with_stdin w ["Y"]%string)
              "Candy" "Y" ["3"; "2.50"; "x"; "Y"]%string [] 3 250 None)
    as (target & Hin & Hname & Hlatest & Hok & Hprod & _).
  - reflexivity.
  - reflexivity.
  - reflexivity.
  - vm_compute. reflexivity.
  - vm_compute. reflexivity.
  - vm_compute. reflexivity.
  - reflexivity.
  - reflexivity.
  - reflexivity.
  - reflexivity.
  - vm_compute. discriminate.
  - vm_compute. reflexivity.
  - split; [exact Hok |]. rewrite Hprod.
    assert (Hl : Datetime.leb Sample.evening (Product.date_updated target)
                 = true).
    { apply (Hlatest (nth 2 Sample.candy_thrice target)).
      - right. right. left. reflexivity.
      - reflexivity. }
    destruct Hin as [<- | [<- | [<- | [<- | []]]]].
    + discriminate Hname.
    + discriminate Hl.
    + reflexivity.
    + discriminate Hl.
Defined.

(** Under a name that the store does not hold, [add_product] inserts on
    "y" only, the lines typed being ASCII and the integers typed and the
    next id being ones that the table can hold: the answer "y" appends one
    row with the values typed, the time of the clock and an id that no row
    has, leaves the other rows as they were and commits; any other answer
    leaves the session as it was. *)
Theorem add_product_inserts_on_yes_only
        (w w1 w2 w3 : World) (name_line line : string)
        (rest0 rest : list string)
        (quantity_input price_input : Z) (brand_input : option Z) :
  stdin w = name_line :: rest0 ->
  forallb PyStr.is_ascii (stdin w) = true ->
  pending_fits (session w) = true ->
  App.get_quantity_input None (with_stdin w rest0) = (Ok quantity_input, w1) ->
  App.get_price_input None w1 = (Ok price_input, w2) ->
  App.get_brand_input None w2 = (Ok brand_input, w3) ->
  sqlite_int quantity_input = true ->
  sqlite_int price_input = true ->
  sqlite_int (next_id (map Product.product_id
                           (products (working (session w))))) = true ->
  stdin w3 = line :: rest ->
  App.products_by_name (session w) (PyStr.strip name_line) = [] ->
  is_ok (App.humanize_price (Int price_input)) = true ->
  let new_id :=
    next_id (map Product.product_id (products (working (session w)))) in
  let row :=
    {| Product.product_id := new_id;
       Product.product_name := PyStr.strip name_line;
       Product.product_quantity := quantity_input;
       Product.product_price := Some price_input;
       Product.date_updated := clock w (ticks w);
       Product.brand_id := brand_input |} in
  let saved :=
    {| brands := brands (working (session w));
       products := products (working (session w)) ++ [row] |} in
  ~ In new_id (map Product.product_id (products (working (session w))))
  /\ App.add_product w
     = (Ok tt,
        if String.eqb (PyStr.lower (PyStr.strip line)) "y" then
          {| session := {| committed := saved; working := saved |};
             stdin := rest; clock := clock w; ticks := S (ticks w);
             backup_file := backup_file w |}
        else with_stdin w rest).
Proof.
  intros Hin _ _ Hq Hpr Hb _ _ _ Hline Hnew Hprice new_id row saved.
  rewrite (add_product_run w w1 w2 w3 name_line rest0 quantity_input
             price_input brand_input Hin Hq Hpr Hb).
  rewrite Hline.
  destruct (add_product_save_inserts
              (PyStr.strip name_line) quantity_input price_input brand_input
              line rest (with_stdin w (line :: rest)) Hnew eq_refl Hprice)
    as [Hfresh Hrun].
  split; [exact Hfresh |].
  rewrite Hrun. reflexivity.
Qed.

Lemma add_product_inserts_on_yes_only_witness :
  let w := Sample.world_of [Sample.kraft] Sample.two_products
             [" Gum "; "4"; "1.25"; "1"; " Y "; "next"]%string in
  products (committed (session (snd (App.add_product w))))
  = Sample.two_products ++ [Sample.product 3 "Gum" 4 125 1].
Proof.
  intros w.
  destruct (add_product_inserts_on_yes_only
              w (with_stdin w ["1.25"; "1"; " Y "; "next"]%string)
              (with_stdin w ["1"; " Y "; "next"]%string)
              (with_stdin w [" Y "; "next"]%string)
              " Gum " " Y " ["4"; "1.25"; "1"; " Y "; "next"]%string
              ["next"%string] 4 125 (Some 1)) as [_ H].
  - reflexivity.
  - reflexivity.
  - reflexivity.
  - vm_compute. reflexivity.
  - vm_compute. reflexivity.
  - vm_compute. reflexivity.
  - reflexivity.
  - reflexivity.
  - reflexivity.
  - reflexivity.
  - reflexivity.
  - vm_compute. reflexivity.
  - rewrite H. reflexivity.
Defined.

(** Under a name that the store holds, an answer other than "y" does not
    undo what [add_product] has already assigned, the lines typed being
    ASCII and the integers typed being ones that the table can hold: the
    row of that name with the latest [date_updated] has the values typed and
    the time of the clock in the pending tables, which later queries read
    and the next commit saves, while the committed tables are what they
    were. *)
Theorem add_product_declined_overwrite_stays_pending
        (w w1 w2 w3 : World) (name_line line : string)
        (rest0 rest : list string)
        (quantity_input price_input : Z) (brand_input : option Z) :
  stdin w = name_line :: rest0 ->
  forallb PyStr.is_ascii (stdin w) = true ->
  pending_fits (session w) = true ->
  App.get_quantity_input None (with_stdin w rest0) = (Ok quantity_input, w1) ->
  App.get_price_input None w1 = (Ok price_input, w2) ->
  App.get_brand_input None w2 = (Ok brand_input, w3) ->
  sqlite_int quantity_input = true ->
  sqlite_int price_input = true ->
  stdin w3 = line :: rest ->
  PyStr.lower (PyStr.strip line) <> "y"%string ->
  App.products_by_name (session w) (PyStr.strip name_line) <> [] ->
  is_ok (App.humanize_price (Int price_input)) = true ->
  exists target,
    In target (products (working (session w)))
    /\ Product.product_name target = PyStr.strip name_line
    /\ App.add_product w
       = (Ok tt,
          {| session :=
               {| committed := committed (session w);
                  working :=
                    working (set_product (Product.product_id target)
                                         quantity_input (Some price_input)
                                         brand_input (clock w (ticks w))
                                         (session w)) |};
             stdin := rest; clock := clock w; ticks := S (ticks w);
             backup_file := backup_file w |})
    /\ In {| Product.product_id := Product.product_id target;
             Product.product_name := PyStr.strip name_line;
             Product.product_quantity := quantity_input;
             Product.product_price := Some price_input;
             Product.date_updated := clock w (ticks w);
             Product.brand_id := brand_input |}
          (products (working (set_product (Product.product_id target)
                                          quantity_input (Some price_input)
                                          brand_input (clock w (ticks w))
                                          (session w)))).
Proof.
  intros Hin _ _ Hq Hpr Hb _ _ Hline Hn Hdup Hprice.
  rewrite (add_product_run w w1 w2 w3 name_line rest0 quantity_input
             price_input brand_input Hin Hq Hpr Hb).
  rewrite Hline.
  destruct (add_product_save_declined_overwrite
              (PyStr.strip name_line) quantity_input price_input brand_input
              line rest (with_stdin w (line :: rest)) Hdup eq_refl Hn Hprice)
    as (target & HtIn & HtName & Hrun & Hrow).
  exists target.
  split; [exact HtIn |]. split; [exact HtName |].
  split; [rewrite Hrun; reflexivity | exact Hrow].
Qed.

Lemma add_product_declined_overwrite_stays_pending_witness :
  let w := Sample.world_of [Sample.kraft] Sample.two_products
             ["Candy"; "3"; "2.50"; "x"; "n"; "next"]%string in
  let w' := snd (App.add_product w) in
  products (committed (session w')) = Sample.two_products
  /\ products (working (session w'))
     = [Sample.product 1 "Water" 5 0 1;
        {| Product.product_id := 2; Product.product_name := "Candy";
           Product.product_quantity := 3; Product.product_price := Some 250;
           Product.date_updated := Sample.noon; Product.brand_id := None |}].
Proof.
  intros w.
  destruct (add_product_declined_overwrite_stays_pending
              w (with_stdin w ["2.50"; "x"; "n"; "next"]%string)
              (with_stdin w ["x"; "n"; "next"]%string)
              (with_stdin w ["n"; "next"]%string)
              "Candy" "n" ["3"; "2.50"; "x"; "n"; "next"]%string
              ["next"%string] 3 250 None)
    as (target & Ht & Hname & H & _).
  - reflexivity.
  - reflexivity.
  - reflexivity.
  - vm_compute. reflexivity.
  - vm_compute. reflexivity.
  - vm_compute. reflexivity.
  - reflexivity.
  - reflexivity.
  - reflexivity.
  - vm_compute. discriminate.
  - vm_compute. discriminate.
  - vm_compute. reflexivity.
  - assert (E : target = Sample.product 2 "Candy" 7 10 1).
    { destruct Ht as [<- | [<- | []]];
        [vm_compute in Hname; discriminate Hname | reflexivity]. }
    subst target. rewrite H. split; reflexivity.
Defined.

(** ** The median price of the analysis *)

(** C6, as stated, fails on large prices. In a store of two products priced
    [2 ^ 53] and [2 ^ 53 + 1] cents, the median price that
    [analyze_products] computes is the float [2 ^ 53], the lesser of the
    two prices, and not their average [2 ^ 53 + 1 / 2]: the sum of the two
    central prices is divided into a binary64 float, which holds 53 bits. *)
Lemma median_of_large_prices_is_not_average :
  exists a text w' x,
    App.analyze_products Sample.large_prices_world = (Ok (a, text), w')
    /\ Statistics.median [9007199254740992; 9007199254740993]
       = Ok (App.median_price a)
    /\ App.median_price a = Float x
    /\ (Float64.to_Q x == 9007199254740992 # 1)%Q
    /\ ~ (Float64.to_Q x
          == (9007199254740992 + 9007199254740993) # 2)%Q.
Proof.
  pose (r := App.analyze_products Sample.large_prices_world).
  assert (E : App.analyze_products Sample.large_prices_world = r)
    by reflexivity.
  vm_compute in r.
  do 3 eexists. exists (S754_finite false 4503599627370496 1).
  split; [exact E |].
  split; [vm_compute; reflexivity |].
  split; [reflexivity |].
  split; [vm_compute; reflexivity |].
  intros H. vm_compute in H. discriminate H.
Qed.

(** C6, amended. When [analyze_products] returns, with [P] the prices of
    the products and [S] the list [P] sorted (any ascending list with the
    elements of [P]): when the number of prices is odd the median price is
    the middle element of [S]; when it is even the median price is the float
    that Python's division gives for [(lo + hi) / 2], with [lo] and [hi] the
    two central elements of [S], and that float is their average when
    [lo + hi] is below [2 ^ 53] in absolute value. *)
Theorem analysis_median_of_sorted_prices
        (w w' : World) (a : App.Analysis) (text : list string)
        (P S : list Z) :
  App.analyze_products w = (Ok (a, text), w') ->
  map Product.product_price (products (working (session w))) = map Some P ->
  Permutation S P ->
  StronglySorted Z.le S ->
  let n := len P in
  let lo := nth (Z.to_nat (n / 2 - 1)) S 0 in
  let hi := nth (Z.to_nat (n / 2)) S 0 in
  0 < n
  /\ (n mod 2 = 1 -> App.median_price a = Int hi)
  /\ (n mod 2 = 0 ->
      exists x, truediv (lo + hi) 2 = Ok x /\ App.median_price a = Float x)
  /\ (n mod 2 = 0 -> Z.abs (lo + hi) < 2 ^ 53 ->
      exists x, App.median_price a = Float x
                /\ (Float64.to_Q x == (lo + hi) # 2)%Q).
Proof.
  intros H HP Hperm Hsorted n lo hi.
  destruct (analyze_products_statistics w w' a text H)
    as (P' & HP' & _ & _ & Hmed & _).
  destruct (analyze_products_fields w w' a text H) as (Hne & _).
  apply numbers_ok in HP'. rewrite HP in HP'.
  assert (EP : P' = P).
  { clear - HP'. revert P' HP'.
    induction P as [| x P IH]; intros [| y P'] E; try discriminate E.
    - reflexivity.
    - cbn [map] in E. inversion E; subst. f_equal. apply IH. assumption. }
  subst P'.
  assert (HPne : P <> []).
  { intros ->. cbn [map] in HP. apply map_eq_nil in HP. exact (Hne HP). }
  destruct (median_of_sorted P S HPne Hperm Hsorted) as [Hodd Heven].
  fold n in Hodd, Heven. fold lo hi in Heven. fold hi in Hodd.
  split; [apply len_pos; exact HPne |].
  split; [| split].
  - intros Hpar. specialize (Hodd Hpar). rewrite Hmed in Hodd.
    inversion Hodd. reflexivity.
  - intros Hpar. destruct (Heven Hpar) as [Hq _]. rewrite Hmed in Hq.
    destruct (truediv (lo + hi) 2) as [x | e]; cbn [Py.bind] in Hq.
    + exists x. split; [reflexivity |]. inversion Hq. reflexivity.
    + discriminate Hq.
  - intros Hpar Hsmall. destruct (Heven Hpar) as [_ Hx].
    destruct (Hx Hsmall) as [x [Ex Hq]]. rewrite Hmed in Ex.
    exists x. split; [inversion Ex; reflexivity | exact Hq].
Qed.

Lemma analysis_median_of_sorted_prices_witness :
  exists a text w' x,
    App.analyze_products Sample.four_products_world = (Ok (a, text), w')
    /\ App.median_price a = Float x
    /\ (Float64.to_Q x == (999 + 1299) # 2)%Q.
Proof.
  pose (r := App.analyze_products Sample.four_products_world).
  assert (E : App.analyze_products Sample.four_products_world = r)
    by reflexivity.
  vm_compute in r.
  destruct (analysis_median_of_sorted_prices
              _ _ _ _ [999; 1299; 1299; 500] [500; 999; 1299; 1299] E)
    as (_ & _ & _ & Heven).
  - reflexivity.
  - apply (Permutation_cons_app [999; 1299; 1299] [] 500).
    apply Permutation_refl.
  - repeat constructor; lia.
  - destruct (Heven eq_refl) as (x & Hx & Hq).
    + vm_compute. reflexivity.
    + do 3 eexists. exists x. split; [exact E |].
      split; [exact Hx | exact Hq].
Defined.
